(** * ISO 10962 CFI code validator: a shallow embedding and its properties

    The development follows the two modules of the repository:

    - [cfi_validator.py]: the compact validator, returning [(bool, str)],
      embedded in [Module Basic];
    - [cfi_validator_test.py]: the enhanced validator, returning
      [(bool, str, dict)] with a per-position decomposition, embedded in
      [Module Enhanced].

    Both modules carry textually identical copies of the class-level tables
    [CATEGORIES], [GROUPS] and [ATTRIBUTES]; they are transcribed once.

    Python values are modelled as follows: a [str] is a list of Unicode code
    points ([N]); a [dict] is an association list in insertion order (the
    order is observable through [', '.join(d.keys())]); an [int] is a [Z];
    an exception is the [Raise] constructor of the [result] type; [print]
    appends one entry to an output log. *)

From Stdlib Require Import List String Ascii NArith ZArith Bool Lia DecimalString.
Import ListNotations.

Local Open Scope list_scope.

(* ------------------------------------------------------------------ *)
(** ** Python strings *)

Definition pystr : Type := list N.

(** String literals of the source, as code points. *)
Fixpoint lit (s : string) : pystr :=
  match s with
  | EmptyString => []
  | String a s' => N_of_ascii a :: lit s'
  end.

Fixpoint pystr_eqb (a b : pystr) : bool :=
  match a, b with
  | [], [] => true
  | x :: a', y :: b' => N.eqb x y && pystr_eqb a' b'
  | _, _ => false
  end.

(** The part of the Unicode character database that [str.isalpha],
    [str.upper] and [str.lower] consult outside ASCII.  Full case mapping
    sends one code point to one code point or more, never to none, hence
    the head-and-tail result type. *)
Record unicode_db : Type := {
  uni_isalpha : N -> bool;
  uni_upper : N -> N * list N;
  uni_lower : N -> N * list N
}.

Definition is_ascii_upper (c : N) : bool := (65 <=? c)%N && (c <=? 90)%N.
Definition is_ascii_lower (c : N) : bool := (97 <=? c)%N && (c <=? 122)%N.
Definition is_ascii_letter (c : N) : bool := is_ascii_upper c || is_ascii_lower c.
Definition ascii_upper (c : N) : N := if is_ascii_lower c then (c - 32)%N else c.
Definition ascii_lower (c : N) : N := if is_ascii_upper c then (c + 32)%N else c.

(** The database that treats every code point above ASCII as a caseless
    non-letter; used for concrete evaluations. *)
Definition ascii_only : unicode_db :=
  {| uni_isalpha := fun _ => false;
     uni_upper := fun c => (c, []);
     uni_lower := fun c => (c, []) |}.

Section Str.
Variable U : unicode_db.

Definition isalpha_cp (c : N) : bool :=
  if (c <? 128)%N then is_ascii_letter c else uni_isalpha U c.

Definition upper_cp (c : N) : list N :=
  if (c <? 128)%N then [ascii_upper c]
  else let (h, t) := uni_upper U c in h :: t.

Definition lower_cp (c : N) : list N :=
  if (c <? 128)%N then [ascii_lower c]
  else let (h, t) := uni_lower U c in h :: t.

(** [s.isalpha()]: at least one character and all of them alphabetic. *)
Definition str_isalpha (s : pystr) : bool :=
  negb (Nat.eqb (List.length s) 0) && forallb isalpha_cp s.

(** [s.upper()] and [s.lower()]. *)
Definition str_upper (s : pystr) : pystr := flat_map upper_cp s.
Definition str_lower (s : pystr) : pystr := flat_map lower_cp s.
End Str.

(** [', '.join(parts)] for any separator. *)
Fixpoint join (sep : pystr) (parts : list pystr) : pystr :=
  match parts with
  | [] => []
  | [p] => p
  | p :: rest => p ++ sep ++ join sep rest
  end.

(** [str(n)] for an [int], as an f-string renders it. *)
Definition str_of_int (z : Z) : pystr := lit (NilZero.string_of_int (Z.to_int z)).

(* ------------------------------------------------------------------ *)
(** ** Exceptions and results *)

Inductive exn : Type := TypeError | AttributeError | IndexError | KeyError.

Inductive result (A : Type) : Type :=
| Ok (a : A)
| Raise (e : exn).
Arguments Ok {A} a.
Arguments Raise {A} e.

Definition bind {A B : Type} (m : result A) (k : A -> result B) : result B :=
  match m with
  | Ok a => k a
  | Raise e => Raise e
  end.

Notation "x <- m ;; k" := (bind m (fun x => k))
  (at level 61, m at next level, right associativity).

(** [s[i]], with Python's negative indices; the result is a one-character
    string. *)
Definition str_index (s : pystr) (i : Z) : result pystr :=
  let n := Z.of_nat (List.length s) in
  let j := if (i <? 0)%Z then (i + n)%Z else i in
  if ((0 <=? j) && (j <? n))%Z
  then match nth_error s (Z.to_nat j) with
       | Some c => Ok [c]
       | None => Raise IndexError
       end
  else Raise IndexError.

(** [range(lo, hi)]. *)
Definition range (lo hi : Z) : list Z :=
  map (fun i => (lo + Z.of_nat i)%Z) (seq 0 (Z.to_nat (hi - lo))).

(* ------------------------------------------------------------------ *)
(** ** Dictionaries *)

Definition dict (K V : Type) : Type := list (K * V).

Section Dict.
Context {K V : Type} (eqb : K -> K -> bool).

Fixpoint dict_lookup (k : K) (d : dict K V) : option V :=
  match d with
  | [] => None
  | (k', v) :: d' => if eqb k k' then Some v else dict_lookup k d'
  end.

(** [k in d] *)
Definition dict_mem (k : K) (d : dict K V) : bool :=
  match dict_lookup k d with Some _ => true | None => false end.

(** [d[k]] *)
Definition dict_getitem (d : dict K V) (k : K) : result V :=
  match dict_lookup k d with Some v => Ok v | None => Raise KeyError end.

(** [d.get(k, default)] *)
Definition dict_get (d : dict K V) (k : K) (default : V) : V :=
  match dict_lookup k d with Some v => v | None => default end.

(** [d[k] = v]: an existing key keeps its place, a new key goes last. *)
Fixpoint dict_set (k : K) (v : V) (d : dict K V) : dict K V :=
  match d with
  | [] => [(k, v)]
  | (k', v') :: d' =>
      if eqb k k' then (k, v) :: d' else (k', v') :: dict_set k v d'
  end.
End Dict.

(** [d.keys()], in insertion order. *)
Definition dict_keys {K V : Type} (d : dict K V) : list K := map fst d.

(** [k in d.keys()] for string keys. *)
Definition keys_mem (k : pystr) (keys : list pystr) : bool :=
  existsb (pystr_eqb k) keys.

(* ------------------------------------------------------------------ *)
(** ** Python values reaching [validate] *)

#[warnings="-register-all"]
Inductive pyval : Type :=
| PyNone
| PyBool (b : bool)
| PyInt (z : Z)
| PyStr (s : pystr)
| PyBytes (b : list N)
| PyList (l : list pyval).

(** [bool(v)] *)
Definition truthy (v : pyval) : bool :=
  match v with
  | PyNone => false
  | PyBool b => b
  | PyInt z => negb (z =? 0)%Z
  | PyStr s => negb (Nat.eqb (List.length s) 0)
  | PyBytes b => negb (Nat.eqb (List.length b) 0)
  | PyList l => negb (Nat.eqb (List.length l) 0)
  end.

(** [isinstance(v, str)] *)
Definition isinstance_str (v : pyval) : bool :=
  match v with PyStr _ => true | _ => false end.

(** [len(v)] *)
Definition py_len (v : pyval) : result Z :=
  match v with
  | PyStr s => Ok (Z.of_nat (List.length s))
  | PyBytes b => Ok (Z.of_nat (List.length b))
  | PyList l => Ok (Z.of_nat (List.length l))
  | _ => Raise TypeError
  end.

(** The receiver of a [str] method call. *)
Definition as_str (v : pyval) : result pystr :=
  match v with
  | PyStr s => Ok s
  | _ => Raise AttributeError
  end.

(* ------------------------------------------------------------------ *)
(** ** The taxonomy tables (class attributes of [CFIValidator]) *)

Notation "k =: v" := (lit k, lit v) (at level 50, no associativity).

Definition POSITION_DESCRIPTIONS : dict Z pystr :=
  [ (1%Z, lit "Category - Primary classification of the financial instrument");
    (2%Z, lit "Group - Secondary classification within the category");
    (3%Z, lit "Attribute 1 - Specific characteristics related to the instrument type");
    (4%Z, lit "Attribute 2 - Additional characteristics/features");
    (5%Z, lit "Attribute 3 - Further specification of the instrument");
    (6%Z, lit "Attribute 4 - Final specification details") ].

Definition CATEGORIES : dict pystr pystr :=
  [ "E" =: "Equities";
    "D" =: "Debt instruments";
    "R" =: "Entitlements (Rights)";
    "O" =: "Options";
    "F" =: "Futures";
    "S" =: "Swaps";
    "H" =: "Forward rate agreements and forward foreign exchange";
    "M" =: "Others/Miscellaneous";
    "I" =: "Spot";
    "J" =: "Deposits, Credits and Current accounts";
    "K" =: "Loans";
    "L" =: "Spot foreign exchange";
    "T" =: "Referential instruments" ].

Definition GROUPS : dict pystr (dict pystr pystr) :=
  [ (lit "E",
       [ "S" =: "Shares";
         "U" =: "Units (e.g., Unit trusts/Mutual funds)";
         "F" =: "Exchange Traded Funds (ETF)";
         "L" =: "Limited partnership units";
         "H" =: "Equity-held investment instruments";
         "R" =: "Real Estate Investment Trusts (REITs)";
         "P" =: "Protected and guaranteed equities";
         "C" =: "Cooperative";
         "X" =: "Other/Miscellaneous equities" ]);
    (lit "D",
       [ "B" =: "Bonds";
         "T" =: "Treasury notes/bonds";
         "C" =: "Convertible bonds";
         "Y" =: "Money market instruments";
         "G" =: "Structured instruments (with capital guarantee)";
         "F" =: "Bonds with warrants attached";
         "P" =: "Perpetual bonds";
         "S" =: "Structured instruments (without capital guarantee)";
         "I" =: "Inflation linked bonds" ]);
    (lit "R",
       [ "S" =: "Subscription rights";
         "D" =: "Dividend right certificates";
         "P" =: "Preference";
         "L" =: "Loyalty premiums";
         "F" =: "Founders shares";
         "Q" =: "Preference shares";
         "W" =: "Warrants";
         "B" =: "Redeemable preferred stocks";
         "T" =: "Miscellaneous entitlements" ]);
    (lit "O",
       [ "C" =: "Call options";
         "P" =: "Put options";
         "X" =: "Options on options";
         "W" =: "Warrants";
         "F" =: "Future options";
         "S" =: "Spread options";
         "R" =: "Basket options";
         "I" =: "Index options";
         "J" =: "Currency options" ]);
    (lit "F",
       [ "F" =: "Financial futures";
         "X" =: "Options on futures";
         "I" =: "Index futures";
         "R" =: "Interest rate futures";
         "E" =: "Currency futures";
         "C" =: "Commodity futures";
         "O" =: "Other futures";
         "W" =: "Weather-related futures";
         "B" =: "Bond futures" ]);
    (lit "S",
       [ "I" =: "Interest rate";
         "F" =: "Foreign exchange";
         "B" =: "Basis";
         "X" =: "Exchange swaps and cross-currency swaps";
         "S" =: "Securities";
         "W" =: "Weather-related swaps";
         "R" =: "Return swaps";
         "K" =: "Commodity";
         "P" =: "Options on swaps (swaptions)" ]);
    (lit "H",
       [ "F" =: "Forward foreign exchange agreements";
         "I" =: "Forward rate agreements";
         "X" =: "Other" ]);
    (lit "M",
       [ "C" =: "Commodity";
         "R" =: "Reference rate";
         "O" =: "Other";
         "F" =: "Foreign exchange" ]);
    (lit "I",
       [ "X" =: "Other";
         "F" =: "Foreign exchange";
         "C" =: "Commodity";
         "E" =: "Equity";
         "S" =: "Securities";
         "O" =: "Options" ]);
    (lit "J",
       [ "D" =: "Deposits";
         "C" =: "Credits";
         "N" =: "Non-redeemable money market instruments";
         "R" =: "Redeemable money market instruments";
         "S" =: "Structured capital guarantee" ]);
    (lit "K",
       [ "L" =: "Leveraged";
         "C" =: "Consumer";
         "M" =: "Mortgage";
         "S" =: "Syndicated";
         "G" =: "Government";
         "P" =: "Private";
         "F" =: "Federal agency";
         "A" =: "Agriculture" ]);
    (lit "L",
       [ "S" =: "Spot" ]);
    (lit "T",
       [ "I" =: "Interest/Yield rates";
         "R" =: "Reference rates";
         "F" =: "Foreign exchange rates";
         "U" =: "Economic indicators";
         "V" =: "Inflation rates";
         "N" =: "Reference indexes" ]) ].

Definition ATTRIBUTES : dict pystr (dict Z (dict pystr pystr)) :=
  [ (lit "ES",
       [ (3%Z, [ "V" =: "Voting";
               "N" =: "Non-voting";
               "R" =: "Restricted voting";
               "X" =: "Not applicable/Not specified" ]);
         (4%Z, [ "R" =: "Restricted";
               "N" =: "Free";
               "X" =: "Not applicable/Not specified" ]);
         (5%Z, [ "P" =: "Partly paid";
               "F" =: "Fully paid";
               "X" =: "Not applicable/Not specified" ]);
         (6%Z, [ "B" =: "Bearer";
               "R" =: "Registered";
               "X" =: "Not applicable/Not specified" ]) ]);
    (lit "EU",
       [ (3%Z, [ "O" =: "Open-end";
               "C" =: "Closed-end";
               "X" =: "Not applicable/Not specified" ]);
         (4%Z, [ "R" =: "Restricted";
               "N" =: "Free";
               "X" =: "Not applicable/Not specified" ]);
         (5%Z, [ "D" =: "Limited dividend";
               "C" =: "Cumulative";
               "X" =: "Not applicable/Not specified" ]);
         (6%Z, [ "B" =: "Bearer";
               "R" =: "Registered";
               "X" =: "Not applicable/Not specified" ]) ]);
    (lit "EF",
       [ (3%Z, [ "O" =: "Open-end";
               "C" =: "Closed-end";
               "X" =: "Not applicable/Not specified" ]);
         (4%Z, [ "R" =: "Restricted";
               "N" =: "Free";
               "X" =: "Not applicable/Not specified" ]);
         (5%Z, [ "S" =: "Synthetic";
               "P" =: "Physical";
               "H" =: "Hybrid";
               "X" =: "Not applicable/Not specified" ]);
         (6%Z, [ "B" =: "Bearer";
               "R" =: "Registered";
               "X" =: "Not applicable/Not specified" ]) ]);
    (lit "DB",
       [ (3%Z, [ "F" =: "Fixed rate";
               "Z" =: "Zero coupon";
               "V" =: "Variable rate";
               "I" =: "Inflation linked";
               "X" =: "Not applicable/Not specified" ]);
         (4%Z, [ "S" =: "Secured/Collateralized";
               "U" =: "Unsecured/Uncollateralized";
               "X" =: "Not applicable/Not specified" ]);
         (5%Z, [ "G" =: "Government/State guarantee";
               "S" =: "Supranational guarantee";
               "C" =: "Corporate guarantee";
               "X" =: "Not applicable/Not specified" ]);
         (6%Z, [ "B" =: "Bearer";
               "R" =: "Registered";
               "X" =: "Not applicable/Not specified" ]) ]);
    (lit "DT",
       [ (3%Z, [ "F" =: "Fixed rate";
               "Z" =: "Zero coupon";
               "V" =: "Variable rate";
               "I" =: "Inflation linked";
               "X" =: "Not applicable/Not specified" ]);
         (4%Z, [ "S" =: "Secured/Collateralized";
               "U" =: "Unsecured/Uncollateralized";
               "X" =: "Not applicable/Not specified" ]);
         (5%Z, [ "G" =: "Government/State guarantee";
               "S" =: "Supranational guarantee";
               "X" =: "Not applicable/Not specified" ]);
         (6%Z, [ "B" =: "Bearer";
               "R" =: "Registered";
               "X" =: "Not applicable/Not specified" ]) ]);
    (lit "OC",
       [ (3%Z, [ "A" =: "American";
               "B" =: "Bermuda";
               "E" =: "European";
               "X" =: "Not applicable/Not specified" ]);
         (4%Z, [ "S" =: "Standard";
               "N" =: "Non-standard";
               "X" =: "Not applicable/Not specified" ]);
         (5%Z, [ "P" =: "Physical";
               "C" =: "Cash";
               "X" =: "Not applicable/Not specified" ]);
         (6%Z, [ "X" =: "Not applicable/Not specified" ]) ]);
    (lit "OP",
       [ (3%Z, [ "A" =: "American";
               "B" =: "Bermuda";
               "E" =: "European";
               "X" =: "Not applicable/Not specified" ]);
         (4%Z, [ "S" =: "Standard";
               "N" =: "Non-standard";
               "X" =: "Not applicable/Not specified" ]);
         (5%Z, [ "P" =: "Physical";
               "C" =: "Cash";
               "X" =: "Not applicable/Not specified" ]);
         (6%Z, [ "X" =: "Not applicable/Not specified" ]) ]);
    (lit "FF",
       [ (3%Z, [ "X" =: "Not applicable/Not specified" ]);
         (4%Z, [ "S" =: "Standard";
               "N" =: "Non-standard";
               "X" =: "Not applicable/Not specified" ]);
         (5%Z, [ "P" =: "Physical";
               "C" =: "Cash";
               "X" =: "Not applicable/Not specified" ]);
         (6%Z, [ "X" =: "Not applicable/Not specified" ]) ]);
    (lit "SI",
       [ (3%Z, [ "F" =: "Fixed-floating";
               "L" =: "Fixed-fixed";
               "V" =: "Floating-floating";
               "X" =: "Not applicable/Not specified" ]);
         (4%Z, [ "S" =: "Single currency";
               "M" =: "Multi-currency";
               "X" =: "Not applicable/Not specified" ]);
         (5%Z, [ "X" =: "Not applicable/Not specified" ]);
         (6%Z, [ "X" =: "Not applicable/Not specified" ]) ]) ].

(* ------------------------------------------------------------------ *)
(** ** Messages (the f-strings and literals returned by both validators) *)

Definition msg_not_a_string : pystr := lit "CFI code must be a string".
Definition msg_bad_length : pystr := lit "CFI code must be exactly 6 characters".
Definition msg_not_alphabetic : pystr :=
  lit "CFI code must contain only alphabetic characters".

Definition msg_invalid_category (category : pystr) (keys : list pystr) : pystr :=
  lit "Invalid category '" ++ category ++ lit "'. Must be one of: "
    ++ join (lit ", ") keys.

Definition msg_invalid_group (group category : pystr) (keys : list pystr) : pystr :=
  lit "Invalid group '" ++ group ++ lit "' for category '" ++ category
    ++ lit "'. Valid groups: " ++ join (lit ", ") keys.

Definition msg_invalid_attribute
    (char : pystr) (position_index : Z) (category_group : pystr)
    (valid_chars : list pystr) : pystr :=
  lit "Invalid attribute '" ++ char ++ lit "' at position "
    ++ str_of_int position_index ++ lit " for " ++ category_group
    ++ lit ". Valid options: " ++ join (lit ", ") valid_chars.

Definition msg_must_be_alphabetic (position_index : Z) : pystr :=
  lit "Character at position " ++ str_of_int position_index
    ++ lit " must be alphabetic".

Definition msg_valid (category_desc group_desc : pystr) : pystr :=
  lit "Valid CFI code for " ++ category_desc ++ lit " - " ++ group_desc.

(* ------------------------------------------------------------------ *)
(** ** Console output

    A computation that prints: the lines handed to [print], in order, and
    either a value or the exception that stopped it. *)

Definition out (A : Type) : Type := (list pystr * result A)%type.

Definition print (line : pystr) : out unit := ([line], Ok tt).

Definition lift {A : Type} (r : result A) : out A := ([], r).

Definition out_bind {A B : Type} (m : out A) (k : A -> out B) : out B :=
  match m with
  | (printed, Ok a) => let (more, r) := k a in (printed ++ more, r)
  | (printed, Raise e) => (printed, Raise e)
  end.

Notation "x <~ m ;; k" := (out_bind m (fun x => k))
  (at level 61, m at next level, right associativity).
Notation "m ;;; k" := (out_bind m (fun _ => k))
  (at level 61, right associativity).

(** [for x in xs: body(x)] for a printing body. *)
Fixpoint for_each {A : Type} (xs : list A) (body : A -> out unit) : out unit :=
  match xs with
  | [] => ([], Ok tt)
  | x :: rest => body x ;;; for_each rest body
  end.

(** [s[lo:hi]] for indices within [0 .. len(s)]. *)
Definition str_slice (s : pystr) (lo hi : nat) : pystr :=
  firstn (hi - lo) (skipn lo s).

(** The line [f"  {key} - {value}"] of an option listing. *)
Definition option_line (kv : pystr * pystr) : pystr :=
  lit "  " ++ fst kv ++ lit " - " ++ snd kv.

(** The escape [\n] of the source literals. *)
Definition nl : pystr := [10%N].

Definition X : pystr := lit "X".
Definition not_applicable : pystr := lit "Not applicable/Not specified".

(* ------------------------------------------------------------------ *)
(** ** Console dialogue

    The interactive functions read lines with [input(prompt)] and write
    with [print].  A run is a function of the lines still to be typed: it
    yields the console events in order, the lines left unread, and how it
    ended.  [input] on an exhausted input raises [EOFError]. *)

Inductive io_event : Type :=
| Printed (line : pystr)
| Prompted (prompt : pystr).

Inductive answer (A : Type) : Type :=
| Returned (a : A)
| EOFError
| Failed (e : exn).
Arguments Returned {A} a.
Arguments EOFError {A}.
Arguments Failed {A} e.

Definition io (A : Type) : Type :=
  list pystr -> list io_event * (list pystr * answer A).

Definition io_ret {A : Type} (a : A) : io A :=
  fun inputs => ([], (inputs, Returned a)).

Definition io_bind {A B : Type} (m : io A) (k : A -> io B) : io B :=
  fun inputs =>
    match m inputs with
    | (events, (rest, Returned a)) =>
        let '(more, r) := k a rest in (events ++ more, r)
    | (events, (rest, EOFError)) => (events, (rest, EOFError))
    | (events, (rest, Failed e)) => (events, (rest, Failed e))
    end.

Notation "x <<- m ;; k" := (io_bind m (fun x => k))
  (at level 61, m at next level, right associativity).
Notation "m >>> k" := (io_bind m (fun _ => k))
  (at level 61, right associativity).

(** A printing computation run inside a dialogue. *)
Definition io_out {A : Type} (o : out A) : io A :=
  fun inputs =>
    (map Printed (fst o),
     (inputs, match snd o with Ok a => Returned a | Raise e => Failed e end)).

Definition io_print (line : pystr) : io unit := io_out (print line).

Definition io_lift {A : Type} (r : result A) : io A := io_out (lift r).

(** [input(prompt)] *)
Definition io_input (prompt : pystr) : io pystr :=
  fun inputs =>
    match inputs with
    | [] => ([Prompted prompt], ([], EOFError))
    | line :: rest => ([Prompted prompt], (rest, Returned line))
    end.

(** [while True: line = input(prompt); body(line)], where the body prints
    and either leaves the loop with a value ([Some a], a [break]) or goes
    round again ([None]). *)
Fixpoint ask_until {A : Type} (prompt : pystr) (body : pystr -> out (option A))
    (inputs : list pystr) : list io_event * (list pystr * answer A) :=
  match inputs with
  | [] => ([Prompted prompt], ([], EOFError))
  | line :: rest =>
      match body line with
      | (printed, Ok (Some a)) =>
          (Prompted prompt :: map Printed printed, (rest, Returned a))
      | (printed, Ok None) =>
          let '(more, r) := ask_until prompt body rest in
          (Prompted prompt :: map Printed printed ++ more, r)
      | (printed, Raise e) =>
          (Prompted prompt :: map Printed printed, (rest, Failed e))
      end
  end.

(** [for x in xs: body(x)] for a body that converses. *)
Fixpoint io_for_each {A : Type} (xs : list A) (body : A -> io unit) : io unit :=
  match xs with
  | [] => io_ret tt
  | x :: rest => body x >>> io_for_each rest body
  end.

(* ------------------------------------------------------------------ *)
(** ** [cfi_validator.py] *)

Module Basic.
Section WithUnicode.
Variable U : unicode_db.

(** The body of [for position in range(2, 6)] for a pair with attribute
    rules (lines 394-406).  [Some r] is a [return r] from inside the loop;
    [None] means the loop ran to its end. *)
Fixpoint attribute_loop (cfi_code category_group : pystr) (positions : list Z)
    : result (option (bool * pystr)) :=
  match positions with
  | [] => Ok None
  | position :: rest =>
      char <- str_index cfi_code position ;;
      let position_index := (position + 1)%Z in
      rules <- dict_getitem pystr_eqb ATTRIBUTES category_group ;;
      if dict_mem Z.eqb (position + 1)%Z rules then
        options <- dict_getitem Z.eqb rules (position + 1)%Z ;;
        let valid_chars := dict_keys options in
        if negb (keys_mem char valid_chars) then
          Ok (Some (false,
                    msg_invalid_attribute char position_index category_group
                      valid_chars))
        else attribute_loop cfi_code category_group rest
      else
        if negb (str_isalpha U char) then
          Ok (Some (false, msg_must_be_alphabetic position_index))
        else attribute_loop cfi_code category_group rest
  end.

(** The body of [for i in range(2, 6)] for a pair without rules
    (lines 410-413). *)
Fixpoint fallback_loop (cfi_code : pystr) (indices : list Z)
    : result (option (bool * pystr)) :=
  match indices with
  | [] => Ok None
  | i :: rest =>
      char <- str_index cfi_code i ;;
      if negb (str_isalpha U char) then
        let position_index := (i + 1)%Z in
        Ok (Some (false, msg_must_be_alphabetic position_index))
      else fallback_loop cfi_code rest
  end.

(** [CFIValidator.validate] (lines 356-415). *)
Definition validate (cfi_code : pyval) : result (bool * pystr) :=
  if negb (truthy cfi_code) || negb (isinstance_str cfi_code) then
    Ok (false, msg_not_a_string)
  else
    n <- py_len cfi_code ;;
    if negb (n =? 6)%Z then Ok (false, msg_bad_length)
    else
      s <- as_str cfi_code ;;
      if negb (str_isalpha U s) then Ok (false, msg_not_alphabetic)
      else
        let cfi_code := str_upper U s in
        category <- str_index cfi_code 0 ;;
        if negb (dict_mem pystr_eqb category CATEGORIES) then
          Ok (false, msg_invalid_category category (dict_keys CATEGORIES))
        else
          group <- str_index cfi_code 1 ;;
          if negb (dict_mem pystr_eqb group
                     (dict_get pystr_eqb GROUPS category [])) then
            groups <- dict_getitem pystr_eqb GROUPS category ;;
            Ok (false, msg_invalid_group group category (dict_keys groups))
          else
            let category_group := category ++ group in
            returned <-
              (if dict_mem pystr_eqb category_group ATTRIBUTES
               then attribute_loop cfi_code category_group (range 2 6)
               else fallback_loop cfi_code (range 2 6)) ;;
            match returned with
            | Some r => Ok r
            | None =>
                category_desc <- dict_getitem pystr_eqb CATEGORIES category ;;
                groups <- dict_getitem pystr_eqb GROUPS category ;;
                group_desc <- dict_getitem pystr_eqb groups group ;;
                Ok (true, msg_valid category_desc group_desc)
            end.

(** One attribute line of [display_cfi_details] when the character has no
    description in the table (lines 544-547 and 552-555). *)
Definition attribute_line_plain (pos_index : Z) (char : pystr) : pystr :=
  if pystr_eqb char X then
    lit "Attribute " ++ str_of_int pos_index ++ lit ": " ++ char
      ++ lit " - Not applicable/Not specified"
  else lit "Attribute " ++ str_of_int pos_index ++ lit ": " ++ char.

(** [display_cfi_details] (lines 517-555); the argument is a [str]. *)
Definition display_cfi_details (cfi_code : pystr) : out unit :=
  let cfi_code := str_upper U cfi_code in
  category <~ lift (str_index cfi_code 0) ;;
  group <~ lift (str_index cfi_code 1) ;;
  let category_group := category ++ group in
  print (nl ++ lit "CFI Code: " ++ cfi_code) ;;;
  print (lit "======================") ;;;
  print (lit "Category (1st): " ++ category ++ lit " - "
           ++ dict_get pystr_eqb CATEGORIES category (lit "Unknown")) ;;;
  print (lit "Group (2nd): " ++ group ++ lit " - "
           ++ dict_get pystr_eqb (dict_get pystr_eqb GROUPS category [])
                group (lit "Unknown")) ;;;
  if dict_mem pystr_eqb category_group ATTRIBUTES then
    for_each (range 2 6) (fun pos =>
      char <~ lift (str_index cfi_code pos) ;;
      let pos_index := (pos + 1)%Z in
      rules <~ lift (dict_getitem pystr_eqb ATTRIBUTES category_group) ;;
      if dict_mem Z.eqb pos_index rules then
        options <~ lift (dict_getitem Z.eqb rules pos_index) ;;
        if dict_mem pystr_eqb char options then
          attr_desc <~ lift (dict_getitem pystr_eqb options char) ;;
          print (lit "Attribute " ++ str_of_int pos_index ++ lit ": " ++ char
                   ++ lit " - " ++ attr_desc)
        else print (attribute_line_plain pos_index char)
      else print (attribute_line_plain pos_index char))
  else
    for_each (range 2 6) (fun pos =>
      char <~ lift (str_index cfi_code pos) ;;
      let pos_index := (pos + 1)%Z in
      print (attribute_line_plain pos_index char)).

(** The body of choice ['1'] of [main] (lines 573-582), for the line the
    user typed at the prompt.  The check mark is U+2713, the cross
    U+2717. *)
Definition main_validate_choice (cfi_code : pystr) : out unit :=
  r <~ lift (validate (PyStr cfi_code)) ;;
  let (is_valid, message) := r in
  if is_valid then
    print (nl ++ [10003; 32]%N ++ message) ;;;
    display_cfi_details cfi_code
  else print (nl ++ [10007; 32]%N ++ message).
(** [CFIValidator.format_attribute_options] (lines 417-435). *)
Definition format_attribute_options (category group : pystr) (position : Z)
    : result pystr :=
  let category_group := category ++ group in
  if dict_mem pystr_eqb category_group ATTRIBUTES then
    rules <- dict_getitem pystr_eqb ATTRIBUTES category_group ;;
    if dict_mem Z.eqb position rules then
      options <- dict_getitem Z.eqb rules position ;;
      Ok (join nl (map option_line options))
    else Ok (lit "  X - Not applicable/Not specified")
  else Ok (lit "  X - Not applicable/Not specified").

(** The category dialogue of [generate_cfi_code] (lines 453-459). *)
Definition ask_category : io pystr :=
  ask_until (nl ++ lit "Enter category code: ") (fun line =>
    let category := str_upper U line in
    if dict_mem pystr_eqb category CATEGORIES then
      desc <~ lift (dict_getitem pystr_eqb CATEGORIES category) ;;
      print (lit "Selected: " ++ category ++ lit " - " ++ desc) ;;;
      lift (Ok (Some category))
    else
      print (lit "Invalid category. Please select from: "
               ++ join (lit ", ") (dict_keys CATEGORIES)) ;;;
      lift (Ok None)).

(** The group dialogue (lines 466-472). *)
Definition ask_group (category : pystr) : io pystr :=
  ask_until (nl ++ lit "Enter group code: ") (fun line =>
    let group := str_upper U line in
    groups <~ lift (dict_getitem pystr_eqb GROUPS category) ;;
    if dict_mem pystr_eqb group groups then
      desc <~ lift (dict_getitem pystr_eqb groups group) ;;
      print (lit "Selected: " ++ group ++ lit " - " ++ desc) ;;;
      lift (Ok (Some group))
    else
      print (lit "Invalid group. Please select from: "
               ++ join (lit ", ") (dict_keys groups)) ;;;
      lift (Ok None)).

(** The dialogue for a position with attribute rules (lines 484-497). *)
Definition ask_attribute (category_group : pystr) (position : Z) : io pystr :=
  ask_until (nl ++ lit "Enter attribute " ++ str_of_int position ++ lit " code: ")
    (fun line =>
      let attr := str_upper U line in
      rules <~ lift (dict_getitem pystr_eqb ATTRIBUTES category_group) ;;
      options <~ lift (dict_getitem Z.eqb rules position) ;;
      if dict_mem pystr_eqb attr options || pystr_eqb attr X then
        (if dict_mem pystr_eqb attr options then
           desc <~ lift (dict_getitem pystr_eqb options attr) ;;
           print (lit "Selected: " ++ attr ++ lit " - " ++ desc)
         else print (lit "Selected: X - Not applicable/Not specified")) ;;;
        lift (Ok (Some attr))
      else
        let valid_options := dict_keys options in
        let valid_options :=
          if negb (keys_mem X valid_options) then valid_options ++ [X]
          else valid_options in
        print (lit "Invalid attribute. Please select from: "
                 ++ join (lit ", ") valid_options) ;;;
        lift (Ok None)).

(** One round of [for position in range(3, 7)] (lines 478-504): the
    character chosen for [position]. *)
Definition select_attribute (category group : pystr) (position : Z) : io pystr :=
  let category_group := category ++ group in
  io_print (nl ++ lit "Step " ++ str_of_int position
              ++ lit ": Select Attribute (Character " ++ str_of_int position
              ++ lit ")") >>>
  has_rules <<- io_lift
    (if dict_mem pystr_eqb category_group ATTRIBUTES then
       rules <- dict_getitem pystr_eqb ATTRIBUTES category_group ;;
       Ok (dict_mem Z.eqb position rules)
     else Ok false) ;;
  if has_rules then
    text <<- io_lift (format_attribute_options category group position) ;;
    io_print text >>>
    ask_attribute category_group position
  else
    io_print (lit "No specific attributes defined for this position.") >>>
    io_print (lit "  X - Not applicable/Not specified is recommended") >>>
    line <<- io_input (nl ++ lit "Enter attribute " ++ str_of_int position
                         ++ lit " code (or press Enter for 'X'): ") ;;
    let attr := str_upper U line in
    let attr := if Nat.eqb (List.length attr) 0 then X else attr in
    io_ret attr.

(** The loop [for position in range(3, 7)], growing [cfi_code]. *)
Fixpoint select_attributes (category group cfi_code : pystr)
    (positions : list Z) : io pystr :=
  match positions with
  | [] => io_ret cfi_code
  | position :: rest =>
      attr <<- select_attribute category group position ;;
      select_attributes category group (cfi_code ++ attr) rest
  end.

(** [generate_cfi_code] up to the assembled code (lines 445-504). *)
Definition assemble_cfi_code : io pystr :=
  io_print (nl ++ lit "CFI Code Generator") >>>
  io_print (lit "=================") >>>
  io_print (nl ++ lit "Step 1: Select Category (First Character)") >>>
  io_out (for_each CATEGORIES (fun kv => print (option_line kv))) >>>
  category <<- ask_category ;;
  io_print (nl ++ lit "Step 2: Select Group (Second Character)") >>>
  groups <<- io_lift (dict_getitem pystr_eqb GROUPS category) ;;
  io_out (for_each groups (fun kv => print (option_line kv))) >>>
  group <<- ask_group category ;;
  let cfi_code := category ++ group in
  select_attributes category group cfi_code (range 3 7).

(** [CFIValidator.generate_cfi_code] (lines 437-514): the code, or [None]
    after the warning. *)
Definition generate_cfi_code : io (option pystr) :=
  cfi_code <<- assemble_cfi_code ;;
  r <<- io_lift (validate (PyStr cfi_code)) ;;
  let (is_valid, message) := r in
  if is_valid then
    io_print (nl ++ lit "Generated valid CFI code: " ++ cfi_code) >>>
    io_ret (Some cfi_code)
  else
    io_print (nl ++ lit "Warning: Generated code " ++ cfi_code
                ++ lit " is not valid: " ++ message) >>>
    io_print (lit "Please try generation again.") >>>
    io_ret None.

(** One round of the menu loop of [main] (lines 566-596): [true] when the
    user chose to leave. *)
Definition main_round : io bool :=
  io_print (nl ++ lit "Options:") >>>
  io_print (lit "1. Validate a CFI code") >>>
  io_print (lit "2. Generate a CFI code") >>>
  io_print (lit "3. Exit") >>>
  choice <<- io_input (nl ++ lit "Enter your choice (1-3): ") ;;
  if pystr_eqb choice (lit "1") then
    cfi_code <<- io_input (nl ++ lit "Enter CFI code to validate: ") ;;
    io_out (main_validate_choice cfi_code) >>>
    io_ret false
  else if pystr_eqb choice (lit "2") then
    generated_code <<- generate_cfi_code ;;
    match generated_code with
    | Some code =>
        if negb (Nat.eqb (List.length code) 0) then
          io_print (nl ++ lit "Generated CFI code details:") >>>
          io_out (display_cfi_details code) >>>
          io_ret false
        else io_ret false
    | None => io_ret false
    end
  else if pystr_eqb choice (lit "3") then
    io_print (nl ++ lit "Exiting program. Goodbye!") >>>
    io_ret true
  else
    io_print (nl ++ lit "Invalid choice. Please enter 1, 2, or 3.") >>>
    io_ret false.

(** The loop [while True] of [main], for at most [rounds] rounds; [None]
    when they are used up before the loop ends. *)
Fixpoint main_loop (rounds : nat) : io (option unit) :=
  match rounds with
  | O => io_ret None
  | S rounds' =>
      leave <<- main_round ;;
      if leave then io_ret (Some tt) else main_loop rounds'
  end.

(** [main] (lines 558-596).  Every round reads at least one line, so one
    round more than there are lines always suffices. *)
Definition main : io (option unit) :=
  fun inputs =>
    (io_print (lit "ISO 10962 CFI Code Validator and Generator") >>>
     io_print (lit "========================================") >>>
     main_loop (S (List.length inputs))) inputs.
End WithUnicode.
End Basic.

(* ------------------------------------------------------------------ *)
(** ** [cfi_validator_test.py] *)

Module Enhanced.

(** One entry of [positions_info].  A field holding Python's [None] is
    [None]; the key ['error'] exists only once it has been assigned, so
    [error = None] stands for its absence. *)
Record pos_record : Type := {
  description : pystr;
  value : option pystr;
  meaning : option pystr;
  valid : option bool;
  error : option pystr
}.

Definition positions_info_t : Type := dict Z pos_record.

Definition set_value (v : pystr) (r : pos_record) : pos_record :=
  {| description := description r; value := Some v; meaning := meaning r;
     valid := valid r; error := error r |}.
Definition set_meaning (m : pystr) (r : pos_record) : pos_record :=
  {| description := description r; value := value r; meaning := Some m;
     valid := valid r; error := error r |}.
Definition set_valid (b : bool) (r : pos_record) : pos_record :=
  {| description := description r; value := value r; meaning := meaning r;
     valid := Some b; error := error r |}.
Definition set_error (e : pystr) (r : pos_record) : pos_record :=
  {| description := description r; value := value r; meaning := meaning r;
     valid := valid r; error := Some e |}.

(** [positions_info[i][field] = ...]: the inner dictionary is looked up
    (a [KeyError] when [i] is missing) and updated in place. *)
Definition assign (positions_info : positions_info_t) (i : Z)
    (f : pos_record -> pos_record) : result positions_info_t :=
  r <- dict_getitem Z.eqb positions_info i ;;
  Ok (dict_set Z.eqb i (f r) positions_info).

(** [positions_info[i]['error']] read back. *)
Definition read_error (positions_info : positions_info_t) (i : Z)
    : result pystr :=
  r <- dict_getitem Z.eqb positions_info i ;;
  match error r with
  | Some e => Ok e
  | None => Raise KeyError
  end.

(** [for i in range(1, 7): positions_info[i] = {...}] (lines 378-385). *)
Fixpoint init_positions_info (indices : list Z)
    (positions_info : positions_info_t) : result positions_info_t :=
  match indices with
  | [] => Ok positions_info
  | i :: rest =>
      d <- dict_getitem Z.eqb POSITION_DESCRIPTIONS i ;;
      init_positions_info rest
        (dict_set Z.eqb i
           {| description := d; value := None; meaning := None;
              valid := None; error := None |}
           positions_info)
  end.

Definition custom_attribute : pystr :=
  lit "Custom attribute (no predefined meaning)".

Section WithUnicode.
Variable U : unicode_db.

(** The failing exit shared by every positional check: mark the position
    invalid, store the message under ['error'], and return it. *)
Definition fail_at (positions_info : positions_info_t) (i : Z) (msg : pystr)
    : result (bool * pystr * positions_info_t) :=
  positions_info <- assign positions_info i (set_valid false) ;;
  positions_info <- assign positions_info i (set_error msg) ;;
  e <- read_error positions_info i ;;
  Ok (false, e, positions_info).

(** The loop over positions 3-6 of a pair with attribute rules
    (lines 428-453).  [inl r] is a [return r] from inside the loop,
    [inr positions_info] the state when the loop ran to its end. *)
Fixpoint attribute_loop (cfi_code category_group : pystr)
    (positions : list Z) (positions_info : positions_info_t)
    : result (bool * pystr * positions_info_t + positions_info_t) :=
  match positions with
  | [] => Ok (inr positions_info)
  | position :: rest =>
      char <- str_index cfi_code position ;;
      let position_index := (position + 1)%Z in
      positions_info <- assign positions_info position_index (set_value char) ;;
      rules <- dict_getitem pystr_eqb ATTRIBUTES category_group ;;
      if dict_mem Z.eqb position_index rules then
        options <- dict_getitem Z.eqb rules position_index ;;
        let valid_chars := dict_keys options in
        if keys_mem char valid_chars then
          m <- dict_getitem pystr_eqb options char ;;
          positions_info <- assign positions_info position_index (set_meaning m) ;;
          positions_info <- assign positions_info position_index (set_valid true) ;;
          attribute_loop cfi_code category_group rest positions_info
        else
          r <- fail_at positions_info position_index
                 (msg_invalid_attribute char position_index category_group
                    valid_chars) ;;
          Ok (inl r)
      else
        if str_isalpha U char then
          positions_info <- assign positions_info position_index
                              (set_meaning custom_attribute) ;;
          positions_info <- assign positions_info position_index (set_valid true) ;;
          attribute_loop cfi_code category_group rest positions_info
        else
          r <- fail_at positions_info position_index
                 (msg_must_be_alphabetic position_index) ;;
          Ok (inl r)
  end.

(** The loop over positions 3-6 of a pair without rules (lines 457-471). *)
Fixpoint fallback_loop (cfi_code : pystr) (indices : list Z)
    (positions_info : positions_info_t)
    : result (bool * pystr * positions_info_t + positions_info_t) :=
  match indices with
  | [] => Ok (inr positions_info)
  | i :: rest =>
      let position_index := (i + 1)%Z in
      char <- str_index cfi_code i ;;
      positions_info <- assign positions_info position_index (set_value char) ;;
      if str_isalpha U char then
        positions_info <-
          (if pystr_eqb char X
           then assign positions_info position_index (set_meaning not_applicable)
           else assign positions_info position_index (set_meaning custom_attribute)) ;;
        positions_info <- assign positions_info position_index (set_valid true) ;;
        fallback_loop cfi_code rest positions_info
      else
        r <- fail_at positions_info position_index
               (msg_must_be_alphabetic position_index) ;;
        Ok (inl r)
  end.

(** [CFIValidator.validate] (lines 366-473). *)
Definition validate (cfi_code : pyval)
    : result (bool * pystr * positions_info_t) :=
  positions_info <- init_positions_info (range 1 7) [] ;;
  if negb (truthy cfi_code) || negb (isinstance_str cfi_code) then
    Ok (false, msg_not_a_string, positions_info)
  else
    n <- py_len cfi_code ;;
    if negb (n =? 6)%Z then Ok (false, msg_bad_length, positions_info)
    else
      s <- as_str cfi_code ;;
      if negb (str_isalpha U s) then Ok (false, msg_not_alphabetic, positions_info)
      else
        let cfi_code := str_upper U s in
        category <- str_index cfi_code 0 ;;
        positions_info <- assign positions_info 1 (set_value category) ;;
        if dict_mem pystr_eqb category CATEGORIES then
          category_desc <- dict_getitem pystr_eqb CATEGORIES category ;;
          positions_info <- assign positions_info 1 (set_meaning category_desc) ;;
          positions_info <- assign positions_info 1 (set_valid true) ;;
          group <- str_index cfi_code 1 ;;
          positions_info <- assign positions_info 2 (set_value group) ;;
          if dict_mem pystr_eqb group (dict_get pystr_eqb GROUPS category []) then
            groups <- dict_getitem pystr_eqb GROUPS category ;;
            group_desc <- dict_getitem pystr_eqb groups group ;;
            positions_info <- assign positions_info 2 (set_meaning group_desc) ;;
            positions_info <- assign positions_info 2 (set_valid true) ;;
            let category_group := category ++ group in
            looped <-
              (if dict_mem pystr_eqb category_group ATTRIBUTES
               then attribute_loop cfi_code category_group (range 2 6) positions_info
               else fallback_loop cfi_code (range 2 6) positions_info) ;;
            match looped with
            | inl r => Ok r
            | inr positions_info =>
                category_desc <- dict_getitem pystr_eqb CATEGORIES category ;;
                groups <- dict_getitem pystr_eqb GROUPS category ;;
                group_desc <- dict_getitem pystr_eqb groups group ;;
                Ok (true, msg_valid category_desc group_desc, positions_info)
            end
          else
            groups <- dict_getitem pystr_eqb GROUPS category ;;
            fail_at positions_info 2
              (msg_invalid_group group category (dict_keys groups))
        else
          fail_at positions_info 1
            (msg_invalid_category category (dict_keys CATEGORIES)).

(** [f"{v}"] for a field that may hold [None]. *)
Definition fmt_field (v : option pystr) : pystr :=
  match v with
  | Some s => s
  | None => lit "None"
  end.

(** [display_cfi_details] (lines 687-728); the argument is a [str].  The
    first three characters of the error line are the code points U+00E2,
    U+0153 and U+2014 that the source file holds there. *)
Definition display_cfi_details (cfi_code : pystr) : out unit :=
  r <~ lift (validate (PyStr cfi_code)) ;;
  let '(is_valid, message, positions_info) := r in
  if negb is_valid then
    print (nl ++ [226; 339; 8212]%N ++ lit " Invalid CFI code: " ++ message)
  else
    print (nl ++ lit "CFI Code: " ++ cfi_code) ;;;
    print (lit "===================") ;;;
    print (lit "ISO 10962 Classification of Financial Instruments") ;;;
    print (lit "===================") ;;;
    for_each (range 1 7) (fun pos =>
      info <~ lift (dict_getitem Z.eqb positions_info pos) ;;
      print (nl ++ lit "Position " ++ str_of_int pos ++ lit ": "
               ++ fmt_field (value info)) ;;;
      print (lit "Description: " ++ description info) ;;;
      print (lit "Meaning: " ++ fmt_field (meaning info)) ;;;
      if (pos =? 1)%Z then
        print (lit "Possible options:") ;;;
        for_each CATEGORIES (fun kv => print (option_line kv))
      else if (pos =? 2)%Z then
        category <~ lift (str_index cfi_code 0) ;;
        print (lit "Possible options for category " ++ category ++ lit ":") ;;;
        groups <~ lift (dict_getitem pystr_eqb GROUPS category) ;;
        for_each groups (fun kv => print (option_line kv))
      else
        let category_group := str_slice cfi_code 0 2 in
        if dict_mem pystr_eqb category_group ATTRIBUTES then
          rules <~ lift (dict_getitem pystr_eqb ATTRIBUTES category_group) ;;
          if dict_mem Z.eqb pos rules then
            print (lit "Possible options for position " ++ str_of_int pos
                     ++ lit ":") ;;;
            options <~ lift (dict_getitem Z.eqb rules pos) ;;
            for_each options (fun kv => print (option_line kv))
          else print (lit "No specific validation rules for this position.")
        else print (lit "No specific validation rules for this position.")).
End WithUnicode.

(** [None in d] is [False]; a string is looked up. *)
Definition opt_mem {V : Type} (k : option pystr) (d : dict pystr V) : bool :=
  match k with
  | Some k => dict_mem pystr_eqb k d
  | None => false
  end.

(** Truth value of an argument that is a string or [None]. *)
Definition opt_truthy (k : option pystr) : bool :=
  match k with
  | Some s => negb (Nat.eqb (List.length s) 0)
  | None => false
  end.

(** [CFIValidator.get_position_options] (lines 495-524); [category] and
    [group] are a string or [None], as the docstring has them. *)
Definition get_position_options (category group : option pystr) (position : Z)
    : result (dict pystr pystr) :=
  if (position =? 1)%Z then Ok CATEGORIES
  else if (position =? 2)%Z && opt_mem category CATEGORIES then
    match category with
    | Some c => Ok (dict_get pystr_eqb GROUPS c [])
    | None => Raise TypeError
    end
  else if existsb (Z.eqb position) [3; 4; 5; 6]%Z
          && opt_truthy category && opt_truthy group then
    match category, group with
    | Some c, Some g =>
        let category_group := c ++ g in
        if dict_mem pystr_eqb category_group ATTRIBUTES then
          rules <- dict_getitem pystr_eqb ATTRIBUTES category_group ;;
          if dict_mem Z.eqb position rules
          then dict_getitem Z.eqb rules position
          else Ok [ "X" =: "Not applicable/Not specified" ]
        else Ok [ "X" =: "Not applicable/Not specified" ]
    | _, _ => Raise TypeError
    end
  else Ok [].
(** [CFIValidator.format_attribute_options] (lines 475-493). *)
Definition format_attribute_options (category group : pystr) (position : Z)
    : result pystr :=
  let category_group := category ++ group in
  if dict_mem pystr_eqb category_group ATTRIBUTES then
    rules <- dict_getitem pystr_eqb ATTRIBUTES category_group ;;
    if dict_mem Z.eqb position rules then
      options <- dict_getitem Z.eqb rules position ;;
      Ok (join nl (map option_line options))
    else Ok (lit "  X - Not applicable/Not specified")
  else Ok (lit "  X - Not applicable/Not specified").

Section Generator.
Variable U : unicode_db.

(** The category taken from the prefix (lines 547-554): the prefix that is
    kept, the code so far, and the category ([None] when the prefix gives
    none). *)
Definition prefix_category (initial_prefix : pystr)
    : out (pystr * pystr * option pystr) :=
  if (1 <=? Z.of_nat (List.length initial_prefix))%Z then
    first <~ lift (str_index initial_prefix 0) ;;
    if dict_mem pystr_eqb first CATEGORIES then
      let category := first in
      let cfi_code := [] ++ category in
      desc <~ lift (dict_getitem pystr_eqb CATEGORIES category) ;;
      print (nl ++ lit "Using provided category: " ++ category
               ++ lit " - " ++ desc) ;;;
      lift (Ok (initial_prefix, cfi_code, Some category))
    else
      print (lit "Warning: Invalid category '" ++ first
               ++ lit "' in prefix. Starting from scratch.") ;;;
      lift (Ok ([], [], None))
  else lift (Ok (initial_prefix, [], None)).

(** The group taken from the prefix (lines 556-563). *)
Definition prefix_group (initial_prefix cfi_code : pystr)
    (category : option pystr) : out (pystr * pystr * option pystr) :=
  if (2 <=? Z.of_nat (List.length initial_prefix))%Z && opt_truthy category then
    match category with
    | Some category =>
        second <~ lift (str_index initial_prefix 1) ;;
        if dict_mem pystr_eqb second (dict_get pystr_eqb GROUPS category []) then
          let group := second in
          let cfi_code := cfi_code ++ group in
          groups <~ lift (dict_getitem pystr_eqb GROUPS category) ;;
          desc <~ lift (dict_getitem pystr_eqb groups group) ;;
          print (lit "Using provided group: " ++ group ++ lit " - " ++ desc) ;;;
          lift (Ok (initial_prefix, cfi_code, Some group))
        else
          print (lit "Warning: Invalid group '" ++ second
                   ++ lit "' for category '" ++ category
                   ++ lit "'. Keeping only the category.") ;;;
          first <~ lift (str_index initial_prefix 0) ;;
          lift (Ok (first, cfi_code, None))
    | None => lift (Raise TypeError)
    end
  else lift (Ok (initial_prefix, cfi_code, None)).

(** The loop [for i in range(2, min(6, len(initial_prefix)))] (lines
    569-589): the code grown by the attributes the prefix gives, up to the
    first one that is refused ([break]). *)
Fixpoint prefix_attributes (initial_prefix category_group cfi_code : pystr)
    (indices : list Z) : out pystr :=
  match indices with
  | [] => lift (Ok cfi_code)
  | i :: rest =>
      char <~ lift (str_index initial_prefix i) ;;
      let position := (i + 1)%Z in
      has_rules <~ lift
        (if dict_mem pystr_eqb category_group ATTRIBUTES then
           rules <- dict_getitem pystr_eqb ATTRIBUTES category_group ;;
           Ok (dict_mem Z.eqb position rules)
         else Ok false) ;;
      if has_rules then
        rules <~ lift (dict_getitem pystr_eqb ATTRIBUTES category_group) ;;
        options <~ lift (dict_getitem Z.eqb rules position) ;;
        if dict_mem pystr_eqb char options || pystr_eqb char X then
          print (lit "Using provided attribute " ++ str_of_int position
                   ++ lit ": " ++ char) ;;;
          prefix_attributes initial_prefix category_group (cfi_code ++ char) rest
        else
          print (lit "Warning: Invalid attribute '" ++ char
                   ++ lit "' at position " ++ str_of_int position
                   ++ lit " for " ++ category_group
                   ++ lit ". Ignoring the rest of the prefix.") ;;;
          lift (Ok cfi_code)
      else
        if str_isalpha U char then
          print (lit "Using provided attribute " ++ str_of_int position
                   ++ lit ": " ++ char) ;;;
          prefix_attributes initial_prefix category_group (cfi_code ++ char) rest
        else
          print (lit "Warning: Non-alphabetic character '" ++ char
                   ++ lit "' at position " ++ str_of_int position
                   ++ lit ". Ignoring the rest of the prefix.") ;;;
          lift (Ok cfi_code)
  end.

(** The attributes taken from the prefix (lines 565-589). *)
Definition prefix_rest (initial_prefix cfi_code : pystr)
    (category group : option pystr) : out pystr :=
  if (2 <? Z.of_nat (List.length initial_prefix))%Z
     && opt_truthy category && opt_truthy group then
    match category, group with
    | Some category, Some group =>
        let category_group := category ++ group in
        prefix_attributes initial_prefix category_group cfi_code
          (range 2 (Z.min 6 (Z.of_nat (List.length initial_prefix))))
    | _, _ => lift (Raise TypeError)
    end
  else lift (Ok cfi_code).

(** The category dialogue (lines 598-605). *)
Definition ask_category : io pystr :=
  ask_until (nl ++ lit "Enter category code: ") (fun line =>
    let category := str_upper U line in
    if dict_mem pystr_eqb category CATEGORIES then
      desc <~ lift (dict_getitem pystr_eqb CATEGORIES category) ;;
      print (lit "Selected: " ++ category ++ lit " - " ++ desc) ;;;
      lift (Ok (Some category))
    else
      print (lit "Invalid category. Please select from: "
               ++ join (lit ", ") (dict_keys CATEGORIES)) ;;;
      lift (Ok None)).

(** Step 1 (lines 592-605): the code and the category after it. *)
Definition step_category (cfi_code : pystr) (category : option pystr)
    : io (pystr * pystr) :=
  if negb (opt_truthy category) then
    io_print (nl ++ lit "Step 1: Select Category (First Character)") >>>
    description <<- io_lift (dict_getitem Z.eqb POSITION_DESCRIPTIONS 1%Z) ;;
    io_print (lit "Description: " ++ description) >>>
    io_out (for_each CATEGORIES (fun kv => print (option_line kv))) >>>
    category <<- ask_category ;;
    io_ret (cfi_code ++ category, category)
  else
    match category with
    | Some category => io_ret (cfi_code, category)
    | None => io_lift (Raise TypeError)
    end.

(** The group dialogue (lines 614-621). *)
Definition ask_group (category : pystr) : io pystr :=
  ask_until (nl ++ lit "Enter group code: ") (fun line =>
    let group := str_upper U line in
    groups <~ lift (dict_getitem pystr_eqb GROUPS category) ;;
    if dict_mem pystr_eqb group groups then
      desc <~ lift (dict_getitem pystr_eqb groups group) ;;
      print (lit "Selected: " ++ group ++ lit " - " ++ desc) ;;;
      lift (Ok (Some group))
    else
      print (lit "Invalid group. Please select from: "
               ++ join (lit ", ") (dict_keys groups)) ;;;
      lift (Ok None)).

(** Step 2 (lines 608-621): the code and the group after it. *)
Definition step_group (cfi_code category : pystr) (group : option pystr)
    : io (pystr * pystr) :=
  if negb (opt_truthy group) then
    io_print (nl ++ lit "Step 2: Select Group (Second Character)") >>>
    description <<- io_lift (dict_getitem Z.eqb POSITION_DESCRIPTIONS 2%Z) ;;
    io_print (lit "Description: " ++ description) >>>
    groups <<- io_lift (dict_getitem pystr_eqb GROUPS category) ;;
    io_out (for_each groups (fun kv => print (option_line kv))) >>>
    group <<- ask_group category ;;
    io_ret (cfi_code ++ group, group)
  else
    match group with
    | Some group => io_ret (cfi_code, group)
    | None => io_lift (Raise TypeError)
    end.

(** The dialogue for a position with attribute rules (lines 640-652). *)
Definition ask_attribute (options : dict pystr pystr) (position : Z) : io pystr :=
  ask_until (nl ++ lit "Enter attribute " ++ str_of_int position ++ lit " code: ")
    (fun line =>
      let attr := str_upper U line in
      if dict_mem pystr_eqb attr options || pystr_eqb attr X then
        (if dict_mem pystr_eqb attr options then
           desc <~ lift (dict_getitem pystr_eqb options attr) ;;
           print (lit "Selected: " ++ attr ++ lit " - " ++ desc)
         else print (lit "Selected: X - Not applicable/Not specified")) ;;;
        lift (Ok (Some attr))
      else
        let valid_options := dict_keys options in
        let valid_options :=
          if negb (keys_mem X valid_options) then valid_options ++ [X]
          else valid_options in
        print (lit "Invalid attribute. Please select from: "
                 ++ join (lit ", ") valid_options) ;;;
        lift (Ok None)).

(** The dialogue for a position without rules (lines 658-673); [continue]
    goes round again. *)
Definition ask_free_attribute (position : Z) : io pystr :=
  ask_until (nl ++ lit "Enter attribute " ++ str_of_int position
               ++ lit " code (or press Enter for 'X'): ")
    (fun line =>
      let attr := str_upper U line in
      if Nat.eqb (List.length attr) 0 then
        let attr := X in
        print (lit "Selected: X - Not applicable/Not specified") ;;;
        lift (Ok (Some attr))
      else if str_isalpha U attr then
        (if pystr_eqb attr X
         then print (lit "Selected: X - Not applicable/Not specified")
         else print (lit "Selected: " ++ attr ++ lit " - Custom attribute")) ;;;
        lift (Ok (Some attr))
      else
        print (lit "Invalid attribute. Please enter an alphabetic character.") ;;;
        lift (Ok None)).

(** One round of [for position in range(current_position, 7)] (lines
    631-673): the character chosen for [position]. *)
Definition select_attribute (category_group : pystr) (position : Z) : io pystr :=
  io_print (nl ++ lit "Step " ++ str_of_int position
              ++ lit ": Select Attribute (Character " ++ str_of_int position
              ++ lit ")") >>>
  description <<- io_lift (dict_getitem Z.eqb POSITION_DESCRIPTIONS position) ;;
  io_print (lit "Description: " ++ description) >>>
  has_rules <<- io_lift
    (if dict_mem pystr_eqb category_group ATTRIBUTES then
       rules <- dict_getitem pystr_eqb ATTRIBUTES category_group ;;
       Ok (dict_mem Z.eqb position rules)
     else Ok false) ;;
  if has_rules then
    rules <<- io_lift (dict_getitem pystr_eqb ATTRIBUTES category_group) ;;
    options <<- io_lift (dict_getitem Z.eqb rules position) ;;
    io_out (for_each options (fun kv => print (option_line kv))) >>>
    ask_attribute options position
  else
    io_print (lit "No specific attributes defined for this position.") >>>
    io_print (lit "  X - Not applicable/Not specified is recommended") >>>
    ask_free_attribute position.

(** The loop over the remaining positions, growing [cfi_code]. *)
Fixpoint select_attributes (category_group cfi_code : pystr)
    (positions : list Z) : io pystr :=
  match positions with
  | [] => io_ret cfi_code
  | position :: rest =>
      attr <<- select_attribute category_group position ;;
      select_attributes category_group (cfi_code ++ attr) rest
  end.

(** [CFIValidator.generate_cfi_code] (lines 526-684) for a prefix that is
    a string: the code, or [None] after the warning. *)
Definition generate_cfi_code (initial_prefix : pystr) : io (option pystr) :=
  io_print (nl ++ lit "CFI Code Generator") >>>
  io_print (lit "=================") >>>
  let initial_prefix :=
    if negb (Nat.eqb (List.length initial_prefix) 0)
    then str_upper U initial_prefix else [] in
  s1 <<- io_out (prefix_category initial_prefix) ;;
  let '(initial_prefix, cfi_code, category) := s1 in
  s2 <<- io_out (prefix_group initial_prefix cfi_code category) ;;
  let '(initial_prefix, cfi_code, group) := s2 in
  cfi_code <<- io_out (prefix_rest initial_prefix cfi_code category group) ;;
  s3 <<- step_category cfi_code category ;;
  let '(cfi_code, category) := s3 in
  s4 <<- step_group cfi_code category group ;;
  let '(cfi_code, group) := s4 in
  let category_group := category ++ group in
  let current_position := (Z.of_nat (List.length cfi_code) + 1)%Z in
  cfi_code <<- select_attributes category_group cfi_code
                 (range current_position 7) ;;
  r <<- io_lift (validate U (PyStr cfi_code)) ;;
  let '(is_valid, message, positions_info) := r in
  if is_valid then
    io_print (nl ++ lit "Generated valid CFI code: " ++ cfi_code) >>>
    io_ret (Some cfi_code)
  else
    io_print (nl ++ lit "Warning: Generated code " ++ cfi_code
                ++ lit " is not valid: " ++ message) >>>
    io_print (lit "Please try generation again.") >>>
    io_ret None.
End Generator.
End Enhanced.

(* ------------------------------------------------------------------ *)
(** * Specification vocabulary *)

(** The check behind [attribute_rules_complete]: positions 3-6 are all
    present, non-empty, and list [X]. *)
Definition rules_complete (rules : dict Z (dict pystr pystr)) : bool :=
  forallb
    (fun p => match dict_lookup Z.eqb p rules with
              | Some options =>
                  dict_mem pystr_eqb X options
                  && negb (Nat.eqb (List.length options) 0)
              | None => false
              end)
    [3; 4; 5; 6]%Z.

(** The state of one entry of [positions_info]. *)
Definition resolved (r : Enhanced.pos_record) : Prop :=
  Enhanced.valid r = Some true /\ Enhanced.value r <> None
  /\ Enhanced.meaning r <> None /\ Enhanced.error r = None.

Definition unresolved (r : Enhanced.pos_record) : Prop :=
  Enhanced.value r = None /\ Enhanced.meaning r = None
  /\ Enhanced.valid r = None /\ Enhanced.error r = None.

Definition offending (msg : pystr) (r : Enhanced.pos_record) : Prop :=
  Enhanced.valid r = Some false /\ Enhanced.error r = Some msg
  /\ Enhanced.value r <> None /\ Enhanced.meaning r = None.

(** [positions_info[j]], when present. *)
Definition entry (positions_info : Enhanced.positions_info_t) (j : Z)
    : option Enhanced.pos_record :=
  dict_lookup Z.eqb j positions_info.

(** Positions [1 .. p-1] are resolved and positions [p .. 6] untouched. *)
Definition progress (positions_info : Enhanced.positions_info_t) (p : Z) : Prop :=
  forall j, (1 <= j <= 6)%Z ->
    exists r, entry positions_info j = Some r
              /\ if (j <? p)%Z then resolved r else unresolved r.

(** Position [k] carries the error [msg]; the positions before it are
    resolved and the positions after it untouched. *)
Definition failed_at (positions_info : Enhanced.positions_info_t) (k : Z)
    (msg : pystr) : Prop :=
  forall j, (1 <= j <= 6)%Z ->
    exists r, entry positions_info j = Some r
              /\ if (j <? k)%Z then resolved r
                 else if (j =? k)%Z then offending msg r
                 else unresolved r.

(** The functional reading of [positions_info[i][field] = ...]. *)
Definition modify (positions_info : Enhanced.positions_info_t) (i : Z)
    (f : Enhanced.pos_record -> Enhanced.pos_record)
    : Enhanced.positions_info_t :=
  match entry positions_info i with
  | Some r => dict_set Z.eqb i (f r) positions_info
  | None => positions_info
  end.

(** The compact reading of a detailed outcome: its first two components. *)
Definition compact (r : bool * pystr * Enhanced.positions_info_t)
    : bool * pystr :=
  (fst (fst r), snd (fst r)).

(** How a run of an enhanced attribute loop started at 0-based position [p]
    relates to the run of its compact counterpart and to the records. *)
Definition loop_agrees
    (looped : bool * pystr * Enhanced.positions_info_t + Enhanced.positions_info_t)
    (basic : result (option (bool * pystr))) (p : Z) : Prop :=
  match looped with
  | inl (b, msg, info) =>
      b = false /\ basic = Ok (Some (false, msg))
      /\ exists k, (p + 1 <= k <= 6)%Z /\ failed_at info k msg
  | inr info => basic = Ok None /\ progress info 7
  end.

(** Field readers for [positions_info[j]]. *)
Definition value_at (info : Enhanced.positions_info_t) (j : Z) : option pystr :=
  match entry info j with Some r => Enhanced.value r | None => None end.
Definition meaning_at (info : Enhanced.positions_info_t) (j : Z) : option pystr :=
  match entry info j with Some r => Enhanced.meaning r | None => None end.
Definition valid_at (info : Enhanced.positions_info_t) (j : Z) : option bool :=
  match entry info j with Some r => Enhanced.valid r | None => None end.
Definition error_at (info : Enhanced.positions_info_t) (j : Z) : option pystr :=
  match entry info j with Some r => Enhanced.error r | None => None end.

(** The category-group pair [validate] derives from a string. *)
Definition pair_of (U : unicode_db) (s : pystr) : pystr :=
  firstn 2 (str_upper U s).

(** The [k]-th character (1-indexed) of a code, as a one-character string. *)
Definition char_at (code : pystr) (k : Z) : option pystr :=
  match str_index code (k - 1) with
  | Ok c => Some c
  | Raise _ => None
  end.

(** The code the positional checks of [validate] scan: the upper-cased
    argument, when the argument is a string of six alphabetic characters.
    Any other argument is rejected before the first position is looked
    at. *)
Definition checked_code (U : unicode_db) (v : pyval) : option pystr :=
  match v with
  | PyStr s =>
      if Nat.eqb (List.length s) 6 && str_isalpha U s
      then Some (str_upper U s) else None
  | _ => None
  end.

(** The character at position [j] of [code] is one the taxonomy admits
    there: a registered category at 1, a group of that category at 2, and
    from 3 to 6 one of the options of the pair at that position, or any
    alphabetic character when the pair has no options for it. *)
Definition passes (U : unicode_db) (code : pystr) (j : Z) : bool :=
  match char_at code 1, char_at code 2, char_at code j with
  | Some category, Some group, Some c =>
      if (j =? 1)%Z then dict_mem pystr_eqb c CATEGORIES
      else if (j =? 2)%Z then
        dict_mem pystr_eqb c (dict_get pystr_eqb GROUPS category [])
      else
        match dict_lookup pystr_eqb (category ++ group) ATTRIBUTES with
        | Some rules =>
            match dict_lookup Z.eqb j rules with
            | Some options => dict_mem pystr_eqb c options
            | None => str_isalpha U c
            end
        | None => str_isalpha U c
        end
  | _, _, _ => false
  end.

(** The first offending position of [code], scanning left to right. *)
Definition first_offending (U : unicode_db) (code : pystr) : option Z :=
  find (fun j => negb (passes U code j)) (range 1 7).

(** What a run of an attribute loop started at 0-based position [p] says
    about the characters it has scanned. *)
Definition loop_scans (U : unicode_db) (code : pystr)
    (looped : bool * pystr * Enhanced.positions_info_t + Enhanced.positions_info_t)
    (p : Z) : Prop :=
  match looped with
  | inl (b, _, info) =>
      b = false
      /\ exists k, (p + 1 <= k <= 6)%Z /\ valid_at info k = Some false
                   /\ passes U code k = false
                   /\ forall j, (p + 1 <= j < k)%Z -> passes U code j = true
  | inr _ => forall j, (p + 1 <= j <= 6)%Z -> passes U code j = true
  end.

(** The shape of the detailed outcome [(b, msg, info)] for the argument
    [v].  A valid outcome: the argument is a six-letter string without an
    offending position, and all six records are valid with a value and a
    meaning.  An invalid outcome: when the argument is rejected before the
    positional checks, no record has been touched; otherwise the position
    [k] whose record has [valid = False] and carries [msg] under ['error']
    is the first offending position of the upper-cased argument, every
    record before [k] is valid, every record after [k] is unset, and [k]
    is the only position whose record has [valid = False]. *)
Definition decomposition_ok (U : unicode_db) (v : pyval) (b : bool)
    (msg : pystr) (info : Enhanced.positions_info_t) : Prop :=
  (b = true ->
   (exists code, checked_code U v = Some code /\ first_offending U code = None)
   /\ forall j, (1 <= j <= 6)%Z ->
        valid_at info j = Some true /\ value_at info j <> None
        /\ meaning_at info j <> None)
  /\ (b = false ->
      match checked_code U v with
      | None =>
          forall j, (1 <= j <= 6)%Z ->
            value_at info j = None /\ meaning_at info j = None
            /\ valid_at info j = None /\ error_at info j = None
      | Some code =>
          exists k, first_offending U code = Some k /\ (1 <= k <= 6)%Z
            /\ valid_at info k = Some false /\ error_at info k = Some msg
            /\ (forall j, (1 <= j < k)%Z ->
                  valid_at info j = Some true /\ error_at info j = None)
            /\ (forall j, (k < j <= 6)%Z ->
                  value_at info j = None /\ meaning_at info j = None
                  /\ valid_at info j = None /\ error_at info j = None)
            /\ (forall k', (1 <= k' <= 6)%Z ->
                  valid_at info k' = Some false -> k' = k)
      end).

(** No record carries the meaning reserved for characters without a
    predefined description. *)
Definition no_custom (info : Enhanced.positions_info_t) : Prop :=
  forall j, meaning_at info j <> Some Enhanced.custom_attribute.

(** The records a loop leaves behind, whichever way it ended. *)
Definition loop_info
    (looped : bool * pystr * Enhanced.positions_info_t + Enhanced.positions_info_t)
    : Enhanced.positions_info_t :=
  match looped with
  | inl r => snd r
  | inr info => info
  end.

(** What the enhanced validator returns on an input, what the compact one
    returns on the same input, and the state of the position records. *)
Definition outcome_ok (U : unicode_db) (v : pyval)
    (r : bool * pystr * Enhanced.positions_info_t) : Prop :=
  Enhanced.validate U v = Ok r
  /\ Basic.validate U v = Ok (compact r)
  /\ (if fst (fst r) then progress (snd r) 7
      else progress (snd r) 1
           \/ exists k, (1 <= k <= 6)%Z /\ failed_at (snd r) k (snd (fst r)))
  /\ (forall s, v = PyStr s ->
        dict_mem pystr_eqb (pair_of U s) ATTRIBUTES = true ->
        no_custom (snd r)).

(** ** Proof automation *)

(** Messages that start differently, or carry different characters at the
    same place, are different. *)
Ltac msg_clash :=
  unfold msg_not_a_string, msg_bad_length, msg_not_alphabetic,
    msg_invalid_category, msg_invalid_group, msg_invalid_attribute,
    msg_must_be_alphabetic, msg_valid, X in *;
  simpl in *; discriminate.

(** Decide the comparisons of a position [j] against the failing position
    in a hypothesis produced by [progress] or [failed_at]. *)
Ltac settle_position H :=
  repeat match type of H with
         | context [(?a <? ?b)%Z] =>
             first [ replace (a <? b)%Z with true in H
                       by (symmetry; apply Z.ltb_lt; lia)
                   | replace (a <? b)%Z with false in H
                       by (symmetry; apply Z.ltb_ge; lia) ]
         | context [(?a =? ?b)%Z] =>
             first [ replace (a =? b)%Z with true in H
                       by (symmetry; apply Z.eqb_eq; lia)
                   | replace (a =? b)%Z with false in H
                       by (symmetry; apply Z.eqb_neq; lia) ]
         end.

(** The check behind [attribute_options_describe_X]. *)
Definition lists_X (options : dict pystr pystr) : bool :=
  match dict_lookup pystr_eqb X options with
  | Some desc => pystr_eqb desc not_applicable
  | None => false
  end.

(** [m] is what the taxonomy says about the character [v] at position [j]
    of [code]: its description in the dictionary [get_position_options]
    returns for the code's category and group, or the custom-attribute text
    when that dictionary does not list it. *)
Definition meaning_ok (code : pystr) (j : Z) (v m : pystr) : Prop :=
  exists cat grp options,
    char_at code 1 = Some cat /\ char_at code 2 = Some grp
    /\ Enhanced.get_position_options (Some cat) (Some grp) j = Ok options
    /\ (dict_lookup pystr_eqb v options = Some m
        \/ (dict_lookup pystr_eqb v options = None
            /\ m = Enhanced.custom_attribute)).

(** Every value recorded is the character of [code] at its position, and
    every meaning recorded is the taxonomy's for that character. *)
Definition described (code : pystr) (info : Enhanced.positions_info_t) : Prop :=
  forall j r, entry info j = Some r ->
    (forall v, Enhanced.value r = Some v -> char_at code j = Some v)
    /\ (forall m, Enhanced.meaning r = Some m ->
          exists v, char_at code j = Some v /\ meaning_ok code j v m).

(** A dialogue that never fails: on every input it either runs out of lines
    ([EOFError]) or returns a value satisfying [P] after reading at least
    [n] lines. *)
Definition consumes {A : Type} (n : nat) (m : io A) (P : A -> Prop) : Prop :=
  forall inputs,
    match snd (m inputs) with
    | (rest, Returned a) =>
        (n + List.length rest <= List.length inputs)%nat /\ P a
    | (_, EOFError) => True
    | (_, Failed _) => False
    end.

(** What [generate_cfi_code] may return: nothing, or a code [validate]
    accepts. *)
Definition valid_or_none (U : unicode_db) (r : option pystr) : Prop :=
  match r with
  | Some code => exists msg, Basic.validate U (PyStr code) = Ok (true, msg)
  | None => True
  end.

(** An attribute the dialogue may append at [position]: when the pair has
    rules for the position, one of its options. *)
Definition chosen_ok (category group : pystr) (position : Z) (attr : pystr)
    : Prop :=
  forall rules options,
    dict_lookup pystr_eqb (category ++ group) ATTRIBUTES = Some rules ->
    dict_lookup Z.eqb position rules = Some options ->
    dict_mem pystr_eqb attr options = true.

(** What the dialogue assembles: a registered category, one of its groups,
    and four attributes chosen as above. *)
Definition assembled (code : pystr) : Prop :=
  exists category group a3 a4 a5 a6,
    code = ((((category ++ group) ++ a3) ++ a4) ++ a5) ++ a6
    /\ dict_mem pystr_eqb category CATEGORIES = true
    /\ dict_mem pystr_eqb group (dict_get pystr_eqb GROUPS category []) = true
    /\ chosen_ok category group 3 a3 /\ chosen_ok category group 4 a4
    /\ chosen_ok category group 5 a5 /\ chosen_ok category group 6 a6.

(** A one-character string holding an upper-case ASCII letter. *)
Definition single_upper (s : pystr) : bool :=
  match s with
  | [k] => is_ascii_upper k
  | _ => false
  end.

(** What the enhanced [generate_cfi_code] may return: nothing, or a code
    the enhanced [validate] accepts. *)
Definition detailed_valid_or_none (U : unicode_db) (r : option pystr) : Prop :=
  match r with
  | Some code =>
      exists msg info, Enhanced.validate U (PyStr code) = Ok (true, msg, info)
  | None => True
  end.

(** A character the enhanced generator takes at [position]: one of the
    options when the pair has rules for the position, any alphabetic
    string otherwise. *)
Definition attribute_taken (U : unicode_db) (category_group : pystr)
    (position : Z) (c : pystr) : Prop :=
  match dict_lookup pystr_eqb category_group ATTRIBUTES with
  | Some rules =>
      match dict_lookup Z.eqb position rules with
      | Some options => dict_mem pystr_eqb c options = true
      | None => str_isalpha U c = true
      end
  | None => str_isalpha U c = true
  end.

(* ------------------------------------------------------------------ *)
(** * Properties *)

(** ** Strings and dictionaries *)

Lemma pystr_eqb_eq (a b : pystr) : pystr_eqb a b = true <-> a = b.
Proof.
  revert b; induction a as [|x a IH]; intros [|y b]; simpl; split;
    try congruence; try reflexivity.
  - intros H. apply andb_true_iff in H as [Hx Hab].
    apply N.eqb_eq in Hx. apply IH in Hab. congruence.
  - intros H. injection H as -> ->.
    apply andb_true_iff. split; [apply N.eqb_refl | now apply IH].
Qed.

Lemma pystr_eqb_refl (a : pystr) : pystr_eqb a a = true.
Proof. now apply pystr_eqb_eq. Qed.

Section DictFacts.
Context {K V : Type} (eqb : K -> K -> bool).
Hypothesis eqb_eq : forall a b, eqb a b = true <-> a = b.

Lemma dict_lookup_In (k : K) (v : V) (d : dict K V) :
  dict_lookup eqb k d = Some v -> In (k, v) d.
Proof.
  induction d as [|[k' v'] d IH]; simpl; [discriminate|].
  destruct (eqb k k') eqn:E.
  - apply eqb_eq in E. intros [= ->]. left. now subst.
  - intros H. right. now apply IH.
Qed.

Lemma dict_mem_lookup (k : K) (d : dict K V) :
  dict_mem eqb k d = true <-> exists v, dict_lookup eqb k d = Some v.
Proof.
  unfold dict_mem. destruct (dict_lookup eqb k d) as [v|]; split.
  - now exists v.
  - reflexivity.
  - discriminate.
  - intros [v H]. discriminate.
Qed.

Lemma dict_lookup_set (k j : K) (v : V) (d : dict K V) :
  dict_lookup eqb j (dict_set eqb k v d)
  = if eqb j k then Some v else dict_lookup eqb j d.
Proof.
  induction d as [|[k' v'] d IH]; simpl; [reflexivity|].
  destruct (eqb k k') eqn:Ekk'; simpl.
  - apply eqb_eq in Ekk'. subst k'. now destruct (eqb j k).
  - rewrite IH. destruct (eqb j k') eqn:Ejk'; [|reflexivity].
    destruct (eqb j k) eqn:Ejk; [|reflexivity].
    apply eqb_eq in Ejk', Ejk. subst.
    assert (eqb k' k' = true) by now apply eqb_eq. congruence.
Qed.
End DictFacts.

Lemma keys_mem_dict_mem {V : Type} (k : pystr) (d : dict pystr V) :
  keys_mem k (dict_keys d) = dict_mem pystr_eqb k d.
Proof.
  unfold keys_mem, dict_keys, dict_mem.
  induction d as [|[k' v'] d IH]; simpl; [reflexivity|].
  destruct (pystr_eqb k k'); simpl; [reflexivity | exact IH].
Qed.

Lemma str_index_ok (s : pystr) (i : Z) :
  (0 <= i < Z.of_nat (List.length s))%Z ->
  exists c, str_index s i = Ok [c].
Proof.
  intros [Hlo Hhi]. unfold str_index.
  destruct (i <? 0)%Z eqn:Eneg; [apply Z.ltb_lt in Eneg; lia|].
  replace ((0 <=? i)%Z && (i <? Z.of_nat (List.length s))%Z) with true.
  - destruct (nth_error s (Z.to_nat i)) as [c|] eqn:En; [now exists c|].
    apply nth_error_None in En. lia.
  - symmetry. apply andb_true_iff. split; [apply Z.leb_le | apply Z.ltb_lt]; lia.
Qed.

Lemma str_index_single (s c : pystr) (i : Z) :
  str_index s i = Ok c -> exists x, c = [x].
Proof.
  unfold str_index.
  destruct (_ && _); [|discriminate].
  destruct (nth_error _ _) as [x|]; [|discriminate].
  intros [= <-]. now exists x.
Qed.

Lemma str_index_nth (s : pystr) (i : Z) (c : N) :
  (0 <= i)%Z -> str_index s i = Ok [c] -> nth_error s (Z.to_nat i) = Some c.
Proof.
  intros Hi. unfold str_index.
  destruct (Z.ltb_spec i 0); [lia|].
  destruct (_ && _); [|discriminate].
  destruct (nth_error s (Z.to_nat i)); [|discriminate].
  now intros [= ->].
Qed.

Lemma str_index_prefix (s : pystr) (c0 c1 : N) :
  str_index s 0 = Ok [c0] -> str_index s 1 = Ok [c1] -> firstn 2 s = [c0; c1].
Proof.
  intros H0 H1.
  apply str_index_nth in H0; [|lia]. apply str_index_nth in H1; [|lia].
  destruct s as [|a [|b s]]; try discriminate.
  simpl in *. congruence.
Qed.

Section StrFacts.
Variable U : unicode_db.

Lemma upper_cp_length (c : N) : (1 <= List.length (upper_cp U c))%nat.
Proof.
  unfold upper_cp. destruct (c <? 128)%N; simpl; [lia|].
  destruct (uni_upper U c); simpl; lia.
Qed.

(** Uppercasing never shortens a string. *)
Lemma str_upper_length (s : pystr) :
  (List.length s <= List.length (str_upper U s))%nat.
Proof.
  unfold str_upper. induction s as [|c s IH]; simpl; [lia|].
  rewrite length_app. pose proof (upper_cp_length c). lia.
Qed.
End StrFacts.

(** ** The tables *)

(** Every registered category has its dictionary of groups. *)
Lemma categories_have_groups (category : pystr) :
  dict_mem pystr_eqb category CATEGORIES = true ->
  exists desc groups,
    dict_lookup pystr_eqb category CATEGORIES = Some desc
    /\ dict_lookup pystr_eqb category GROUPS = Some groups.
Proof.
  intros H. apply (dict_mem_lookup pystr_eqb) in H as [desc Hd].
  exists desc.
  assert (Hall : forallb (fun kv => dict_mem pystr_eqb (fst kv) GROUPS) CATEGORIES
                 = true) by (vm_compute; reflexivity).
  rewrite forallb_forall in Hall.
  specialize (Hall _ (dict_lookup_In _ pystr_eqb_eq _ _ _ Hd)). simpl in Hall.
  apply (dict_mem_lookup pystr_eqb) in Hall as [groups Hg].
  now exists groups.
Qed.

Lemma attribute_rules_complete (category_group : pystr)
    (rules : dict Z (dict pystr pystr)) (p : Z) :
  dict_lookup pystr_eqb category_group ATTRIBUTES = Some rules ->
  (3 <= p <= 6)%Z ->
  exists options,
    dict_lookup Z.eqb p rules = Some options
    /\ dict_mem pystr_eqb X options = true
    /\ options <> [].
Proof.
  intros Hcg Hp.
  assert (Hall : forallb (fun e => rules_complete (snd e)) ATTRIBUTES = true)
    by (vm_compute; reflexivity).
  rewrite forallb_forall in Hall.
  specialize (Hall _ (dict_lookup_In _ pystr_eqb_eq _ _ _ Hcg)). simpl in Hall.
  unfold rules_complete in Hall. rewrite forallb_forall in Hall.
  assert (Hin : In p [3; 4; 5; 6]%Z) by (simpl; lia).
  specialize (Hall _ Hin).
  destruct (dict_lookup Z.eqb p rules) as [options|]; [|discriminate].
  exists options. apply andb_true_iff in Hall as [HX Hne].
  repeat split; trivial.
  intros ->. discriminate.
Qed.

(** No description of the tables is the text reserved for custom
    attributes. *)
Lemma category_desc_not_custom (category desc : pystr) :
  dict_lookup pystr_eqb category CATEGORIES = Some desc ->
  desc <> Enhanced.custom_attribute.
Proof.
  intros H.
  assert (Hall : forallb (fun kv => negb (pystr_eqb (snd kv) Enhanced.custom_attribute))
                   CATEGORIES = true) by (vm_compute; reflexivity).
  rewrite forallb_forall in Hall.
  specialize (Hall _ (dict_lookup_In _ pystr_eqb_eq _ _ _ H)). simpl in Hall.
  intros ->. now rewrite pystr_eqb_refl in Hall.
Qed.

Lemma group_desc_not_custom (category group desc : pystr)
    (groups : dict pystr pystr) :
  dict_lookup pystr_eqb category GROUPS = Some groups ->
  dict_lookup pystr_eqb group groups = Some desc ->
  desc <> Enhanced.custom_attribute.
Proof.
  intros Hc Hg.
  assert (Hall : forallb
                   (fun e => forallb
                               (fun kv => negb (pystr_eqb (snd kv)
                                                  Enhanced.custom_attribute))
                               (snd e)) GROUPS = true)
    by (vm_compute; reflexivity).
  rewrite forallb_forall in Hall.
  specialize (Hall _ (dict_lookup_In _ pystr_eqb_eq _ _ _ Hc)). simpl in Hall.
  rewrite forallb_forall in Hall.
  specialize (Hall _ (dict_lookup_In _ pystr_eqb_eq _ _ _ Hg)). simpl in Hall.
  intros ->. now rewrite pystr_eqb_refl in Hall.
Qed.

Lemma attribute_desc_not_custom (category_group char desc : pystr)
    (rules : dict Z (dict pystr pystr)) (p : Z) (options : dict pystr pystr) :
  dict_lookup pystr_eqb category_group ATTRIBUTES = Some rules ->
  dict_lookup Z.eqb p rules = Some options ->
  dict_lookup pystr_eqb char options = Some desc ->
  desc <> Enhanced.custom_attribute.
Proof.
  intros Hcg Hp Hc.
  assert (Hall : forallb
                   (fun e => forallb
                               (fun po => forallb
                                            (fun kv => negb (pystr_eqb (snd kv)
                                                               Enhanced.custom_attribute))
                                            (snd po))
                               (snd e)) ATTRIBUTES = true)
    by (vm_compute; reflexivity).
  rewrite forallb_forall in Hall.
  specialize (Hall _ (dict_lookup_In _ pystr_eqb_eq _ _ _ Hcg)). simpl in Hall.
  rewrite forallb_forall in Hall.
  specialize (Hall _ (dict_lookup_In _ Z.eqb_eq _ _ _ Hp)). simpl in Hall.
  rewrite forallb_forall in Hall.
  specialize (Hall _ (dict_lookup_In _ pystr_eqb_eq _ _ _ Hc)). simpl in Hall.
  intros ->. now rewrite pystr_eqb_refl in Hall.
Qed.

(** ** The position records *)

Lemma range_cons (lo hi : Z) :
  (lo < hi)%Z -> range lo hi = lo :: range (lo + 1) hi.
Proof.
  intros H. unfold range.
  replace (Z.to_nat (hi - lo)) with (S (Z.to_nat (hi - (lo + 1)))) by lia.
  simpl. f_equal; [lia|].
  rewrite <- seq_shift, map_map. apply map_ext. intros a. lia.
Qed.

Lemma range_nil (lo hi : Z) : (hi <= lo)%Z -> range lo hi = [].
Proof.
  intros H. unfold range. now replace (Z.to_nat (hi - lo)) with 0%nat by lia.
Qed.

Lemma entry_modify (info : Enhanced.positions_info_t) (i j : Z)
    (f : Enhanced.pos_record -> Enhanced.pos_record) :
  entry (modify info i f) j
  = if (j =? i)%Z then option_map f (entry info i) else entry info j.
Proof.
  unfold modify. destruct (entry info i) as [r|] eqn:E; simpl.
  - unfold entry. now rewrite (dict_lookup_set Z.eqb Z.eqb_eq).
  - destruct (Z.eqb_spec j i); [now subst | reflexivity].
Qed.

Lemma assign_modify (info : Enhanced.positions_info_t) (i : Z)
    (f : Enhanced.pos_record -> Enhanced.pos_record) (r : Enhanced.pos_record) :
  entry info i = Some r ->
  Enhanced.assign info i f = Ok (modify info i f).
Proof.
  intros H. unfold Enhanced.assign, modify, dict_getitem.
  unfold entry in *. now rewrite H.
Qed.

Lemma no_custom_modify (info : Enhanced.positions_info_t) (i : Z)
    (f : Enhanced.pos_record -> Enhanced.pos_record) :
  (forall r, Enhanced.meaning (f r) = Enhanced.meaning r
             \/ Enhanced.meaning (f r) <> Some Enhanced.custom_attribute) ->
  no_custom info -> no_custom (modify info i f).
Proof.
  intros Hf H j. unfold meaning_at. rewrite entry_modify.
  destruct (Z.eqb_spec j i) as [->|Hne]; [|apply H].
  specialize (H i). unfold meaning_at in H.
  destruct (entry info i) as [r|]; simpl; [|discriminate].
  destruct (Hf r) as [-> | Hm]; assumption.
Qed.

Lemma no_custom_set_value info i c :
  no_custom info -> no_custom (modify info i (Enhanced.set_value c)).
Proof. apply no_custom_modify. intros r. now left. Qed.

Lemma no_custom_set_valid info i b :
  no_custom info -> no_custom (modify info i (Enhanced.set_valid b)).
Proof. apply no_custom_modify. intros r. now left. Qed.

Lemma no_custom_set_error info i e :
  no_custom info -> no_custom (modify info i (Enhanced.set_error e)).
Proof. apply no_custom_modify. intros r. now left. Qed.

Lemma no_custom_set_meaning info i m :
  m <> Enhanced.custom_attribute ->
  no_custom info -> no_custom (modify info i (Enhanced.set_meaning m)).
Proof. intros Hm. apply no_custom_modify. intros r. right. simpl. congruence. Qed.

Lemma no_custom_resolve info p c m :
  m <> Enhanced.custom_attribute -> no_custom info ->
  no_custom (modify (modify (modify info p (Enhanced.set_value c)) p
                       (Enhanced.set_meaning m)) p (Enhanced.set_valid true)).
Proof.
  intros Hm H.
  now apply no_custom_set_valid, no_custom_set_meaning, no_custom_set_value.
Qed.

(** Resolving position [p]: value, meaning and validity assigned in turn. *)
Lemma progress_resolve (info : Enhanced.positions_info_t) (p : Z) (c m : pystr) :
  progress info p -> (1 <= p <= 6)%Z ->
  exists r,
    entry info p = Some r
    /\ entry (modify info p (Enhanced.set_value c)) p
       = Some (Enhanced.set_value c r)
    /\ entry (modify (modify info p (Enhanced.set_value c)) p
                (Enhanced.set_meaning m)) p
       = Some (Enhanced.set_meaning m (Enhanced.set_value c r))
    /\ progress
         (modify (modify (modify info p (Enhanced.set_value c)) p
                    (Enhanced.set_meaning m)) p (Enhanced.set_valid true))
         (p + 1).
Proof.
  intros Hprog Hp.
  destruct (Hprog p Hp) as (r & Hr & Hst).
  rewrite Z.ltb_irrefl in Hst.
  exists r. repeat split; trivial.
  - now rewrite entry_modify, Z.eqb_refl, Hr.
  - now rewrite !entry_modify, Z.eqb_refl, Hr.
  - intros j Hj. rewrite !entry_modify.
    destruct (Z.eqb_spec j p) as [->|Hne].
    + rewrite Z.eqb_refl, Hr. simpl. eexists; split; [reflexivity|].
      replace (p <? p + 1)%Z with true by (symmetry; apply Z.ltb_lt; lia).
      destruct Hst as (Hv & Hm & Hb & He).
      unfold resolved; simpl. repeat split; trivial; discriminate.
    + replace (j =? p)%Z with false by (symmetry; now apply Z.eqb_neq).
      destruct (Hprog j Hj) as (rj & Hrj & Hstj).
      exists rj. split; [assumption|].
      destruct (Z.ltb_spec j p), (Z.ltb_spec j (p + 1)); trivial; lia.
Qed.

(** Rejecting position [p]: value assigned, then the failing exit. *)
Lemma progress_fail (info : Enhanced.positions_info_t) (p : Z) (c msg : pystr) :
  progress info p -> (1 <= p <= 6)%Z ->
  exists info',
    Enhanced.fail_at (modify info p (Enhanced.set_value c)) p msg
    = Ok (false, msg, info')
    /\ failed_at info' p msg
    /\ (no_custom info -> no_custom info').
Proof.
  intros Hprog Hp.
  destruct (Hprog p Hp) as (r & Hr & Hst).
  rewrite Z.ltb_irrefl in Hst.
  set (i1 := modify info p (Enhanced.set_value c)).
  set (i2 := modify i1 p (Enhanced.set_valid false)).
  set (i3 := modify i2 p (Enhanced.set_error msg)).
  assert (H1 : entry i1 p = Some (Enhanced.set_value c r))
    by (unfold i1; now rewrite entry_modify, Z.eqb_refl, Hr).
  assert (H2 : entry i2 p
               = Some (Enhanced.set_valid false (Enhanced.set_value c r)))
    by (unfold i2; now rewrite entry_modify, Z.eqb_refl, H1).
  assert (H3 : entry i3 p
               = Some (Enhanced.set_error msg
                         (Enhanced.set_valid false (Enhanced.set_value c r))))
    by (unfold i3; now rewrite entry_modify, Z.eqb_refl, H2).
  exists i3. split; [|split].
  - unfold Enhanced.fail_at.
    rewrite (assign_modify _ _ _ _ H1). cbn [bind]. fold i2.
    rewrite (assign_modify _ _ _ _ H2). cbn [bind]. fold i3.
    unfold Enhanced.read_error, dict_getitem.
    unfold entry in H3. now rewrite H3.
  - intros j Hj.
    destruct (Z.eqb_spec j p) as [->|Hne].
    + rewrite H3. eexists; split; [reflexivity|].
      rewrite Z.ltb_irrefl.
      destruct Hst as (Hv & Hm & Hb & He).
      unfold offending; simpl. repeat split; trivial; discriminate.
    + unfold i3, i2, i1. rewrite !entry_modify.
      replace (j =? p)%Z with false by (symmetry; now apply Z.eqb_neq).
      destruct (Hprog j Hj) as (rj & Hrj & Hstj).
      exists rj. split; [assumption|].
      destruct (Z.ltb_spec j p); trivial.
  - intros H. unfold i3, i2, i1.
    now apply no_custom_set_error, no_custom_set_valid, no_custom_set_value.
Qed.

(** ** The attribute loops *)

Lemma loop_agrees_weaken looped basic (p : Z) :
  loop_agrees looped basic (p + 1) -> loop_agrees looped basic p.
Proof.
  destruct looped as [[[b msg] info]|info]; simpl; [|trivial].
  intros (Hb & Hbasic & k & Hk & Hfail).
  repeat split; trivial. exists k. split; [lia | assumption].
Qed.

Section Loops.
Variable U : unicode_db.
Variable cfi_code : pystr.
Hypothesis Hlen : (6 <= List.length cfi_code)%nat.

(** The loop of a pair with rules: both validators take the same exit,
    and the records follow the scan. *)
Lemma attribute_loop_spec (category_group : pystr)
    (rules : dict Z (dict pystr pystr)) :
  dict_lookup pystr_eqb category_group ATTRIBUTES = Some rules ->
  forall (n : nat) (p : Z) (info : Enhanced.positions_info_t),
    Z.of_nat n = (6 - p)%Z -> (2 <= p)%Z -> progress info (p + 1) ->
    exists looped,
      Enhanced.attribute_loop U cfi_code category_group (range p 6) info
      = Ok looped
      /\ loop_agrees looped
           (Basic.attribute_loop U cfi_code category_group (range p 6)) p
      /\ (no_custom info -> no_custom (loop_info looped)).
Proof.
  intros Hcg. induction n as [|n IH]; intros p info Hn Hp Hprog.
  - rewrite range_nil by lia. simpl. eexists; split; [reflexivity|].
    simpl. split; [|trivial].
    split; [reflexivity|]. now replace 7%Z with (p + 1)%Z by lia.
  - rewrite range_cons by lia.
    destruct (str_index_ok cfi_code p) as [c Hc]; [lia|].
    assert (Hp1 : (1 <= p + 1 <= 6)%Z) by lia.
    destruct (attribute_rules_complete _ _ (p + 1) Hcg)
      as (options & Hopt & _ & _); [lia|].
    destruct (Hprog _ Hp1) as (r & Hr & _).
    cbn [Enhanced.attribute_loop Basic.attribute_loop].
    rewrite Hc. cbn [bind].
    rewrite (assign_modify _ _ _ _ Hr). cbn [bind].
    unfold dict_getitem, dict_mem. rewrite Hcg. cbn [bind].
    rewrite Hopt. cbn [bind].
    destruct (keys_mem [c] (dict_keys options)) eqn:Emem; cbn [negb].
    + pose proof Emem as Hm. rewrite keys_mem_dict_mem in Hm.
      apply (dict_mem_lookup pystr_eqb) in Hm as [m Hm].
      destruct (progress_resolve info (p + 1) [c] m Hprog Hp1)
        as (r' & _ & H1 & H2 & Hprog').
      rewrite Hm. cbn [bind].
      rewrite (assign_modify _ _ _ _ H1). cbn [bind].
      rewrite (assign_modify _ _ _ _ H2). cbn [bind].
      destruct (IH (p + 1)%Z _ ltac:(lia) ltac:(lia) Hprog')
        as (looped & Hloop & Hagree & Hcustom).
      exists looped. split; [assumption|].
      split; [now apply loop_agrees_weaken|].
      intros H. apply Hcustom, no_custom_resolve; [|assumption].
      exact (attribute_desc_not_custom _ _ _ _ _ _ Hcg Hopt Hm).
    + destruct (progress_fail info (p + 1) [c]
                  (msg_invalid_attribute [c] (p + 1) category_group
                     (dict_keys options)) Hprog Hp1)
        as (info' & Hfail & Hfailed & Hcustom).
      rewrite Hfail. cbn [bind].
      eexists; split; [reflexivity|]. simpl.
      split; [|assumption].
      repeat split. exists (p + 1)%Z. split; [lia | assumption].
Qed.

(** The loop of a pair without rules. *)
Lemma fallback_loop_spec :
  forall (n : nat) (p : Z) (info : Enhanced.positions_info_t),
    Z.of_nat n = (6 - p)%Z -> (2 <= p)%Z -> progress info (p + 1) ->
    exists looped,
      Enhanced.fallback_loop U cfi_code (range p 6) info = Ok looped
      /\ loop_agrees looped (Basic.fallback_loop U cfi_code (range p 6)) p.
Proof.
  induction n as [|n IH]; intros p info Hn Hp Hprog.
  - rewrite range_nil by lia. simpl. eexists; split; [reflexivity|].
    simpl. split; [reflexivity|]. now replace 7%Z with (p + 1)%Z by lia.
  - rewrite range_cons by lia.
    destruct (str_index_ok cfi_code p) as [c Hc]; [lia|].
    assert (Hp1 : (1 <= p + 1 <= 6)%Z) by lia.
    cbn [Enhanced.fallback_loop Basic.fallback_loop].
    rewrite Hc. cbn [bind].
    destruct (str_isalpha U [c]) eqn:Ealpha; cbn [negb].
    + set (m := if pystr_eqb [c] X then not_applicable
                else Enhanced.custom_attribute).
      destruct (progress_resolve info (p + 1) [c] m Hprog Hp1)
        as (r & Hr & H1 & H2 & Hprog').
      rewrite (assign_modify _ _ _ _ Hr). cbn [bind].
      replace (if pystr_eqb [c] X
               then Enhanced.assign _ _ (Enhanced.set_meaning not_applicable)
               else Enhanced.assign _ _
                      (Enhanced.set_meaning Enhanced.custom_attribute))
        with (Enhanced.assign (modify info (p + 1) (Enhanced.set_value [c]))
                (p + 1) (Enhanced.set_meaning m))
        by (unfold m; now destruct (pystr_eqb [c] X)).
      rewrite (assign_modify _ _ _ _ H1). cbn [bind].
      rewrite (assign_modify _ _ _ _ H2). cbn [bind].
      destruct (IH (p + 1)%Z _ ltac:(lia) ltac:(lia) Hprog')
        as (looped & Hloop & Hagree).
      exists looped. split; [assumption|]. now apply loop_agrees_weaken.
    + destruct (Hprog _ Hp1) as (r & Hr & _).
      rewrite (assign_modify _ _ _ _ Hr). cbn [bind].
      destruct (progress_fail info (p + 1) [c]
                  (msg_must_be_alphabetic (p + 1)) Hprog Hp1)
        as (info' & Hfail & Hfailed & _).
      rewrite Hfail. cbn [bind].
      eexists; split; [reflexivity|]. simpl.
      repeat split. exists (p + 1)%Z. split; [lia | assumption].
Qed.
End Loops.

(** ** Both validators, side by side *)

Lemma init_positions_info_spec :
  exists info0,
    Enhanced.init_positions_info (range 1 7) [] = Ok info0
    /\ progress info0 1 /\ no_custom info0.
Proof.
  eexists. split; [vm_compute; reflexivity|]. split.
  2:{ intros j. unfold meaning_at, entry. cbn [dict_lookup].
      repeat (destruct (Z.eqb j _); [discriminate|]). discriminate. }
  intros j Hj.
  assert (Hcases : (j = 1 \/ j = 2 \/ j = 3 \/ j = 4 \/ j = 5 \/ j = 6)%Z) by lia.
  destruct Hcases as [-> | [-> | [-> | [-> | [-> | ->]]]]];
    (eexists; split; [reflexivity|]; simpl; unfold unresolved; simpl; auto).
Qed.

Lemma validate_spec (U : unicode_db) (v : pyval) : exists r, outcome_ok U v r.
Proof.
  destruct init_positions_info_spec as (info0 & Hinit & Hprog0 & Hcustom0).
  unfold outcome_ok, Enhanced.validate, Basic.validate.
  rewrite Hinit. cbn [bind].
  destruct (negb (truthy v) || negb (isinstance_str v)) eqn:Eguard.
  { eexists; split; [reflexivity|]. split; [reflexivity|].
    split; [now left | trivial]. }
  destruct v as [| b | z | s | b | l];
    try (simpl in Eguard; rewrite ?orb_true_r in Eguard; discriminate).
  cbn [py_len as_str bind].
  destruct (negb (Z.of_nat (List.length s) =? 6)%Z) eqn:Elen.
  { eexists; split; [reflexivity|]. split; [reflexivity|].
    split; [now left | trivial]. }
  destruct (negb (str_isalpha U s)) eqn:Ealpha.
  { eexists; split; [reflexivity|]. split; [reflexivity|].
    split; [now left | trivial]. }
  apply negb_false_iff, Z.eqb_eq in Elen.
  assert (Hlen : (6 <= List.length (str_upper U s))%nat)
    by (pose proof (str_upper_length U s); lia).
  set (code := str_upper U s) in *.
  destruct (str_index_ok code 0) as [c0 Hc0]; [lia|].
  destruct (str_index_ok code 1) as [c1 Hc1]; [lia|].
  rewrite Hc0. cbn [bind].
  destruct (Hprog0 1%Z ltac:(lia)) as (r1 & Hr1 & _).
  rewrite (assign_modify _ _ _ _ Hr1). cbn [bind].
  destruct (dict_mem pystr_eqb [c0] CATEGORIES) eqn:Ecat; cbn [negb].
  2:{ destruct (progress_fail info0 1 [c0]
                  (msg_invalid_category [c0] (dict_keys CATEGORIES)) Hprog0
                  ltac:(lia)) as (info' & Hfail & Hfailed & Hcustom).
      rewrite Hfail.
      eexists; split; [reflexivity|]. split; [reflexivity|].
      split; [|auto].
      right. exists 1%Z. split; [lia | assumption]. }
  destruct (categories_have_groups _ Ecat) as (desc & groups & Hdesc & Hgroups).
  destruct (progress_resolve info0 1 [c0] desc Hprog0 ltac:(lia))
    as (r1' & _ & H11 & H12 & Hprog1).
  unfold dict_getitem, dict_get. rewrite Hdesc, Hgroups, Hc1. cbn [bind].
  rewrite (assign_modify _ _ _ _ H11). cbn [bind].
  rewrite (assign_modify _ _ _ _ H12). cbn [bind].
  set (info1 := modify _ 1 (Enhanced.set_valid true)) in *.
  assert (Hcustom1 : no_custom info1)
    by (apply no_custom_resolve;
        [exact (category_desc_not_custom _ _ Hdesc) | assumption]).
  destruct (Hprog1 2%Z ltac:(lia)) as (r2 & Hr2 & _).
  rewrite (assign_modify _ _ _ _ Hr2). cbn [bind].
  destruct (dict_mem pystr_eqb [c1] groups) eqn:Egrp; cbn [negb].
  2:{ destruct (progress_fail info1 2 [c1]
                  (msg_invalid_group [c1] [c0] (dict_keys groups)) Hprog1
                  ltac:(lia)) as (info' & Hfail & Hfailed & Hcustom).
      rewrite Hfail.
      eexists; split; [reflexivity|]. split; [reflexivity|].
      split; [|auto].
      right. exists 2%Z. split; [lia | assumption]. }
  apply (dict_mem_lookup pystr_eqb) in Egrp as [gdesc Hg].
  destruct (progress_resolve info1 2 [c1] gdesc Hprog1 ltac:(lia))
    as (r2' & _ & H21 & H22 & Hprog2).
  rewrite Hg. cbn [bind].
  rewrite (assign_modify _ _ _ _ H21). cbn [bind].
  rewrite (assign_modify _ _ _ _ H22). cbn [bind].
  set (info2 := modify _ 2 (Enhanced.set_valid true)) in *.
  assert (Hcustom2 : no_custom info2)
    by (apply no_custom_resolve;
        [exact (group_desc_not_custom _ _ _ _ Hgroups Hg) | assumption]).
  pose proof (str_index_prefix _ _ _ Hc0 Hc1) as Hpair.
  assert (Hloops :
    exists looped,
      (if dict_mem pystr_eqb ([c0] ++ [c1]) ATTRIBUTES
       then Enhanced.attribute_loop U code ([c0] ++ [c1]) (range 2 6) info2
       else Enhanced.fallback_loop U code (range 2 6) info2) = Ok looped
      /\ loop_agrees looped
           (if dict_mem pystr_eqb ([c0] ++ [c1]) ATTRIBUTES
            then Basic.attribute_loop U code ([c0] ++ [c1]) (range 2 6)
            else Basic.fallback_loop U code (range 2 6)) 2
      /\ (dict_mem pystr_eqb (firstn 2 code) ATTRIBUTES = true ->
          no_custom (loop_info looped))).
  { rewrite Hpair. change ([c0] ++ [c1]) with [c0; c1].
    destruct (dict_mem pystr_eqb [c0; c1] ATTRIBUTES) eqn:Eattr.
    - apply (dict_mem_lookup pystr_eqb) in Eattr as [rules Hrules].
      destruct (attribute_loop_spec U code Hlen _ rules Hrules 4 2 info2
                  eq_refl ltac:(lia) Hprog2) as (looped & H1 & H2 & H3).
      exists looped. auto.
    - destruct (fallback_loop_spec U code Hlen 4 2 info2 eq_refl ltac:(lia)
                  Hprog2) as (looped & H1 & H2).
      exists looped. repeat split; trivial. discriminate. }
  destruct Hloops as (looped & Hloop & Hagree & Hcustom).
  rewrite Hloop. cbn [bind].
  destruct looped as [[[b msg] info']|info']; cbn [loop_agrees] in Hagree.
  - destruct Hagree as (-> & Hbasic & k & Hk & Hfailed).
    rewrite Hbasic. cbn [bind].
    eexists; split; [reflexivity|]. split; [reflexivity|].
    split; [right; exists k; split; [lia | assumption]|].
    intros s' [= <-] Hdef. now apply Hcustom.
  - destruct Hagree as (Hbasic & Hprog7).
    rewrite Hbasic. cbn [bind].
    eexists; split; [reflexivity|]. split; [reflexivity|].
    split; [exact Hprog7|].
    intros s' [= <-] Hdef. now apply Hcustom.
Qed.

(** ** Case folding of ASCII letters *)

Lemma in_range_true (lo hi c : N) :
  (lo <= c <= hi)%N -> (lo <=? c)%N && (c <=? hi)%N = true.
Proof. intros [H1 H2]. apply andb_true_iff. split; now apply N.leb_le. Qed.

Lemma in_range_false (lo hi c : N) :
  (c < lo \/ hi < c)%N -> (lo <=? c)%N && (c <=? hi)%N = false.
Proof.
  intros H. apply andb_false_iff.
  destruct H; [left | right]; now apply N.leb_gt.
Qed.

Lemma ascii_letter_facts (c : N) :
  is_ascii_letter c = true ->
  (c <? 128)%N = true
  /\ is_ascii_letter (ascii_upper c) = true
  /\ is_ascii_letter (ascii_lower c) = true
  /\ (ascii_upper c <? 128)%N = true
  /\ (ascii_lower c <? 128)%N = true
  /\ ascii_upper (ascii_upper c) = ascii_upper c
  /\ ascii_upper (ascii_lower c) = ascii_upper c.
Proof.
  unfold is_ascii_letter. intros H. apply orb_true_iff in H.
  destruct H as [H|H]; apply andb_true_iff in H as [H1 H2];
    apply N.leb_le in H1, H2.
  - (* an upper-case letter *)
    assert (Hu : is_ascii_upper c = true) by (apply in_range_true; lia).
    assert (Hl : is_ascii_lower c = false) by (apply in_range_false; lia).
    assert (Hu' : is_ascii_upper (c + 32) = false) by (apply in_range_false; lia).
    assert (Hl' : is_ascii_lower (c + 32) = true) by (apply in_range_true; lia).
    unfold ascii_upper, ascii_lower.
    repeat (progress (rewrite ?Hu, ?Hl, ?Hu', ?Hl'; cbv iota)).
    replace (c + 32 - 32)%N with c by lia.
    repeat split; trivial; apply N.ltb_lt; lia.
  - (* a lower-case letter *)
    assert (Hu : is_ascii_upper c = false) by (apply in_range_false; lia).
    assert (Hl : is_ascii_lower c = true) by (apply in_range_true; lia).
    assert (Hu' : is_ascii_upper (c - 32) = true) by (apply in_range_true; lia).
    assert (Hl' : is_ascii_lower (c - 32) = false) by (apply in_range_false; lia).
    unfold ascii_upper, ascii_lower.
    repeat (progress (rewrite ?Hu, ?Hl, ?Hu', ?Hl'; cbv iota)).
    repeat split; trivial; apply N.ltb_lt; lia.
Qed.

Section CaseFolding.
Variable U : unicode_db.

Lemma ascii_letters_fold (s : pystr) :
  forallb is_ascii_letter s = true ->
  str_upper U s = map ascii_upper s
  /\ str_lower U s = map ascii_lower s
  /\ forallb (isalpha_cp U) s = true
  /\ forallb is_ascii_letter (map ascii_upper s) = true
  /\ forallb is_ascii_letter (map ascii_lower s) = true
  /\ map ascii_upper (map ascii_upper s) = map ascii_upper s
  /\ map ascii_upper (map ascii_lower s) = map ascii_upper s.
Proof.
  induction s as [|c s IH]; simpl; [repeat split|].
  intros H. apply andb_true_iff in H as [Hc Hs].
  destruct (IH Hs) as (I1 & I2 & I3 & I4 & I5 & I6 & I7).
  destruct (ascii_letter_facts c Hc) as (F1 & F2 & F3 & F4 & F5 & F6 & F7).
  unfold str_upper, str_lower in *. simpl.
  unfold upper_cp at 1, lower_cp at 1, isalpha_cp at 1.
  rewrite F1, Hc, F2, F3, I1, I2, I3, I4, I5, I6, I7, F6, F7. simpl.
  repeat split.
Qed.

(** The validators read their argument only through its length, its
    [isalpha()] and its [upper()]. *)
Lemma basic_validate_ext (s s' : pystr) :
  List.length s = List.length s' ->
  str_isalpha U s = str_isalpha U s' ->
  str_upper U s = str_upper U s' ->
  Basic.validate U (PyStr s) = Basic.validate U (PyStr s').
Proof.
  intros Hl Ha Hu. unfold Basic.validate.
  cbn [truthy isinstance_str py_len as_str bind].
  now rewrite Hl, Ha, Hu.
Qed.

Lemma enhanced_validate_ext (s s' : pystr) :
  List.length s = List.length s' ->
  str_isalpha U s = str_isalpha U s' ->
  str_upper U s = str_upper U s' ->
  Enhanced.validate U (PyStr s) = Enhanced.validate U (PyStr s').
Proof.
  intros Hl Ha Hu. unfold Enhanced.validate.
  cbn [truthy isinstance_str py_len as_str bind].
  now rewrite Hl, Ha, Hu.
Qed.
End CaseFolding.

(** ** What the compact validator can return *)

(** Every option set of the attribute table lists [X], whatever the
    position it is registered under. *)
Lemma attribute_options_list_X (category_group : pystr)
    (rules : dict Z (dict pystr pystr)) (p : Z) (options : dict pystr pystr) :
  dict_lookup pystr_eqb category_group ATTRIBUTES = Some rules ->
  dict_lookup Z.eqb p rules = Some options ->
  dict_mem pystr_eqb X options = true.
Proof.
  intros Hcg Hp.
  assert (Hall : forallb (fun e => forallb (fun po => dict_mem pystr_eqb X (snd po))
                                     (snd e)) ATTRIBUTES = true)
    by (vm_compute; reflexivity).
  rewrite forallb_forall in Hall.
  specialize (Hall _ (dict_lookup_In _ pystr_eqb_eq _ _ _ Hcg)). simpl in Hall.
  rewrite forallb_forall in Hall.
  exact (Hall _ (dict_lookup_In _ Z.eqb_eq _ _ _ Hp)).
Qed.

Section BasicInversion.
Variable U : unicode_db.

(** A [return] from inside the loop over a pair with rules is an
    invalid-attribute message for a character outside the option set,
    or the alphabetic check of a position without rules. *)
Lemma basic_attribute_loop_inv (cfi_code category_group : pystr)
    (positions : list Z) (r : bool * pystr) :
  Basic.attribute_loop U cfi_code category_group positions = Ok (Some r) ->
  exists rules,
    dict_lookup pystr_eqb category_group ATTRIBUTES = Some rules
    /\ ((exists c k options,
           r = (false, msg_invalid_attribute [c] k category_group
                         (dict_keys options))
           /\ dict_lookup Z.eqb k rules = Some options
           /\ dict_mem pystr_eqb [c] options = false)
        \/ (exists k,
              r = (false, msg_must_be_alphabetic k)
              /\ dict_lookup Z.eqb k rules = None
              /\ In (k - 1)%Z positions)).
Proof.
  induction positions as [|position rest IH]; [discriminate|].
  cbn [Basic.attribute_loop].
  destruct (str_index cfi_code position) as [char|] eqn:Echar;
    cbn [bind]; [|discriminate].
  destruct (str_index_single _ _ _ Echar) as [c ->].
  unfold dict_getitem, dict_mem.
  destruct (dict_lookup pystr_eqb category_group ATTRIBUTES) as [rules|] eqn:Ecg;
    cbn [bind]; [|discriminate].
  destruct (dict_lookup Z.eqb (position + 1)%Z rules) as [options|] eqn:Eopt;
    cbn [bind].
  - destruct (keys_mem [c] (dict_keys options)) eqn:Emem; cbn [negb].
    + intros H. destruct (IH H) as (rules0 & Hr0 & [Hl | (k & Hk1 & Hk2 & Hk3)]).
      * exists rules0. split; [assumption | now left].
      * exists rules0. split; [assumption|]. right. exists k.
        repeat split; trivial. now right.
    + intros [= <-]. exists rules. split; [reflexivity|]. left.
      exists c, (position + 1)%Z, options.
      rewrite keys_mem_dict_mem in Emem. auto.
  - destruct (str_isalpha U [c]); cbn [negb].
    + intros H. destruct (IH H) as (rules0 & Hr0 & [Hl | (k & Hk1 & Hk2 & Hk3)]).
      * exists rules0. split; [assumption | now left].
      * exists rules0. split; [assumption|]. right. exists k.
        repeat split; trivial. now right.
    + intros [= <-]. exists rules. split; [reflexivity|]. right.
      exists (position + 1)%Z. repeat split; trivial.
      left. lia.
Qed.

Lemma basic_fallback_loop_inv (cfi_code : pystr) (indices : list Z)
    (r : bool * pystr) :
  Basic.fallback_loop U cfi_code indices = Ok (Some r) ->
  exists k, r = (false, msg_must_be_alphabetic k) /\ In (k - 1)%Z indices.
Proof.
  induction indices as [|i rest IH]; [discriminate|].
  cbn [Basic.fallback_loop].
  destruct (str_index cfi_code i) as [char|]; cbn [bind]; [|discriminate].
  destruct (str_isalpha U char); cbn [negb].
  - intros H. destruct (IH H) as (k & Hk & Hin). exists k. split; [assumption|].
    now right.
  - intros [= <-]. exists (i + 1)%Z. split; [reflexivity|]. left. lia.
Qed.

(** The exits of [validate]. *)
Lemma basic_validate_inv (v : pyval) (r : bool * pystr) :
  Basic.validate U v = Ok r ->
  r = (false, msg_not_a_string)
  \/ r = (false, msg_bad_length)
  \/ r = (false, msg_not_alphabetic)
  \/ (exists c keys, r = (false, msg_invalid_category c keys))
  \/ (exists g c keys, r = (false, msg_invalid_group g c keys))
  \/ (exists c k category_group rules options,
        r = (false, msg_invalid_attribute [c] k category_group
                      (dict_keys options))
        /\ dict_lookup pystr_eqb category_group ATTRIBUTES = Some rules
        /\ dict_lookup Z.eqb k rules = Some options
        /\ dict_mem pystr_eqb [c] options = false)
  \/ (exists k s,
        v = PyStr s /\ r = (false, msg_must_be_alphabetic k)
        /\ (3 <= k <= 6)%Z
        /\ exists rules,
             dict_lookup pystr_eqb (firstn 2 (str_upper U s)) ATTRIBUTES
             = rules
             /\ match rules with
                | Some rules => dict_lookup Z.eqb k rules = None
                | None => True
                end)
  \/ (exists category_desc group_desc,
        r = (true, msg_valid category_desc group_desc)).
Proof.
  unfold Basic.validate.
  destruct (negb (truthy v) || negb (isinstance_str v)); [intros [= <-]; auto|].
  destruct (py_len v) as [n|]; cbn [bind]; [|discriminate].
  destruct (negb (n =? 6)%Z); [intros [= <-]; auto|].
  destruct (as_str v) as [s|] eqn:Es; cbn [bind]; [|discriminate].
  destruct v; try discriminate Es. injection Es as ->.
  destruct (negb (str_isalpha U s)); [intros [= <-]; auto|].
  destruct (str_index (str_upper U s) 0) as [category|] eqn:E0;
    cbn [bind]; [|discriminate].
  destruct (negb (dict_mem pystr_eqb category CATEGORIES)).
  { intros [= <-]. do 3 right. left. eauto. }
  destruct (str_index (str_upper U s) 1) as [group|] eqn:E1;
    cbn [bind]; [|discriminate].
  destruct (negb (dict_mem pystr_eqb group _)).
  { destruct (dict_getitem pystr_eqb GROUPS category); cbn [bind];
      [|discriminate].
    intros [= <-]. do 4 right. left. eauto. }
  destruct (str_index_single _ _ _ E0) as [c0 ->].
  destruct (str_index_single _ _ _ E1) as [c1 ->].
  pose proof (str_index_prefix _ _ _ E0 E1) as Hpair.
  replace ([c0] ++ [c1]) with (firstn 2 (str_upper U s))
    by (now rewrite Hpair).
  destruct (dict_mem pystr_eqb (firstn 2 (str_upper U s)) ATTRIBUTES) eqn:Eattr.
  - destruct (Basic.attribute_loop U _ _ _) as [[r'|]|] eqn:Eloop;
      cbn [bind]; [| |discriminate].
    + intros [= <-].
      apply basic_attribute_loop_inv in Eloop
        as (rules & Hrules & [(c & k & options & -> & Hk & Hc)
                             | (k & -> & Hk & Hin)]).
      * do 5 right. left. exists c, k, (firstn 2 (str_upper U s)), rules, options. auto.
      * do 6 right. left. exists k, s.
        split; [reflexivity|]. split; [reflexivity|].
        split; [simpl in Hin; lia|].
        exists (Some rules). split; assumption.
    + destruct (dict_getitem pystr_eqb CATEGORIES [c0]); cbn [bind];
        [|discriminate].
      destruct (dict_getitem pystr_eqb GROUPS [c0]); cbn [bind];
        [|discriminate].
      destruct (dict_getitem pystr_eqb _ [c1]); cbn [bind]; [|discriminate].
      intros [= <-]. do 7 right. eauto.
  - destruct (Basic.fallback_loop U _ _) as [[r'|]|] eqn:Eloop;
      cbn [bind]; [| |discriminate].
    + intros [= <-].
      apply basic_fallback_loop_inv in Eloop as (k & -> & Hin).
      do 6 right. left. exists k, s.
      split; [reflexivity|]. split; [reflexivity|].
      split; [simpl in Hin; lia|].
      exists None. split; [|exact I].
      unfold dict_mem in Eattr.
      now destruct (dict_lookup pystr_eqb _ ATTRIBUTES).
    + destruct (dict_getitem pystr_eqb CATEGORIES [c0]); cbn [bind];
        [|discriminate].
      destruct (dict_getitem pystr_eqb GROUPS [c0]); cbn [bind];
        [|discriminate].
      destruct (dict_getitem pystr_eqb _ [c1]); cbn [bind]; [|discriminate].
      intros [= <-]. do 7 right. eauto.
Qed.
End BasicInversion.

(** For a pair with attribute rules the compact validator never answers
    with the alphabetic-check message. *)
Lemma basic_defined_pair_strict (U : unicode_db) (s : pystr) (b : bool) (k : Z) :
  dict_mem pystr_eqb (pair_of U s) ATTRIBUTES = true ->
  Basic.validate U (PyStr s) <> Ok (b, msg_must_be_alphabetic k).
Proof.
  intros Hdef H. apply basic_validate_inv in H.
  destruct H as [H | [H | [H | [(c & keys & H) | [(g & c & keys & H) | [H | [H | H]]]]]]];
    try msg_clash.
  - destruct H as (c & k' & cg & rules & options & H & _). msg_clash.
  - destruct H as (k' & s' & [= <-] & _ & Hk' & rules & Hrules & Hnone).
    unfold pair_of, dict_mem in Hdef. rewrite Hrules in Hdef.
    destruct rules as [rules|]; [|discriminate].
    destruct (attribute_rules_complete _ _ k' Hrules Hk') as (options & Hopt & _).
    congruence.
  - destruct H as (d & g & H). msg_clash.
Qed.

(** ** The first offending position *)

Lemma first_offending_at (U : unicode_db) (code : pystr) (k : Z) :
  (1 <= k <= 6)%Z -> passes U code k = false ->
  (forall j, (1 <= j < k)%Z -> passes U code j = true) ->
  first_offending U code = Some k.
Proof.
  intros Hk Hbad Hbefore. unfold first_offending.
  change (range 1 7) with [1; 2; 3; 4; 5; 6]%Z.
  assert (Hcases : (k = 1 \/ k = 2 \/ k = 3 \/ k = 4 \/ k = 5 \/ k = 6)%Z) by lia.
  destruct Hcases as [-> | [-> | [-> | [-> | [-> | ->]]]]];
    cbn [find];
    rewrite ?(Hbefore 1%Z), ?(Hbefore 2%Z), ?(Hbefore 3%Z), ?(Hbefore 4%Z),
      ?(Hbefore 5%Z) by lia;
    cbn [negb]; now rewrite Hbad.
Qed.

Lemma first_offending_none (U : unicode_db) (code : pystr) :
  (forall j, (1 <= j <= 6)%Z -> passes U code j = true) ->
  first_offending U code = None.
Proof.
  intros H. unfold first_offending.
  change (range 1 7) with [1; 2; 3; 4; 5; 6]%Z. cbn [find].
  now rewrite !H by lia.
Qed.

Lemma failed_at_flag (info : Enhanced.positions_info_t) (k : Z) (msg : pystr) :
  (1 <= k <= 6)%Z -> failed_at info k msg -> valid_at info k = Some false.
Proof.
  intros Hk H. destruct (H k Hk) as (r & Hr & Hst).
  rewrite Z.ltb_irrefl, Z.eqb_refl in Hst.
  unfold valid_at. rewrite Hr. apply Hst.
Qed.

Section FirstOffending.
Variable U : unicode_db.
Variable code : pystr.
Hypothesis Hlen : (6 <= List.length code)%nat.
Variables c0 c1 : N.
Hypothesis Hc0 : str_index code 0 = Ok [c0].
Hypothesis Hc1 : str_index code 1 = Ok [c1].

Lemma passes_category : passes U code 1 = dict_mem pystr_eqb [c0] CATEGORIES.
Proof.
  unfold passes, char_at. change (1 - 1)%Z with 0%Z. change (2 - 1)%Z with 1%Z.
  now rewrite Hc0, Hc1.
Qed.

Lemma passes_group :
  passes U code 2
  = dict_mem pystr_eqb [c1] (dict_get pystr_eqb GROUPS [c0] []).
Proof.
  unfold passes, char_at. change (1 - 1)%Z with 0%Z. change (2 - 1)%Z with 1%Z.
  now rewrite Hc0, Hc1.
Qed.

Lemma passes_attribute (p : Z) (c : N) :
  (2 <= p)%Z -> str_index code p = Ok [c] ->
  passes U code (p + 1)
  = match dict_lookup pystr_eqb [c0; c1] ATTRIBUTES with
    | Some rules =>
        match dict_lookup Z.eqb (p + 1)%Z rules with
        | Some options => dict_mem pystr_eqb [c] options
        | None => str_isalpha U [c]
        end
    | None => str_isalpha U [c]
    end.
Proof.
  intros Hp Hc. unfold passes, char_at.
  change (1 - 1)%Z with 0%Z. change (2 - 1)%Z with 1%Z.
  replace (p + 1 - 1)%Z with p by lia. rewrite Hc0, Hc1, Hc.
  replace (p + 1 =? 1)%Z with false by (symmetry; apply Z.eqb_neq; lia).
  now replace (p + 1 =? 2)%Z with false by (symmetry; apply Z.eqb_neq; lia).
Qed.

Lemma loop_scans_step looped (p : Z) :
  passes U code (p + 1) = true ->
  loop_scans U code looped (p + 1) -> loop_scans U code looped p.
Proof.
  intros Hok. destruct looped as [[[b msg] info]|info]; simpl.
  - intros (Hb & k & Hk & Hflag & Hbad & Hbefore).
    split; [assumption|]. exists k.
    split; [lia|]. do 2 (split; [assumption|]).
    intros j Hj. destruct (Z.eq_dec j (p + 1)) as [->|Hne]; [assumption|].
    apply Hbefore. lia.
  - intros H j Hj. destruct (Z.eq_dec j (p + 1)) as [->|Hne]; [assumption|].
    apply H. lia.
Qed.

(** The loop of a pair with rules stops at the first character that is
    not an option of its position. *)
Lemma attribute_loop_scans (rules : dict Z (dict pystr pystr)) :
  dict_lookup pystr_eqb [c0; c1] ATTRIBUTES = Some rules ->
  forall (n : nat) (p : Z) (info : Enhanced.positions_info_t),
    Z.of_nat n = (6 - p)%Z -> (2 <= p)%Z -> progress info (p + 1) ->
    exists looped,
      Enhanced.attribute_loop U code [c0; c1] (range p 6) info = Ok looped
      /\ loop_scans U code looped p.
Proof.
  intros Hcg. induction n as [|n IH]; intros p info Hn Hp Hprog.
  - rewrite range_nil by lia. simpl. eexists; split; [reflexivity|].
    simpl. intros j Hj. lia.
  - rewrite range_cons by lia.
    destruct (str_index_ok code p) as [c Hc]; [lia|].
    assert (Hp1 : (1 <= p + 1 <= 6)%Z) by lia.
    destruct (attribute_rules_complete _ _ (p + 1) Hcg)
      as (options & Hopt & _ & _); [lia|].
    destruct (Hprog _ Hp1) as (r & Hr & _).
    pose proof (passes_attribute p c Hp Hc) as Hpass.
    rewrite Hcg, Hopt in Hpass.
    cbn [Enhanced.attribute_loop].
    rewrite Hc. cbn [bind].
    rewrite (assign_modify _ _ _ _ Hr). cbn [bind].
    unfold dict_getitem, dict_mem. rewrite Hcg. cbn [bind].
    rewrite Hopt. cbn [bind].
    rewrite keys_mem_dict_mem.
    destruct (dict_mem pystr_eqb [c] options) eqn:Emem.
    + pose proof Emem as Hm.
      apply (dict_mem_lookup pystr_eqb) in Hm as [m Hm].
      destruct (progress_resolve info (p + 1) [c] m Hprog Hp1)
        as (r' & _ & H1 & H2 & Hprog').
      rewrite Hm. cbn [bind].
      rewrite (assign_modify _ _ _ _ H1). cbn [bind].
      rewrite (assign_modify _ _ _ _ H2). cbn [bind].
      destruct (IH (p + 1)%Z _ ltac:(lia) ltac:(lia) Hprog')
        as (looped & Hloop & Hscan).
      exists looped. split; [assumption|]. now apply loop_scans_step.
    + destruct (progress_fail info (p + 1) [c]
                  (msg_invalid_attribute [c] (p + 1) [c0; c1]
                     (dict_keys options)) Hprog Hp1)
        as (info' & Hfail & Hfailed & _).
      rewrite Hfail. cbn [bind].
      eexists; split; [reflexivity|]. simpl. split; [reflexivity|].
      exists (p + 1)%Z. split; [lia|].
      split; [exact (failed_at_flag _ _ _ Hp1 Hfailed)|].
      split; [assumption|]. intros j Hj. lia.
Qed.

(** The loop of a pair without rules stops at the first character that is
    not alphabetic. *)
Lemma fallback_loop_scans :
  dict_lookup pystr_eqb [c0; c1] ATTRIBUTES = None ->
  forall (n : nat) (p : Z) (info : Enhanced.positions_info_t),
    Z.of_nat n = (6 - p)%Z -> (2 <= p)%Z -> progress info (p + 1) ->
    exists looped,
      Enhanced.fallback_loop U code (range p 6) info = Ok looped
      /\ loop_scans U code looped p.
Proof.
  intros Hcg. induction n as [|n IH]; intros p info Hn Hp Hprog.
  - rewrite range_nil by lia. simpl. eexists; split; [reflexivity|].
    simpl. intros j Hj. lia.
  - rewrite range_cons by lia.
    destruct (str_index_ok code p) as [c Hc]; [lia|].
    assert (Hp1 : (1 <= p + 1 <= 6)%Z) by lia.
    pose proof (passes_attribute p c Hp Hc) as Hpass. rewrite Hcg in Hpass.
    cbn [Enhanced.fallback_loop].
    rewrite Hc. cbn [bind].
    destruct (str_isalpha U [c]) eqn:Ealpha.
    + set (m := if pystr_eqb [c] X then not_applicable
                else Enhanced.custom_attribute).
      destruct (progress_resolve info (p + 1) [c] m Hprog Hp1)
        as (r & Hr & H1 & H2 & Hprog').
      rewrite (assign_modify _ _ _ _ Hr). cbn [bind].
      replace (if pystr_eqb [c] X
               then Enhanced.assign _ _ (Enhanced.set_meaning not_applicable)
               else Enhanced.assign _ _
                      (Enhanced.set_meaning Enhanced.custom_attribute))
        with (Enhanced.assign (modify info (p + 1) (Enhanced.set_value [c]))
                (p + 1) (Enhanced.set_meaning m))
        by (unfold m; now destruct (pystr_eqb [c] X)).
      rewrite (assign_modify _ _ _ _ H1). cbn [bind].
      rewrite (assign_modify _ _ _ _ H2). cbn [bind].
      destruct (IH (p + 1)%Z _ ltac:(lia) ltac:(lia) Hprog')
        as (looped & Hloop & Hscan).
      exists looped. split; [assumption|]. now apply loop_scans_step.
    + destruct (Hprog _ Hp1) as (r & Hr & _).
      rewrite (assign_modify _ _ _ _ Hr). cbn [bind].
      destruct (progress_fail info (p + 1) [c]
                  (msg_must_be_alphabetic (p + 1)) Hprog Hp1)
        as (info' & Hfail & Hfailed & _).
      rewrite Hfail. cbn [bind].
      eexists; split; [reflexivity|]. simpl. split; [reflexivity|].
      exists (p + 1)%Z. split; [lia|].
      split; [exact (failed_at_flag _ _ _ Hp1 Hfailed)|].
      split; [assumption|]. intros j Hj. lia.
Qed.
End FirstOffending.

(** The enhanced [validate], read against the first offending position of
    its argument. *)
Lemma validate_scans (U : unicode_db) (v : pyval) :
  exists b msg info,
    Enhanced.validate U v = Ok (b, msg, info)
    /\ match checked_code U v with
       | None => b = false /\ progress info 1
       | Some code =>
           match first_offending U code with
           | None => b = true
           | Some k =>
               b = false /\ (1 <= k <= 6)%Z /\ valid_at info k = Some false
           end
       end.
Proof.
  destruct init_positions_info_spec as (info0 & Hinit & Hprog0 & _).
  unfold Enhanced.validate.
  rewrite Hinit. cbn [bind].
  destruct (negb (truthy v) || negb (isinstance_str v)) eqn:Eguard.
  { assert (Hcc : checked_code U v = None).
    { destruct v as [| b | z | s | b | l]; try reflexivity.
      destruct s; [reflexivity | simpl in Eguard; discriminate]. }
    rewrite Hcc. do 3 eexists. split; [reflexivity|]. now split. }
  destruct v as [| b | z | s | b | l];
    try (simpl in Eguard; rewrite ?orb_true_r in Eguard; discriminate).
  cbn [py_len as_str bind checked_code].
  destruct (negb (Z.of_nat (List.length s) =? 6)%Z) eqn:Elen.
  { replace (Nat.eqb (List.length s) 6) with false.
    - do 3 eexists. split; [reflexivity|]. now split.
    - symmetry. apply Nat.eqb_neq. intros E. rewrite E in Elen. discriminate. }
  apply negb_false_iff, Z.eqb_eq in Elen.
  replace (Nat.eqb (List.length s) 6) with true
    by (symmetry; apply Nat.eqb_eq; lia).
  destruct (str_isalpha U s) eqn:Ealpha; cbn [negb andb].
  2:{ do 3 eexists. split; [reflexivity|]. now split. }
  assert (Hlen : (6 <= List.length (str_upper U s))%nat)
    by (pose proof (str_upper_length U s); lia).
  set (code := str_upper U s) in *.
  destruct (str_index_ok code 0) as [c0 Hc0]; [lia|].
  destruct (str_index_ok code 1) as [c1 Hc1]; [lia|].
  pose proof (passes_category U code c0 c1 Hc0 Hc1) as Hpass1.
  pose proof (passes_group U code c0 c1 Hc0 Hc1) as Hpass2.
  rewrite Hc0. cbn [bind].
  destruct (Hprog0 1%Z ltac:(lia)) as (r1 & Hr1 & _).
  rewrite (assign_modify _ _ _ _ Hr1). cbn [bind].
  destruct (dict_mem pystr_eqb [c0] CATEGORIES) eqn:Ecat; cbn [negb].
  2:{ destruct (progress_fail info0 1 [c0]
                  (msg_invalid_category [c0] (dict_keys CATEGORIES)) Hprog0
                  ltac:(lia)) as (info' & Hfail & Hfailed & _).
      rewrite Hfail.
      rewrite (first_offending_at U code 1 ltac:(lia) Hpass1)
        by (intros j Hj; lia).
      do 3 eexists. split; [reflexivity|].
      split; [reflexivity|]. split; [lia|].
      exact (failed_at_flag info' 1 _ ltac:(lia) Hfailed). }
  destruct (categories_have_groups _ Ecat) as (desc & groups & Hdesc & Hgroups).
  destruct (progress_resolve info0 1 [c0] desc Hprog0 ltac:(lia))
    as (r1' & _ & H11 & H12 & Hprog1).
  unfold dict_getitem, dict_get in *. rewrite Hdesc, Hgroups, Hc1 in *.
  cbn [bind].
  rewrite (assign_modify _ _ _ _ H11). cbn [bind].
  rewrite (assign_modify _ _ _ _ H12). cbn [bind].
  set (info1 := modify _ 1 (Enhanced.set_valid true)) in *.
  destruct (Hprog1 2%Z ltac:(lia)) as (r2 & Hr2 & _).
  rewrite (assign_modify _ _ _ _ Hr2). cbn [bind].
  assert (Hfirst : forall k, (2 <= k <= 6)%Z -> passes U code k = false ->
            (forall j, (2 <= j < k)%Z -> passes U code j = true) ->
            first_offending U code = Some k).
  { intros k Hk Hbad Hbefore. apply first_offending_at; [lia | assumption|].
    intros j Hj. destruct (Z.eq_dec j 1) as [->|Hne]; [assumption|].
    apply Hbefore. lia. }
  destruct (dict_mem pystr_eqb [c1] groups) eqn:Egrp; cbn [negb].
  2:{ destruct (progress_fail info1 2 [c1]
                  (msg_invalid_group [c1] [c0] (dict_keys groups)) Hprog1
                  ltac:(lia)) as (info' & Hfail & Hfailed & _).
      rewrite Hfail.
      rewrite (Hfirst 2%Z ltac:(lia) Hpass2) by (intros j Hj; lia).
      do 3 eexists. split; [reflexivity|].
      split; [reflexivity|]. split; [lia|].
      exact (failed_at_flag info' 2 _ ltac:(lia) Hfailed). }
  apply (dict_mem_lookup pystr_eqb) in Egrp as [gdesc Hg].
  destruct (progress_resolve info1 2 [c1] gdesc Hprog1 ltac:(lia))
    as (r2' & _ & H21 & H22 & Hprog2).
  rewrite Hg. cbn [bind].
  rewrite (assign_modify _ _ _ _ H21). cbn [bind].
  rewrite (assign_modify _ _ _ _ H22). cbn [bind].
  set (info2 := modify _ 2 (Enhanced.set_valid true)) in *.
  assert (Hloops :
    exists looped,
      (if dict_mem pystr_eqb ([c0] ++ [c1]) ATTRIBUTES
       then Enhanced.attribute_loop U code ([c0] ++ [c1]) (range 2 6) info2
       else Enhanced.fallback_loop U code (range 2 6) info2) = Ok looped
      /\ loop_scans U code looped 2).
  { change ([c0] ++ [c1]) with [c0; c1]. unfold dict_mem.
    destruct (dict_lookup pystr_eqb [c0; c1] ATTRIBUTES) as [rules|] eqn:Eattr.
    - exact (attribute_loop_scans U code Hlen c0 c1 Hc0 Hc1 rules Eattr 4 2
               info2 eq_refl ltac:(lia) Hprog2).
    - exact (fallback_loop_scans U code Hlen c0 c1 Hc0 Hc1 Eattr 4 2
               info2 eq_refl ltac:(lia) Hprog2). }
  destruct Hloops as (looped & Hloop & Hscan).
  rewrite Hloop. cbn [bind].
  destruct looped as [[[b msg] info']|info']; cbn [loop_scans] in Hscan.
  - destruct Hscan as (-> & k & Hk & Hflag & Hbad & Hbefore).
    rewrite (Hfirst k ltac:(lia) Hbad).
    2:{ intros j Hj. destruct (Z.eq_dec j 2) as [->|Hne]; [assumption|].
        apply Hbefore. lia. }
    exists false, msg, info'. split; [reflexivity|].
    split; [reflexivity|]. split; [lia | assumption].
  - rewrite first_offending_none.
    + do 3 eexists. split; reflexivity.
    + intros j Hj.
      destruct (Z.eq_dec j 1) as [->|H1]; [assumption|].
      destruct (Z.eq_dec j 2) as [->|H2]; [assumption|].
      apply Hscan. lia.
Qed.

(* ------------------------------------------------------------------ *)
(** * Main results *)

(** C1. Every pair of the attribute table ([ES], [EU], [EF], [DB], [DT],
    [OC], [OP], [FF], [SI]) lists ['X'] in the option set of every position
    it defines; hence the compact [validate] never returns the
    invalid-attribute message for an ['X'], at any position, for any
    input. *)
Theorem X_always_legal :
  dict_keys ATTRIBUTES
  = map lit ["ES"; "EU"; "EF"; "DB"; "DT"; "OC"; "OP"; "FF"; "SI"]%string
  /\ (forall category_group rules position options,
        dict_lookup pystr_eqb category_group ATTRIBUTES = Some rules ->
        dict_lookup Z.eqb position rules = Some options ->
        keys_mem X (dict_keys options) = true)
  /\ (forall (U : unicode_db) (v : pyval) (b : bool) (k : Z)
             (category_group : pystr) (valid_chars : list pystr),
        Basic.validate U v
        <> Ok (b, msg_invalid_attribute X k category_group valid_chars)).
Proof.
  split; [reflexivity|]. split.
  - intros cg rules p options Hcg Hp. rewrite keys_mem_dict_mem.
    exact (attribute_options_list_X _ _ _ _ Hcg Hp).
  - intros U v b k cg valid_chars H.
    apply basic_validate_inv in H.
    destruct H as [H | [H | [H | [(c & keys & H) | [(g & c & keys & H) | [H | [H | H]]]]]]];
      try msg_clash.
    + destruct H as (c & k' & cg' & rules & options & H & Hcg & Hk & Hc).
      pose proof (attribute_options_list_X _ _ _ _ Hcg Hk) as HX.
      assert (c = 88%N) as -> by
        (unfold msg_invalid_attribute, X in H; simpl in H; congruence).
      change X with [88%N] in HX. congruence.
    + destruct H as (k' & s & _ & H & _). msg_clash.
    + destruct H as (d & g & H). msg_clash.
Qed.

(** The table fact of C1 at the pair [ES], position 3. *)
Lemma X_always_legal_witness :
  keys_mem X (map lit ["V"; "N"; "R"; "X"]%string) = true.
Proof.
  exact (proj1 (proj2 X_always_legal) (lit "ES") _ 3%Z _ eq_refl eq_refl).
Defined.

(** C2, as the code has it.  A string whose length is not 6 is rejected by
    both validators without touching any position record; the message is
    ["CFI code must be exactly 6 characters"] for a non-empty string, and
    ["CFI code must be a string"] for the empty one, which the first guard
    ([not cfi_code]) catches before the length is looked at. *)
Theorem wrong_length_rejected (U : unicode_db) (s : pystr) :
  List.length s <> 6%nat ->
  let msg := match s with [] => msg_not_a_string | _ :: _ => msg_bad_length end in
  Basic.validate U (PyStr s) = Ok (false, msg)
  /\ exists info,
       Enhanced.validate U (PyStr s) = Ok (false, msg, info) /\ progress info 1.
Proof.
  intros Hlen msg.
  destruct init_positions_info_spec as (info0 & Hinit & Hprog0 & _).
  unfold Basic.validate, Enhanced.validate. rewrite Hinit. cbn [bind].
  destruct s as [|c s]; [split; [reflexivity | now exists info0]|].
  cbn [truthy isinstance_str py_len as_str bind List.length Nat.eqb negb orb].
  destruct (Z.eqb_spec (Z.of_nat (S (List.length s))) 6) as [E|E].
  - exfalso. apply Hlen. simpl. lia.
  - cbn [negb]. split; [reflexivity | now exists info0].
Qed.

Lemma wrong_length_rejected_witness :
  Basic.validate ascii_only (PyStr (lit "ES")) = Ok (false, msg_bad_length)
  /\ exists info,
       Enhanced.validate ascii_only (PyStr (lit "ES"))
       = Ok (false, msg_bad_length, info)
       /\ progress info 1.
Proof.
  apply (wrong_length_rejected ascii_only (lit "ES")). simpl. lia.
Defined.

(** C2 as stated fails at the empty string: its length is not 6, yet the
    message returned is not the length message. *)
Lemma empty_string_not_a_length_error :
  List.length (lit "") <> 6%nat
  /\ Basic.validate ascii_only (PyStr (lit "")) = Ok (false, msg_not_a_string)
  /\ Basic.validate ascii_only (PyStr (lit "")) <> Ok (false, msg_bad_length).
Proof.
  split; [simpl; lia|]. split; [reflexivity|].
  vm_compute. discriminate.
Qed.

(** C3. On a six-letter ASCII string both validators return the same
    outcome for the string, its upper-cased form and its lower-cased form.
    The argument is a value: [validate] works on the fresh string bound by
    [cfi_code.upper()] and the caller's string is the same before and
    after. *)
Theorem validate_case_insensitive (U : unicode_db) (s : pystr) :
  List.length s = 6%nat ->
  forallb is_ascii_letter s = true ->
  Basic.validate U (PyStr (str_upper U s)) = Basic.validate U (PyStr s)
  /\ Basic.validate U (PyStr (str_lower U s)) = Basic.validate U (PyStr s)
  /\ Enhanced.validate U (PyStr (str_upper U s)) = Enhanced.validate U (PyStr s)
  /\ Enhanced.validate U (PyStr (str_lower U s)) = Enhanced.validate U (PyStr s).
Proof.
  intros _ Hs.
  destruct (ascii_letters_fold U s Hs) as (Hup & Hlow & Ha & Hau & Hal & Huu & Hul).
  destruct (ascii_letters_fold U _ Hau) as (Hup' & _ & Ha' & _).
  destruct (ascii_letters_fold U _ Hal) as (Hup'' & _ & Ha'' & _).
  rewrite Hup, Hlow.
  assert (Hu : List.length (map ascii_upper s) = List.length s
               /\ str_isalpha U (map ascii_upper s) = str_isalpha U s
               /\ str_upper U (map ascii_upper s) = str_upper U s).
  { unfold str_isalpha. rewrite length_map, Ha, Ha', Hup', Huu, Hup. auto. }
  assert (Hl : List.length (map ascii_lower s) = List.length s
               /\ str_isalpha U (map ascii_lower s) = str_isalpha U s
               /\ str_upper U (map ascii_lower s) = str_upper U s).
  { unfold str_isalpha. rewrite length_map, Ha, Ha'', Hup'', Hul, Hup. auto. }
  destruct Hu as (Hu1 & Hu2 & Hu3), Hl as (Hl1 & Hl2 & Hl3).
  repeat split;
    (apply basic_validate_ext || apply enhanced_validate_ext); assumption.
Qed.

Lemma validate_case_insensitive_witness :
  Basic.validate ascii_only (PyStr (str_upper ascii_only (lit "eSvNfb")))
  = Basic.validate ascii_only (PyStr (lit "eSvNfb"))
  /\ Basic.validate ascii_only (PyStr (str_lower ascii_only (lit "eSvNfb")))
     = Basic.validate ascii_only (PyStr (lit "eSvNfb"))
  /\ Enhanced.validate ascii_only (PyStr (str_upper ascii_only (lit "eSvNfb")))
     = Enhanced.validate ascii_only (PyStr (lit "eSvNfb"))
  /\ Enhanced.validate ascii_only (PyStr (str_lower ascii_only (lit "eSvNfb")))
     = Enhanced.validate ascii_only (PyStr (lit "eSvNfb")).
Proof.
  apply (validate_case_insensitive ascii_only (lit "eSvNfb")); reflexivity.
Defined.
(** C4. The decomposition returned by the enhanced [validate] has the shape
    [decomposition_ok]: on a valid outcome all six records are valid, with
    value and meaning, and the argument has no offending position; on an
    outcome invalid at position [k], [k] is the first offending position
    of the upper-cased argument, exactly record [k] carries the error with
    [valid = False], the records before [k] are valid and the records
    after [k] are unset (value, meaning and validity all [None]); when the
    argument is rejected before the positional checks (not a non-empty
    string, not six characters, not alphabetic) no record is touched. *)
Theorem decomposition_invariant (U : unicode_db) (v : pyval) (b : bool)
    (msg : pystr) (info : Enhanced.positions_info_t) :
  Enhanced.validate U v = Ok (b, msg, info) -> decomposition_ok U v b msg info.
Proof.
  intros H.
  destruct (validate_spec U v) as (r & Henh & _ & Hstate & _).
  rewrite H in Henh. injection Henh as <-. simpl in Hstate.
  destruct (validate_scans U v) as (b' & msg' & info' & Hscan & Htied).
  rewrite H in Hscan. injection Hscan as <- <- <-.
  unfold decomposition_ok, valid_at, value_at, meaning_at, error_at in *.
  split; intros ->.
  - split.
    + destruct (checked_code U v) as [code|]; [|destruct Htied; discriminate].
      exists code. split; [reflexivity|].
      destruct (first_offending U code); [destruct Htied; discriminate|].
      reflexivity.
    + intros j Hj. destruct (Hstate j Hj) as (r & -> & Hr).
      settle_position Hr. destruct Hr as (Hv & Hval & Hm & _). auto.
  - destruct (checked_code U v) as [code|].
    + destruct (first_offending U code) as [k0|]; [|discriminate].
      destruct Htied as (_ & Hk0 & Hflag).
      destruct Hstate as [Hprog | (k & Hk & Hfail)].
      { destruct (Hprog k0 Hk0) as (r & Hr & Hst). rewrite Hr in Hflag.
        settle_position Hst. destruct Hst as (_ & _ & Hx & _). congruence. }
      assert (Hunique : forall k', (1 <= k' <= 6)%Z ->
                match entry info k' with
                | Some r => Enhanced.valid r
                | None => None
                end = Some false -> k' = k).
      { intros k' Hk' Hv'.
        destruct (Hfail k' Hk') as (r & Hr & Hst). rewrite Hr in Hv'.
        destruct (Z.ltb_spec k' k);
          [destruct Hst as (Hx & _); congruence|].
        destruct (Z.eqb_spec k' k); [assumption|].
        destruct Hst as (_ & _ & Hx & _); congruence. }
      pose proof (Hunique k0 Hk0 Hflag) as ->.
      exists k. split; [reflexivity|]. split; [assumption|].
      destruct (Hfail k Hk) as (rk & Hek & Hrk).
      rewrite Z.ltb_irrefl, Z.eqb_refl in Hrk.
      destruct Hrk as (Hv & He & _).
      rewrite Hek. do 2 (split; [assumption|]).
      split; [|split].
      * intros j Hj. destruct (Hfail j ltac:(lia)) as (r & -> & Hr).
        settle_position Hr. split; apply Hr.
      * intros j Hj. destruct (Hfail j ltac:(lia)) as (r & -> & Hr).
        settle_position Hr. exact Hr.
      * exact Hunique.
    + destruct Htied as (_ & Hprog).
      intros j Hj. destruct (Hprog j Hj) as (r & -> & Hr).
      settle_position Hr. exact Hr.
Qed.

(** C4 at the input ["ESAXXX"]: ['A'] is no option at position 3 of [ES]. *)
Lemma decomposition_invariant_witness :
  exists msg info,
    Enhanced.validate ascii_only (PyStr (lit "ESAXXX")) = Ok (false, msg, info)
    /\ first_offending ascii_only (lit "ESAXXX") = Some 3%Z
    /\ valid_at info 3 = Some false
    /\ decomposition_ok ascii_only (PyStr (lit "ESAXXX")) false msg info.
Proof.
  do 2 eexists. split; [vm_compute; reflexivity|].
  split; [vm_compute; reflexivity|]. split; [reflexivity|].
  apply (decomposition_invariant ascii_only (PyStr (lit "ESAXXX")) false).
  vm_compute. reflexivity.
Defined.


(** C5. On every input the compact [validate] returns the first two
    components of what the enhanced [validate] returns. *)
Theorem compact_agrees_with_detailed (U : unicode_db) (v : pyval) :
  exists b msg info,
    Enhanced.validate U v = Ok (b, msg, info)
    /\ Basic.validate U v = Ok (b, msg).
Proof.
  destruct (validate_spec U v) as ([[b msg] info] & Henh & Hbasic & _).
  now exists b, msg, info.
Qed.

(** C6. ["ESVNFB"] is valid; the message names Equities and Shares, and
    the detailed decomposition reads Voting, Free, Fully paid, Bearer at
    positions 3 to 6. *)
Theorem ESVNFB_valid (U : unicode_db) :
  Basic.validate U (PyStr (lit "ESVNFB"))
  = Ok (true, lit "Valid CFI code for Equities - Shares")
  /\ exists info,
       Enhanced.validate U (PyStr (lit "ESVNFB"))
       = Ok (true, lit "Valid CFI code for Equities - Shares", info)
       /\ map (value_at info) [1; 2; 3; 4; 5; 6]%Z
          = map (fun c => Some (lit c)) ["E"; "S"; "V"; "N"; "F"; "B"]%string
       /\ map (meaning_at info) [1; 2; 3; 4; 5; 6]%Z
          = map (fun m => Some (lit m))
              ["Equities"; "Shares"; "Voting"; "Free"; "Fully paid"; "Bearer"]%string
       /\ map (valid_at info) [1; 2; 3; 4; 5; 6]%Z
          = [Some true; Some true; Some true; Some true; Some true; Some true].
Proof.
  split; [vm_compute; reflexivity|].
  eexists. split; [vm_compute; reflexivity|].
  repeat split; vm_compute; reflexivity.
Qed.

(** C7, as the code has it.  For a category that is not registered (a
    string outside [CATEGORIES], or [None]), [get_position_options] at
    position 2 returns the empty dictionary: an ordinary value, no
    failure. *)
Theorem groups_of_unknown_category_empty (category group : option pystr) :
  Enhanced.opt_mem category CATEGORIES = false ->
  Enhanced.get_position_options category group 2 = Ok [].
Proof.
  intros H. unfold Enhanced.get_position_options. rewrite H. reflexivity.
Qed.

Lemma groups_of_unknown_category_empty_witness :
  Enhanced.get_position_options (Some (lit "Z")) None 2 = Ok [].
Proof.
  apply (groups_of_unknown_category_empty (Some (lit "Z")) None). reflexivity.
Defined.

(** C7 as stated fails at the category ["Z"]: the lookup does not fail, it
    returns a dictionary, and that dictionary is empty. *)
Lemma unknown_category_returns_data :
  dict_mem pystr_eqb (lit "Z") CATEGORIES = false
  /\ Enhanced.get_position_options (Some (lit "Z")) None 2 = Ok [].
Proof. split; reflexivity. Qed.

(** C8. Both validators return on every input value: a string of any
    content and length, [None], a number, a list.  Each of the six kinds of
    rejection is an ordinary returned pair. *)
Theorem validate_total (U : unicode_db) :
  (forall v, exists r, Basic.validate U v = Ok r)
  /\ (forall v, exists r, Enhanced.validate U v = Ok r)
  /\ Basic.validate U PyNone = Ok (false, msg_not_a_string)
  /\ Basic.validate U (PyStr (lit "")) = Ok (false, msg_not_a_string)
  /\ Basic.validate U (PyStr (lit "ES")) = Ok (false, msg_bad_length)
  /\ Basic.validate U (PyStr (lit "ES1NFB")) = Ok (false, msg_not_alphabetic)
  /\ Basic.validate U (PyStr (lit "ZZZZZZ"))
     = Ok (false, msg_invalid_category (lit "Z") (dict_keys CATEGORIES))
  /\ Basic.validate U (PyStr (lit "EZXXXX"))
     = Ok (false, msg_invalid_group (lit "Z") (lit "E")
                    (map lit ["S"; "U"; "F"; "L"; "H"; "R"; "P"; "C"; "X"]%string))
  /\ Basic.validate U (PyStr (lit "ESAXXX"))
     = Ok (false, msg_invalid_attribute (lit "A") 3 (lit "ES")
                    (map lit ["V"; "N"; "R"; "X"]%string)).
Proof.
  split.
  { intros v. destruct (validate_spec U v) as (r & _ & H & _). eauto. }
  split.
  { intros v. destruct (validate_spec U v) as (r & H & _). eauto. }
  repeat split; vm_compute; reflexivity.
Qed.

(** C9, as the code has it.  For a string that [validate] rejects, the
    [display_cfi_details] of [cfi_validator_test.py] validates again and
    prints the rejection line only; the [display_cfi_details] of
    [cfi_validator.py] does no validation of its own and is guarded by its
    caller: choice ['1'] of [main] prints the rejection line and does not
    call it. *)
Theorem rejected_code_not_rendered (U : unicode_db) (s msg : pystr) :
  Basic.validate U (PyStr s) = Ok (false, msg) ->
  Enhanced.display_cfi_details U s
  = ([nl ++ [226; 339; 8212]%N ++ lit " Invalid CFI code: " ++ msg], Ok tt)
  /\ Basic.main_validate_choice U s = ([nl ++ [10007; 32]%N ++ msg], Ok tt).
Proof.
  intros H.
  destruct (validate_spec U (PyStr s)) as ([[b msg'] info] & Henh & Hbasic & _).
  rewrite H in Hbasic. injection Hbasic as <- <-.
  unfold Enhanced.display_cfi_details, Basic.main_validate_choice.
  rewrite Henh, H. split; reflexivity.
Qed.

Lemma rejected_code_not_rendered_witness :
  Enhanced.display_cfi_details ascii_only (lit "ZZZZZZ")
  = ([nl ++ [226; 339; 8212]%N ++ lit " Invalid CFI code: "
        ++ msg_invalid_category (lit "Z") (dict_keys CATEGORIES)], Ok tt)
  /\ Basic.main_validate_choice ascii_only (lit "ZZZZZZ")
     = ([nl ++ [10007; 32]%N
           ++ msg_invalid_category (lit "Z") (dict_keys CATEGORIES)], Ok tt).
Proof.
  apply (rejected_code_not_rendered ascii_only (lit "ZZZZZZ")).
  vm_compute. reflexivity.
Defined.

(** C9 as stated fails for the [display_cfi_details] of [cfi_validator.py]:
    ["ZZZZZZ"] is rejected by [validate], and the helper renders it all the
    same, with ["Unknown"] for the category and the group. *)
Lemma basic_display_renders_rejected_code :
  Basic.validate ascii_only (PyStr (lit "ZZZZZZ"))
  = Ok (false, msg_invalid_category (lit "Z") (dict_keys CATEGORIES))
  /\ Basic.display_cfi_details ascii_only (lit "ZZZZZZ")
     = ([ nl ++ lit "CFI Code: ZZZZZZ";
          lit "======================";
          lit "Category (1st): Z - Unknown";
          lit "Group (2nd): Z - Unknown";
          lit "Attribute 3: Z";
          lit "Attribute 4: Z";
          lit "Attribute 5: Z";
          lit "Attribute 6: Z" ], Ok tt).
Proof. split; vm_compute; reflexivity. Qed.

(** C10. Every pair of the attribute table defines a non-empty option set
    at each of the positions 3, 4, 5 and 6.  Consequently the test
    [position + 1 in ATTRIBUTES[category_group]] holds at every iteration
    of the loop over a pair with rules, so its [else] branch is never
    entered: for such a pair the compact [validate] never answers
    ["Character at position ... must be alphabetic"], and the enhanced
    [validate] neither answers it nor records the meaning
    ["Custom attribute (no predefined meaning)"]. *)
Theorem attribute_rules_cover_all_positions :
  (forall category_group rules p,
     dict_lookup pystr_eqb category_group ATTRIBUTES = Some rules ->
     (3 <= p <= 6)%Z ->
     exists options,
       dict_lookup Z.eqb p rules = Some options /\ options <> [])
  /\ (forall category_group position,
        dict_mem pystr_eqb category_group ATTRIBUTES = true ->
        In position (range 2 6) ->
        exists rules,
          dict_getitem pystr_eqb ATTRIBUTES category_group = Ok rules
          /\ dict_mem Z.eqb (position + 1)%Z rules = true)
  /\ (forall (U : unicode_db) (s : pystr) (b : bool) (k : Z),
        dict_mem pystr_eqb (pair_of U s) ATTRIBUTES = true ->
        Basic.validate U (PyStr s) <> Ok (b, msg_must_be_alphabetic k))
  /\ (forall (U : unicode_db) (s : pystr) (b : bool) (msg : pystr)
             (info : Enhanced.positions_info_t),
        dict_mem pystr_eqb (pair_of U s) ATTRIBUTES = true ->
        Enhanced.validate U (PyStr s) = Ok (b, msg, info) ->
        (forall k, msg <> msg_must_be_alphabetic k)
        /\ (forall j, meaning_at info j <> Some Enhanced.custom_attribute)).
Proof.
  split; [|split; [|split]].
  - intros cg rules p Hcg Hp.
    destruct (attribute_rules_complete _ _ p Hcg Hp) as (options & H1 & _ & H2).
    now exists options.
  - intros cg position Hcg Hin.
    apply (dict_mem_lookup pystr_eqb) in Hcg as [rules Hrules].
    exists rules. unfold dict_getitem, dict_mem. rewrite Hrules.
    split; [reflexivity|].
    assert (Hp : (3 <= position + 1 <= 6)%Z) by (simpl in Hin; lia).
    destruct (attribute_rules_complete _ _ _ Hrules Hp) as (options & -> & _).
    reflexivity.
  - exact basic_defined_pair_strict.
  - intros U s b msg info Hdef H.
    destruct (validate_spec U (PyStr s)) as (r & Henh & Hbasic & _ & Hcustom).
    rewrite H in Henh. injection Henh as <-.
    split.
    + intros k ->. exact (basic_defined_pair_strict U s b k Hdef Hbasic).
    + exact (Hcustom s eq_refl Hdef).
Qed.

(** The table fact of C10 at the pair [ES], position 3. *)
Lemma attribute_rules_cover_all_positions_witness :
  exists options,
    dict_lookup Z.eqb 3%Z (dict_get pystr_eqb ATTRIBUTES (lit "ES") [])
    = Some options
    /\ options <> [].
Proof.
  apply (proj1 attribute_rules_cover_all_positions (lit "ES")).
  - reflexivity.
  - lia.
Defined.

(* ------------------------------------------------------------------ *)
(** * Further properties *)

(** ** Option listings *)

(** Every option set of the attribute table describes [X] as not
    applicable. *)
Lemma attribute_options_describe_X (category_group : pystr)
    (rules : dict Z (dict pystr pystr)) (p : Z) (options : dict pystr pystr) :
  dict_lookup pystr_eqb category_group ATTRIBUTES = Some rules ->
  dict_lookup Z.eqb p rules = Some options ->
  dict_lookup pystr_eqb X options = Some not_applicable.
Proof.
  intros Hcg Hp.
  assert (Hall : forallb (fun e => forallb (fun po => lists_X (snd po)) (snd e))
                   ATTRIBUTES = true) by (vm_compute; reflexivity).
  rewrite forallb_forall in Hall.
  specialize (Hall _ (dict_lookup_In _ pystr_eqb_eq _ _ _ Hcg)). simpl in Hall.
  rewrite forallb_forall in Hall.
  specialize (Hall _ (dict_lookup_In _ Z.eqb_eq _ _ _ Hp)). simpl in Hall.
  unfold lists_X in Hall.
  destruct (dict_lookup pystr_eqb X options) as [desc|]; [|discriminate].
  apply pystr_eqb_eq in Hall. now subst.
Qed.

(** Every registered category owns at least one group. *)
Lemma categories_have_a_group (category : pystr) (groups : dict pystr pystr) :
  dict_mem pystr_eqb category CATEGORIES = true ->
  dict_lookup pystr_eqb category GROUPS = Some groups ->
  groups <> [].
Proof.
  intros _ Hg.
  assert (Hall : forallb (fun e => negb (Nat.eqb (List.length (snd e)) 0)) GROUPS
                 = true) by (vm_compute; reflexivity).
  rewrite forallb_forall in Hall.
  specialize (Hall _ (dict_lookup_In _ pystr_eqb_eq _ _ _ Hg)). simpl in Hall.
  intros ->. discriminate.
Qed.

Lemma opt_truthy_some (k : option pystr) :
  Enhanced.opt_truthy k = true -> exists s, k = Some s /\ s <> [].
Proof.
  destruct k as [[|c s]|]; simpl; try discriminate.
  intros _. eexists; split; [reflexivity | discriminate].
Qed.


(** ** When the compact validator accepts *)

Section Acceptance.
Variable U : unicode_db.

(** The loop over a pair with rules runs to its end exactly when every
    position's character is in that position's option set. *)
Lemma basic_attribute_loop_none (cfi_code category_group : pystr)
    (rules : dict Z (dict pystr pystr)) (positions : list Z) :
  dict_lookup pystr_eqb category_group ATTRIBUTES = Some rules ->
  Forall (fun p => 2 <= p <= 5)%Z positions ->
  Basic.attribute_loop U cfi_code category_group positions = Ok None
  <-> Forall (fun p => exists c options,
                str_index cfi_code p = Ok [c]
                /\ dict_lookup Z.eqb (p + 1)%Z rules = Some options
                /\ dict_mem pystr_eqb [c] options = true) positions.
Proof.
  intros Hcg Hpos. induction Hpos as [|p rest Hp Hrest IH].
  - simpl. split; [constructor | reflexivity].
  - cbn [Basic.attribute_loop].
    destruct (attribute_rules_complete _ _ (p + 1) Hcg ltac:(lia))
      as (options & Hopt & _).
    destruct (str_index cfi_code p) as [char|e] eqn:Echar; cbn [bind].
    2:{ split; [discriminate|]. intros H. inversion H as [|? ? (c & o & Hc & _)].
        congruence. }
    destruct (str_index_single _ _ _ Echar) as [c ->].
    assert (Hmem : dict_mem Z.eqb (p + 1)%Z rules = true)
      by (unfold dict_mem; now rewrite Hopt).
    unfold dict_getitem. rewrite Hcg. cbn [bind]. rewrite Hmem, Hopt.
    cbn [bind]. rewrite keys_mem_dict_mem.
    destruct (dict_mem pystr_eqb [c] options) eqn:Emem; cbn [negb].
    + rewrite IH. split.
      * intros H. constructor; [|assumption]. now exists c, options.
      * intros H. now inversion H.
    + split; [discriminate|].
      intros H. inversion H as [|? ? (c' & o & Hc' & Ho & Hm)].
      rewrite Echar in Hc'. injection Hc' as <-. congruence.
Qed.

(** The loop over a pair without rules runs to its end exactly when every
    position's character is alphabetic. *)
Lemma basic_fallback_loop_none (cfi_code : pystr) (indices : list Z) :
  Basic.fallback_loop U cfi_code indices = Ok None
  <-> Forall (fun i => exists c,
                str_index cfi_code i = Ok [c] /\ str_isalpha U [c] = true)
        indices.
Proof.
  induction indices as [|i rest IH].
  - simpl. split; [constructor | reflexivity].
  - cbn [Basic.fallback_loop].
    destruct (str_index cfi_code i) as [char|e] eqn:Echar; cbn [bind].
    2:{ split; [discriminate|]. intros H. inversion H as [|? ? (c & Hc & _)].
        congruence. }
    destruct (str_index_single _ _ _ Echar) as [c ->].
    destruct (str_isalpha U [c]) eqn:Ealpha; cbn [negb].
    + rewrite IH. split.
      * intros H. constructor; [|assumption]. now exists c.
      * intros H. now inversion H.
    + split; [discriminate|].
      intros H. inversion H as [|? ? (c' & Hc' & Hm)].
      rewrite Echar in Hc'. injection Hc' as <-. congruence.
Qed.

(** The accepting exit of [validate], without the loops' early returns. *)
Lemma basic_validate_accepts (s : pystr) :
  (exists msg, Basic.validate U (PyStr s) = Ok (true, msg))
  <-> List.length s = 6%nat /\ str_isalpha U s = true
      /\ exists c0 c1,
           str_index (str_upper U s) 0 = Ok [c0]
           /\ str_index (str_upper U s) 1 = Ok [c1]
           /\ dict_mem pystr_eqb [c0] CATEGORIES = true
           /\ dict_mem pystr_eqb [c1] (dict_get pystr_eqb GROUPS [c0] []) = true
           /\ (if dict_mem pystr_eqb [c0; c1] ATTRIBUTES
               then Basic.attribute_loop U (str_upper U s) [c0; c1] (range 2 6)
               else Basic.fallback_loop U (str_upper U s) (range 2 6))
              = Ok None.
Proof.
  unfold Basic.validate.
  cbn [truthy isinstance_str py_len as_str bind negb orb].
  split.
  - intros (msg & H).
    destruct (Nat.eqb (List.length s) 0); cbn [negb orb] in H; [discriminate|].
    destruct (Z.eqb_spec (Z.of_nat (List.length s)) 6) as [Hlen|Hlen];
      cbn [negb] in H; [|discriminate].
    destruct (str_isalpha U s); cbn [negb] in H; [|discriminate].
    split; [lia|]. split; [reflexivity|].
    destruct (str_index (str_upper U s) 0) as [category|] eqn:E0;
      cbn [bind] in H; [|discriminate].
    destruct (dict_mem pystr_eqb category CATEGORIES) eqn:Ecat;
      cbn [negb] in H; [|discriminate].
    destruct (str_index (str_upper U s) 1) as [group|] eqn:E1;
      cbn [bind] in H; [|discriminate].
    destruct (dict_mem pystr_eqb group _) eqn:Egrp; cbn [negb] in H.
    2:{ destruct (dict_getitem pystr_eqb GROUPS category); cbn [bind] in H;
          discriminate. }
    destruct (str_index_single _ _ _ E0) as [c0 ->].
    destruct (str_index_single _ _ _ E1) as [c1 ->].
    exists c0, c1. repeat (split; [reflexivity || assumption|]).
    change ([c0] ++ [c1]) with [c0; c1] in H.
    destruct (if dict_mem pystr_eqb [c0; c1] ATTRIBUTES
              then Basic.attribute_loop U (str_upper U s) [c0; c1] (range 2 6)
              else Basic.fallback_loop U (str_upper U s) (range 2 6))
      as [[r|]|] eqn:Eloop; cbn [bind] in H; [|reflexivity|discriminate].
    injection H as ->.
    destruct (dict_mem pystr_eqb [c0; c1] ATTRIBUTES).
    + apply basic_attribute_loop_inv in Eloop
        as (rules & _ & [(c & k & o & [= ] & _) | (k & [= ] & _)]).
    + apply basic_fallback_loop_inv in Eloop as (k & [= ] & _).
  - intros (Hlen & Halpha & c0 & c1 & E0 & E1 & Ecat & Egrp & Eloop).
    rewrite Hlen, Halpha, E0. cbn [Nat.eqb negb orb Z.of_nat Z.eqb bind].
    replace (Z.of_nat 6 =? 6)%Z with true by reflexivity.
    cbn [negb]. rewrite Ecat, E1. cbn [negb bind]. rewrite Egrp. cbn [negb].
    change ([c0] ++ [c1]) with [c0; c1]. rewrite Eloop. cbn [bind].
    destruct (categories_have_groups _ Ecat) as (desc & groups & Hd & Hg).
    unfold dict_get in Egrp. rewrite Hg in Egrp.
    apply (dict_mem_lookup pystr_eqb) in Egrp as [gdesc Hgd].
    unfold dict_getitem. rewrite Hd, Hg. cbn [bind]. rewrite Hgd. cbn [bind].
    now eexists.
Qed.
End Acceptance.

Lemma char_at_index (code c : pystr) (k : Z) :
  char_at code k = Some c <-> str_index code (k - 1) = Ok c.
Proof.
  unfold char_at. destruct (str_index code (k - 1)); split; congruence.
Qed.

(** [get_position_options] at a position from 3 to 6 of a pair with rules
    is that position's option set. *)
Lemma position_options_of_rules (c0 c1 : N) (rules : dict Z (dict pystr pystr))
    (k : Z) :
  dict_lookup pystr_eqb [c0; c1] ATTRIBUTES = Some rules ->
  (3 <= k <= 6)%Z ->
  exists options,
    dict_lookup Z.eqb k rules = Some options
    /\ Enhanced.get_position_options (Some [c0]) (Some [c1]) k = Ok options.
Proof.
  intros Hcg Hk.
  destruct (attribute_rules_complete _ _ k Hcg Hk) as (options & Hopt & _).
  exists options. split; [assumption|].
  unfold Enhanced.get_position_options.
  replace (k =? 1)%Z with false by (symmetry; apply Z.eqb_neq; lia).
  replace (k =? 2)%Z with false by (symmetry; apply Z.eqb_neq; lia).
  assert (Hin : existsb (Z.eqb k) [3; 4; 5; 6]%Z = true).
  { apply existsb_exists. exists k. split; [simpl; lia | apply Z.eqb_refl]. }
  rewrite Hin. cbn [andb Enhanced.opt_truthy List.length Nat.eqb negb app].
  unfold dict_mem, dict_getitem. rewrite Hcg. cbn [bind]. now rewrite Hopt.
Qed.

Lemma range_2_6 : range 2 6 = [2; 3; 4; 5]%Z.
Proof. reflexivity. Qed.

(** ** Printing computations *)

Lemma snd_out_bind {A B : Type} (m : out A) (k : A -> out B) :
  snd (out_bind m k)
  = match snd m with
    | Ok a => snd (k a)
    | Raise e => Raise e
    end.
Proof.
  destruct m as [printed [a|e]]; simpl; [|reflexivity].
  now destruct (k a).
Qed.

Lemma fst_out_bind {A B : Type} (m : out A) (k : A -> out B) :
  fst (out_bind m k)
  = fst m ++ match snd m with
             | Ok a => fst (k a)
             | Raise e => []
             end.
Proof.
  destruct m as [printed [a|e]]; simpl; [|now rewrite app_nil_r].
  now destruct (k a).
Qed.

(** Push the projections of a printing computation through its binds. *)
Ltac out_simpl :=
  repeat (rewrite ?snd_out_bind, ?fst_out_bind;
          cbn [lift print fst snd app List.length]).

(** A loop whose bodies all return normally returns normally, having
    printed what the bodies printed. *)
Lemma for_each_ok {A : Type} (xs : list A) (body : A -> out unit) :
  (forall x, In x xs -> snd (body x) = Ok tt) ->
  snd (for_each xs body) = Ok tt
  /\ fst (for_each xs body) = flat_map (fun x => fst (body x)) xs.
Proof.
  induction xs as [|x rest IH]; intros Hall; [now split|].
  cbn [for_each flat_map]. rewrite snd_out_bind, fst_out_bind.
  rewrite (Hall x (or_introl eq_refl)).
  destruct IH as [IH1 IH2]; [intros y Hy; apply Hall; now right|].
  now rewrite IH1, IH2.
Qed.

(** A loop stops with the exception of the first body that raises. *)
Lemma for_each_raise {A : Type} (before : list A) (x : A) (after : list A)
    (body : A -> out unit) (e : exn) :
  (forall y, In y before -> snd (body y) = Ok tt) ->
  snd (body x) = Raise e ->
  snd (for_each (before ++ x :: after) body) = Raise e
  /\ fst (for_each (before ++ x :: after) body)
     = flat_map (fun y => fst (body y)) before ++ fst (body x).
Proof.
  induction before as [|y rest IH]; intros Hall Hx.
  - cbn [app for_each flat_map]. rewrite snd_out_bind, fst_out_bind, Hx.
    now rewrite app_nil_r.
  - cbn [app for_each flat_map]. rewrite snd_out_bind, fst_out_bind.
    rewrite (Hall y (or_introl eq_refl)).
    destruct IH as [IH1 IH2]; [intros z Hz; apply Hall; now right | assumption|].
    now rewrite IH1, IH2, app_assoc.
Qed.

Lemma str_index_raises (s : pystr) (i : Z) (e : exn) :
  str_index s i = Raise e -> e = IndexError.
Proof.
  unfold str_index. destruct (_ && _); [|congruence].
  destruct (nth_error _ _); congruence.
Qed.

(** Within bounds an index is served, beyond the end it is refused. *)
Lemma str_index_bounds (s : pystr) (i : Z) :
  (0 <= i)%Z ->
  if (i <? Z.of_nat (List.length s))%Z
  then exists c, str_index s i = Ok [c]
  else str_index s i = Raise IndexError.
Proof.
  intros Hi. destruct (Z.ltb_spec i (Z.of_nat (List.length s))) as [Hlt|Hge].
  - apply str_index_ok. lia.
  - unfold str_index. destruct (Z.ltb_spec i 0); [lia|].
    replace (i <? Z.of_nat (List.length s))%Z with false
      by (symmetry; apply Z.ltb_ge; lia).
    now rewrite andb_false_r.
Qed.

Lemma for_each_print {A : Type} (xs : list A) (f : A -> pystr) :
  snd (for_each xs (fun x => print (f x))) = Ok tt.
Proof. apply for_each_ok. reflexivity. Qed.

(** The keys of [GROUPS] are single upper-case ASCII letters. *)
Lemma group_keys_upper (c : N) :
  dict_mem pystr_eqb [c] GROUPS = true -> is_ascii_upper c = true.
Proof.
  intros H. apply (dict_mem_lookup pystr_eqb) in H as [groups H].
  assert (Hall : forallb (fun e => match fst e with
                                   | [k] => is_ascii_upper k
                                   | _ => false
                                   end) GROUPS = true)
    by (vm_compute; reflexivity).
  rewrite forallb_forall in Hall.
  exact (Hall _ (dict_lookup_In _ pystr_eqb_eq _ _ _ H)).
Qed.

(** What the display helper of [cfi_validator_test.py] does on an accepted
    string. *)
Lemma enhanced_display_status (U : unicode_db) (s msg : pystr)
    (info : Enhanced.positions_info_t) :
  Enhanced.validate U (PyStr s) = Ok (true, msg, info) ->
  exists c,
    char_at s 1 = Some c
    /\ snd (Enhanced.display_cfi_details U s)
       = if dict_mem pystr_eqb c GROUPS then Ok tt else Raise KeyError.
Proof.
  intros H.
  destruct (validate_spec U (PyStr s)) as (r & Henh & Hb & Hstate & _).
  rewrite H in Henh. injection Henh as <-.
  unfold compact in Hb. simpl in Hb, Hstate.
  assert (Hacc : exists m, Basic.validate U (PyStr s) = Ok (true, m)) by eauto.
  apply basic_validate_accepts in Hacc as (Hlen & _).
  destruct (str_index_ok s 0) as [c0 E0]; [lia|].
  exists [c0]. split; [apply char_at_index; exact E0|].
  assert (Hentry : forall pos, (1 <= pos <= 6)%Z ->
            exists r, dict_getitem Z.eqb info pos = Ok r).
  { intros pos Hpos. destruct (Hstate pos Hpos) as (r & Hr & _).
    exists r. unfold dict_getitem. unfold entry in Hr. now rewrite Hr. }
  unfold Enhanced.display_cfi_details. rewrite H. out_simpl. cbn [negb].
  out_simpl.
  match goal with |- snd (for_each _ ?b) = _ => set (body := b) end.
  assert (H1 : snd (body 1%Z) = Ok tt).
  { unfold body. destruct (Hentry 1%Z ltac:(lia)) as (r & ->).
    out_simpl. cbn [Z.eqb Pos.eqb]. out_simpl. apply for_each_print. }
  assert (H36 : forall pos, (3 <= pos <= 6)%Z -> snd (body pos) = Ok tt).
  { intros pos Hpos. unfold body.
    destruct (Hentry pos ltac:(lia)) as (r & ->). out_simpl.
    replace (pos =? 1)%Z with false by (symmetry; apply Z.eqb_neq; lia).
    replace (pos =? 2)%Z with false by (symmetry; apply Z.eqb_neq; lia).
    unfold dict_mem, dict_getitem.
    destruct (dict_lookup pystr_eqb (str_slice s 0 2) ATTRIBUTES) as [rules|];
      out_simpl; [|reflexivity].
    destruct (dict_lookup Z.eqb pos rules) as [options|]; out_simpl;
      [apply for_each_print | reflexivity]. }
  assert (H2 : snd (body 2%Z)
               = if dict_mem pystr_eqb [c0] GROUPS then Ok tt else Raise KeyError).
  { unfold body. destruct (Hentry 2%Z ltac:(lia)) as (r & ->).
    out_simpl. cbn [Z.eqb Pos.eqb]. out_simpl. rewrite E0. out_simpl.
    unfold dict_mem, dict_getitem.
    destruct (dict_lookup pystr_eqb [c0] GROUPS) as [groups|]; out_simpl;
      [apply for_each_print | reflexivity]. }
  clearbody body.
  destruct (dict_mem pystr_eqb [c0] GROUPS).
  - apply for_each_ok. intros pos Hin.
    assert (Hp : (pos = 1 \/ pos = 2 \/ 3 <= pos <= 6)%Z)
      by (change (range 1 7) with [1; 2; 3; 4; 5; 6]%Z in Hin; simpl in Hin; lia).
    destruct Hp as [-> | [-> | Hp]]; auto.
  - change (range 1 7) with ([1]%Z ++ 2%Z :: [3; 4; 5; 6]%Z).
    apply for_each_raise; [|assumption].
    intros y [<-|[]]. assumption.
Qed.


(** ** What the records say *)

Lemma assign_inv (info info' : Enhanced.positions_info_t) (i : Z)
    (f : Enhanced.pos_record -> Enhanced.pos_record) :
  Enhanced.assign info i f = Ok info' -> info' = modify info i f.
Proof.
  unfold Enhanced.assign, dict_getitem, modify, entry.
  destruct (dict_lookup Z.eqb i info); cbn [bind]; [now intros [= <-] | discriminate].
Qed.

Lemma char_at_succ (code c : pystr) (p : Z) :
  str_index code p = Ok c -> char_at code (p + 1) = Some c.
Proof.
  intros H. apply char_at_index. now replace (p + 1 - 1)%Z with p by lia.
Qed.

Lemma described_modify (code : pystr) (info : Enhanced.positions_info_t)
    (i : Z) (f : Enhanced.pos_record -> Enhanced.pos_record) :
  (forall r,
     (forall v, Enhanced.value (f r) = Some v ->
        Enhanced.value r = Some v \/ char_at code i = Some v)
     /\ (forall m, Enhanced.meaning (f r) = Some m ->
           Enhanced.meaning r = Some m
           \/ exists v, char_at code i = Some v /\ meaning_ok code i v m)) ->
  described code info -> described code (modify info i f).
Proof.
  intros Hf Hd j r. rewrite entry_modify.
  destruct (Z.eqb_spec j i) as [->|Hne]; [|apply Hd].
  destruct (entry info i) as [r0|] eqn:E; simpl; [|discriminate].
  intros [= <-]. destruct (Hd i r0 E) as [Hv Hm], (Hf r0) as [Hfv Hfm].
  split.
  - intros v H. destruct (Hfv v H); auto.
  - intros m H. destruct (Hfm m H); auto.
Qed.

Lemma described_set_value code info i v :
  char_at code i = Some v ->
  described code info -> described code (modify info i (Enhanced.set_value v)).
Proof.
  intros Hc. apply described_modify. intros r. split.
  - simpl. intros v' [= <-]. now right.
  - simpl. intros m H. now left.
Qed.

Lemma described_set_meaning code info i v m :
  char_at code i = Some v -> meaning_ok code i v m ->
  described code info -> described code (modify info i (Enhanced.set_meaning m)).
Proof.
  intros Hc Hm. apply described_modify. intros r. split.
  - simpl. intros v' H. now left.
  - simpl. intros m' [= <-]. right. now exists v.
Qed.

Lemma described_set_valid code info i b :
  described code info -> described code (modify info i (Enhanced.set_valid b)).
Proof. apply described_modify. intros r. split; simpl; intros ? H; now left. Qed.

Lemma described_set_error code info i e :
  described code info -> described code (modify info i (Enhanced.set_error e)).
Proof. apply described_modify. intros r. split; simpl; intros ? H; now left. Qed.

Lemma fail_at_described code info i msg r :
  Enhanced.fail_at info i msg = Ok r ->
  described code info -> described code (snd r).
Proof.
  unfold Enhanced.fail_at. intros H Hd.
  destruct (Enhanced.assign info i _) as [i1|] eqn:E1; cbn [bind] in H;
    [|discriminate].
  destruct (Enhanced.assign i1 i _) as [i2|] eqn:E2; cbn [bind] in H;
    [|discriminate].
  destruct (Enhanced.read_error i2 i); cbn [bind] in H; [|discriminate].
  injection H as <-. simpl.
  apply assign_inv in E1, E2. subst.
  now apply described_set_error, described_set_valid.
Qed.

(** The default option set of a pair without rules. *)
Lemma position_options_default (c0 c1 : N) (k : Z) :
  dict_lookup pystr_eqb [c0; c1] ATTRIBUTES = None ->
  (3 <= k <= 6)%Z ->
  Enhanced.get_position_options (Some [c0]) (Some [c1]) k
  = Ok [ "X" =: "Not applicable/Not specified" ].
Proof.
  intros Hcg Hk. unfold Enhanced.get_position_options.
  replace (k =? 1)%Z with false by (symmetry; apply Z.eqb_neq; lia).
  replace (k =? 2)%Z with false by (symmetry; apply Z.eqb_neq; lia).
  assert (Hin : existsb (Z.eqb k) [3; 4; 5; 6]%Z = true).
  { apply existsb_exists. exists k. split; [simpl; lia | apply Z.eqb_refl]. }
  rewrite Hin. cbn [andb Enhanced.opt_truthy List.length Nat.eqb negb app].
  unfold dict_mem. now rewrite Hcg.
Qed.

Lemma init_positions_info_blank (info0 : Enhanced.positions_info_t) (code : pystr) :
  Enhanced.init_positions_info (range 1 7) [] = Ok info0 -> described code info0.
Proof.
  intros H. vm_compute in H. injection H as <-.
  intros j r. unfold entry. cbn [dict_lookup].
  repeat (destruct (Z.eqb j _);
          [intros [= <-]; split; simpl; intros ? ?; discriminate|]).
  discriminate.
Qed.

Section Described.
Variable U : unicode_db.
Variable code : pystr.
Variables c0 c1 : N.
Hypothesis Hcat : char_at code 1 = Some [c0].
Hypothesis Hgrp : char_at code 2 = Some [c1].

Lemma attribute_loop_described (rules : dict Z (dict pystr pystr))
    (positions : list Z) :
  dict_lookup pystr_eqb [c0; c1] ATTRIBUTES = Some rules ->
  Forall (fun p => 2 <= p <= 5)%Z positions ->
  forall info looped,
    described code info ->
    Enhanced.attribute_loop U code [c0; c1] positions info = Ok looped ->
    described code (loop_info looped).
Proof.
  intros Hcg Hpos. induction Hpos as [|p rest Hp Hrest IH]; intros info looped Hd.
  - simpl. now intros [= <-].
  - cbn [Enhanced.attribute_loop].
    destruct (str_index code p) as [char|] eqn:Echar; cbn [bind]; [|discriminate].
    apply char_at_succ in Echar.
    destruct (Enhanced.assign info (p + 1) _) as [i1|] eqn:E1; cbn [bind];
      [|discriminate].
    apply assign_inv in E1.
    assert (Hd1 : described code i1)
      by (subst i1; now apply described_set_value).
    destruct (position_options_of_rules c0 c1 rules (p + 1) Hcg ltac:(lia))
      as (options & Hopt & Hgpo).
    unfold dict_getitem, dict_mem. rewrite Hcg. cbn [bind]. rewrite Hopt.
    cbn [bind].
    destruct (keys_mem char (dict_keys options)).
    + destruct (dict_lookup pystr_eqb char options) as [m|] eqn:Em;
        cbn [bind]; [|discriminate].
      destruct (Enhanced.assign i1 (p + 1) _) as [i2|] eqn:E2; cbn [bind];
        [|discriminate].
      destruct (Enhanced.assign i2 (p + 1) _) as [i3|] eqn:E3; cbn [bind];
        [|discriminate].
      apply assign_inv in E2, E3. apply IH. subst i3 i2.
      apply described_set_valid.
      apply (described_set_meaning _ _ _ char); trivial.
      exists [c0], [c1], options. auto.
    + destruct (Enhanced.fail_at i1 (p + 1) _) as [r|] eqn:Ef; cbn [bind];
        [|discriminate].
      intros [= <-]. simpl. exact (fail_at_described _ _ _ _ _ Ef Hd1).
Qed.

Lemma fallback_loop_described (indices : list Z) :
  dict_lookup pystr_eqb [c0; c1] ATTRIBUTES = None ->
  Forall (fun p => 2 <= p <= 5)%Z indices ->
  forall info looped,
    described code info ->
    Enhanced.fallback_loop U code indices info = Ok looped ->
    described code (loop_info looped).
Proof.
  intros Hcg Hpos. induction Hpos as [|p rest Hp Hrest IH]; intros info looped Hd.
  - simpl. now intros [= <-].
  - cbn [Enhanced.fallback_loop].
    destruct (str_index code p) as [char|] eqn:Echar; cbn [bind]; [|discriminate].
    apply char_at_succ in Echar.
    destruct (Enhanced.assign info (p + 1) _) as [i1|] eqn:E1; cbn [bind];
      [|discriminate].
    apply assign_inv in E1.
    assert (Hd1 : described code i1)
      by (subst i1; now apply described_set_value).
    pose proof (position_options_default c0 c1 (p + 1) Hcg ltac:(lia)) as Hgpo.
    destruct (str_isalpha U char).
    + set (m := if pystr_eqb char X then not_applicable
                else Enhanced.custom_attribute).
      replace (if pystr_eqb char X
               then Enhanced.assign i1 (p + 1) (Enhanced.set_meaning not_applicable)
               else Enhanced.assign i1 (p + 1)
                      (Enhanced.set_meaning Enhanced.custom_attribute))
        with (Enhanced.assign i1 (p + 1) (Enhanced.set_meaning m))
        by (unfold m; now destruct (pystr_eqb char X)).
      destruct (Enhanced.assign i1 (p + 1) _) as [i2|] eqn:E2; cbn [bind];
        [|discriminate].
      destruct (Enhanced.assign i2 (p + 1) _) as [i3|] eqn:E3; cbn [bind];
        [|discriminate].
      apply assign_inv in E2, E3. apply IH. subst i3 i2.
      apply described_set_valid.
      apply (described_set_meaning _ _ _ char); trivial.
      exists [c0], [c1], [ "X" =: "Not applicable/Not specified" ].
      repeat (split; [assumption|]).
      unfold m.
      change [ "X" =: "Not applicable/Not specified" ] with [(X, not_applicable)].
      cbn [dict_lookup].
      destruct (pystr_eqb char X); [now left | now right].
    + destruct (Enhanced.fail_at i1 (p + 1) _) as [r|] eqn:Ef; cbn [bind];
        [|discriminate].
      intros [= <-]. simpl. exact (fail_at_described _ _ _ _ _ Ef Hd1).
Qed.
End Described.

(** The records returned by the enhanced validator describe the upper-cased
    code. *)
Lemma enhanced_validate_described (U : unicode_db) (s : pystr) (b : bool)
    (msg : pystr) (info : Enhanced.positions_info_t) :
  Enhanced.validate U (PyStr s) = Ok (b, msg, info) ->
  described (str_upper U s) info.
Proof.
  unfold Enhanced.validate.
  destruct (Enhanced.init_positions_info (range 1 7) []) as [info0|] eqn:Hinit;
    cbn [bind]; [|discriminate].
  pose proof (init_positions_info_blank info0 (str_upper U s) Hinit) as Hd0.
  cbn [truthy isinstance_str py_len as_str bind negb orb].
  destruct (Nat.eqb (List.length s) 0); cbn [negb orb]; [now intros [= <- <- <-]|].
  destruct (Z.eqb_spec (Z.of_nat (List.length s)) 6) as [Hlen|Hlen]; cbn [negb];
    [|now intros [= <- <- <-]].
  destruct (str_isalpha U s); cbn [negb]; [|now intros [= <- <- <-]].
  pose proof (str_upper_length U s) as Hup.
  set (code := str_upper U s) in *.
  destruct (str_index_ok code 0) as [c0 E0]; [lia|].
  destruct (str_index_ok code 1) as [c1 E1]; [lia|].
  assert (Hcat : char_at code 1 = Some [c0]) by (now apply char_at_index).
  assert (Hgrp : char_at code 2 = Some [c1]) by (now apply char_at_index).
  rewrite E0. cbn [bind].
  destruct (Enhanced.assign info0 1 _) as [i1|] eqn:A1; cbn [bind]; [|discriminate].
  apply assign_inv in A1.
  assert (Hd1 : described code i1) by (subst i1; now apply described_set_value).
  destruct (dict_mem pystr_eqb [c0] CATEGORIES) eqn:Ecat.
  2:{ intros H. exact (fail_at_described _ _ _ _ _ H Hd1). }
  unfold dict_getitem at 1.
  destruct (dict_lookup pystr_eqb [c0] CATEGORIES) as [desc|] eqn:Hdesc;
    cbn [bind]; [|discriminate].
  destruct (Enhanced.assign i1 1 _) as [i2|] eqn:A2; cbn [bind]; [|discriminate].
  destruct (Enhanced.assign i2 1 _) as [i3|] eqn:A3; cbn [bind]; [|discriminate].
  apply assign_inv in A2, A3.
  assert (Hd3 : described code i3).
  { subst i3 i2. apply described_set_valid.
    apply (described_set_meaning _ _ _ [c0]); trivial.
    exists [c0], [c1], CATEGORIES. auto. }
  rewrite E1. cbn [bind].
  destruct (Enhanced.assign i3 2 _) as [i4|] eqn:A4; cbn [bind]; [|discriminate].
  apply assign_inv in A4.
  assert (Hd4 : described code i4) by (subst i4; now apply described_set_value).
  destruct (dict_mem pystr_eqb [c1] (dict_get pystr_eqb GROUPS [c0] [])) eqn:Egrp.
  2:{ destruct (dict_getitem pystr_eqb GROUPS [c0]); cbn [bind]; [|discriminate].
      intros H. exact (fail_at_described _ _ _ _ _ H Hd4). }
  unfold dict_get in Egrp. unfold dict_getitem at 1.
  destruct (dict_lookup pystr_eqb [c0] GROUPS) as [groups|] eqn:Hgroups;
    cbn [bind]; [|discriminate].
  unfold dict_getitem at 1.
  destruct (dict_lookup pystr_eqb [c1] groups) as [gdesc|] eqn:Hgdesc;
    cbn [bind]; [|discriminate].
  destruct (Enhanced.assign i4 2 _) as [i5|] eqn:A5; cbn [bind]; [|discriminate].
  destruct (Enhanced.assign i5 2 _) as [i6|] eqn:A6; cbn [bind]; [|discriminate].
  apply assign_inv in A5, A6.
  assert (Hd6 : described code i6).
  { subst i6 i5. apply described_set_valid.
    apply (described_set_meaning _ _ _ [c1]); trivial.
    exists [c0], [c1], groups. repeat (split; [assumption|]). split; [|now left].
    unfold Enhanced.get_position_options. cbn [Z.eqb Pos.eqb andb].
    cbn [Enhanced.opt_mem]. rewrite Ecat. unfold dict_get. now rewrite Hgroups. }
  change ([c0] ++ [c1]) with [c0; c1].
  assert (Hrange : Forall (fun p => 2 <= p <= 5)%Z (range 2 6))
    by (rewrite range_2_6; repeat constructor; lia).
  unfold dict_mem at 1.
  destruct (dict_lookup pystr_eqb [c0; c1] ATTRIBUTES) as [rules|] eqn:Hrules.
  - destruct (Enhanced.attribute_loop U code [c0; c1] (range 2 6) i6)
      as [looped|] eqn:Eloop; cbn [bind]; [|discriminate].
    pose proof (attribute_loop_described U code c0 c1 Hcat Hgrp rules _ Hrules
                  Hrange i6 looped Hd6 Eloop) as Hdl.
    destruct looped as [r|info']; [intros [= ->]; exact Hdl|].
    destruct (dict_getitem pystr_eqb CATEGORIES [c0]); cbn [bind]; [|discriminate].
    destruct (dict_getitem pystr_eqb GROUPS [c0]); cbn [bind]; [|discriminate].
    destruct (dict_getitem pystr_eqb _ [c1]); cbn [bind]; [|discriminate].
    now intros [= <- <- <-].
  - destruct (Enhanced.fallback_loop U code (range 2 6) i6)
      as [looped|] eqn:Eloop; cbn [bind]; [|discriminate].
    pose proof (fallback_loop_described U code c0 c1 Hcat Hgrp _ Hrules
                  Hrange i6 looped Hd6 Eloop) as Hdl.
    destruct looped as [r|info']; [intros [= ->]; exact Hdl|].
    destruct (dict_getitem pystr_eqb CATEGORIES [c0]); cbn [bind]; [|discriminate].
    destruct (dict_getitem pystr_eqb GROUPS [c0]); cbn [bind]; [|discriminate].
    destruct (dict_getitem pystr_eqb _ [c1]); cbn [bind]; [|discriminate].
    now intros [= <- <- <-].
Qed.

(** ** The display helper of [cfi_validator.py] *)

(** How the display helper of [cfi_validator.py] ends. *)
Lemma basic_display_status (U : unicode_db) (s : pystr) :
  if (6 <=? Z.of_nat (List.length (str_upper U s)))%Z
  then snd (Basic.display_cfi_details U s) = Ok tt
       /\ List.length (fst (Basic.display_cfi_details U s)) = 8%nat
  else snd (Basic.display_cfi_details U s) = Raise IndexError
       /\ (List.length (fst (Basic.display_cfi_details U s)) < 8)%nat.
Proof.
  unfold Basic.display_cfi_details.
  generalize (str_upper U s). intros code.
  (* one loop, whichever branch provides its body *)
  assert (Hloop : forall (c : bool) (l : list Z) (b1 b2 : Z -> out unit),
             (if c then for_each l b1 else for_each l b2)
             = for_each l (if c then b1 else b2))
    by (intros [] ? ? ?; reflexivity).
  assert (Hbody : forall (category_group : pystr) (pos : Z),
    let body :=
      if dict_mem pystr_eqb category_group ATTRIBUTES
      then (fun pos =>
        char <~ lift (str_index code pos) ;;
        let pos_index := (pos + 1)%Z in
        rules <~ lift (dict_getitem pystr_eqb ATTRIBUTES category_group) ;;
        if dict_mem Z.eqb pos_index rules then
          options <~ lift (dict_getitem Z.eqb rules pos_index) ;;
          if dict_mem pystr_eqb char options then
            attr_desc <~ lift (dict_getitem pystr_eqb options char) ;;
            print (lit "Attribute " ++ str_of_int pos_index ++ lit ": " ++ char
                     ++ lit " - " ++ attr_desc)
          else print (Basic.attribute_line_plain pos_index char)
        else print (Basic.attribute_line_plain pos_index char))
      else (fun pos =>
        char <~ lift (str_index code pos) ;;
        let pos_index := (pos + 1)%Z in
        print (Basic.attribute_line_plain pos_index char)) in
    match str_index code pos with
    | Ok _ => snd (body pos) = Ok tt /\ List.length (fst (body pos)) = 1%nat
    | Raise e => snd (body pos) = Raise e /\ fst (body pos) = []
    end).
  { intros cg pos body. unfold body.
    destruct (dict_mem pystr_eqb cg ATTRIBUTES) eqn:Hdef;
      destruct (str_index code pos) as [char|e] eqn:E; out_simpl; rewrite ?E;
      try (split; reflexivity).
    apply (dict_mem_lookup pystr_eqb) in Hdef as [rules Hrules].
    unfold dict_getitem, dict_mem. rewrite Hrules. out_simpl.
    destruct (dict_lookup Z.eqb (pos + 1)%Z rules) as [options|]; out_simpl;
      [destruct (dict_lookup pystr_eqb char options); out_simpl|];
      split; reflexivity. }
  pose proof (str_index_bounds code) as Hb.
  destruct (Z.leb_spec 6 (Z.of_nat (List.length code))) as [Hlong|Hshort].
  - destruct (str_index_ok code 0) as [c0 E0]; [lia|].
    destruct (str_index_ok code 1) as [c1 E1]; [lia|].
    out_simpl. rewrite E0. out_simpl. rewrite E1. out_simpl.
    rewrite Hloop.
    specialize (Hbody [c0; c1]). cbv zeta in Hbody.
    set (body := if dict_mem pystr_eqb [c0; c1] ATTRIBUTES then _ else _) in *.
    assert (Hok : forall pos, In pos (range 2 6) ->
              snd (body pos) = Ok tt /\ List.length (fst (body pos)) = 1%nat).
    { intros pos Hin. rewrite range_2_6 in Hin.
      destruct (str_index_ok code pos) as [c Hc]; [simpl in Hin; lia|].
      specialize (Hbody pos). now rewrite Hc in Hbody. }
    destruct (for_each_ok (range 2 6) body) as [Hs Hf];
      [intros pos Hin; apply Hok, Hin|].
    rewrite Hs, Hf. split; [reflexivity|].
    rewrite range_2_6. cbn [flat_map]. rewrite !length_app.
    rewrite (proj2 (Hok 2%Z ltac:(rewrite range_2_6; simpl; tauto))).
    rewrite (proj2 (Hok 3%Z ltac:(rewrite range_2_6; simpl; tauto))).
    rewrite (proj2 (Hok 4%Z ltac:(rewrite range_2_6; simpl; tauto))).
    rewrite (proj2 (Hok 5%Z ltac:(rewrite range_2_6; simpl; tauto))).
    reflexivity.
  - destruct code as [|c0 [|c1 rest]].
    + out_simpl. split; [reflexivity | cbn; lia].
    + out_simpl.
      assert (E0 : str_index [c0] 0 = Ok [c0]) by reflexivity.
      assert (E1 : str_index [c0] 1 = Raise IndexError) by reflexivity.
      rewrite E0. out_simpl. rewrite E1. split; [reflexivity | cbn; lia].
    + assert (E0 : str_index (c0 :: c1 :: rest) 0 = Ok [c0]).
      { destruct (str_index_ok (c0 :: c1 :: rest) 0) as [c E];
          [cbn [List.length]; lia|].
        pose proof (str_index_nth _ 0 _ (Z.le_refl 0) E) as Hn. simpl in Hn.
        congruence. }
      assert (E1 : str_index (c0 :: c1 :: rest) 1 = Ok [c1]).
      { destruct (str_index_ok (c0 :: c1 :: rest) 1) as [c E];
          [cbn [List.length]; lia|].
        pose proof (str_index_nth _ 1 _ ltac:(lia) E) as Hn. simpl in Hn.
        congruence. }
      out_simpl. rewrite E0. out_simpl. rewrite E1. out_simpl.
      rewrite Hloop.
      specialize (Hbody [c0; c1]). cbv zeta in Hbody.
      set (body := if dict_mem pystr_eqb [c0; c1] ATTRIBUTES then _ else _) in *.
      set (code := c0 :: c1 :: rest) in *.
      (* the first position beyond the end of the code stops the loop *)
      assert (Hsplit : exists before x after,
                range 2 6 = before ++ x :: after
                /\ (forall y, In y before -> (2 <= y < Z.of_nat (List.length code))%Z)
                /\ x = Z.of_nat (List.length code)
                /\ (List.length before < 4)%nat).
      { rewrite range_2_6.
        assert (Hn : (Z.of_nat (List.length code) = 2 \/ Z.of_nat (List.length code) = 3
                      \/ Z.of_nat (List.length code) = 4
                      \/ Z.of_nat (List.length code) = 5)%Z)
          by (unfold code in *; simpl List.length in *; lia).
        destruct Hn as [Hn | [Hn | [Hn | Hn]]]; rewrite Hn.
        - exists [], 2%Z, [3; 4; 5]%Z.
          simpl; repeat split; try lia; intros y Hy; simpl in Hy; lia.
        - exists [2]%Z, 3%Z, [4; 5]%Z.
          simpl; repeat split; try lia; intros y Hy; simpl in Hy; lia.
        - exists [2; 3]%Z, 4%Z, [5]%Z.
          simpl; repeat split; try lia; intros y Hy; simpl in Hy; lia.
        - exists [2; 3; 4]%Z, 5%Z, [].
          simpl; repeat split; try lia; intros y Hy; simpl in Hy; lia. }
      destruct Hsplit as (before & x & after & -> & Hbefore & -> & Hshortb).
      assert (Hx : snd (body (Z.of_nat (List.length code))) = Raise IndexError
                   /\ fst (body (Z.of_nat (List.length code))) = []).
      { specialize (Hbody (Z.of_nat (List.length code))).
        specialize (Hb (Z.of_nat (List.length code)) ltac:(lia)).
        rewrite Z.ltb_irrefl in Hb. now rewrite Hb in Hbody. }
      assert (Hok : forall y, In y before ->
                snd (body y) = Ok tt /\ List.length (fst (body y)) = 1%nat).
      { intros y Hy. specialize (Hbefore y Hy).
        destruct (str_index_ok code y) as [c Hc]; [lia|].
        specialize (Hbody y). now rewrite Hc in Hbody. }
      destruct (for_each_raise before (Z.of_nat (List.length code)) after body
                  IndexError) as [Hs Hf];
        [intros y Hy; apply Hok, Hy | apply Hx|].
      rewrite Hs, Hf, (proj2 Hx), app_nil_r. split; [reflexivity|].
      assert (Hlen : List.length (flat_map (fun y => fst (body y)) before)
                     = List.length before).
      { clear - Hok. induction before as [|y rest' IH]; [reflexivity|].
        cbn [flat_map]. rewrite length_app.
        rewrite (proj2 (Hok y (or_introl eq_refl))), IH; [reflexivity|].
        intros z Hz. apply Hok. now right. }
      rewrite Hlen. lia.
Qed.

(** How choice ['1'] of [main] ends. *)
Lemma main_validate_choice_status (U : unicode_db) (s : pystr) :
  exists b msg,
    Basic.validate U (PyStr s) = Ok (b, msg)
    /\ snd (Basic.main_validate_choice U s) = Ok tt
    /\ List.length (fst (Basic.main_validate_choice U s))
       = if b then 9%nat else 1%nat.
Proof.
  destruct (validate_spec U (PyStr s)) as ([[b msg] info] & _ & Hb & _).
  unfold compact in Hb. simpl in Hb.
  exists b, msg. split; [assumption|].
  unfold Basic.main_validate_choice. rewrite Hb. out_simpl.
  destruct b; out_simpl; [|split; reflexivity].
  assert (Hacc : exists m, Basic.validate U (PyStr s) = Ok (true, m)) by eauto.
  apply basic_validate_accepts in Hacc as (Hlen & _).
  pose proof (basic_display_status U s) as Hd.
  pose proof (str_upper_length U s) as Hup.
  destruct (Z.leb_spec 6 (Z.of_nat (List.length (str_upper U s)))); [|lia].
  destruct Hd as [Hs Hl]. now rewrite Hs, Hl.
Qed.

(** ** Dialogues *)

Lemma snd_io_bind {A B : Type} (m : io A) (k : A -> io B) (inputs : list pystr) :
  snd (io_bind m k inputs)
  = match snd (m inputs) with
    | (rest, Returned a) => snd (k a rest)
    | (rest, EOFError) => (rest, EOFError)
    | (rest, Failed e) => (rest, Failed e)
    end.
Proof.
  unfold io_bind. destruct (m inputs) as [events [rest [a| |e]]]; simpl; trivial.
  now destruct (k a rest).
Qed.

Lemma consumes_ret {A : Type} (a : A) (P : A -> Prop) :
  P a -> consumes 0 (io_ret a) P.
Proof. intros H inputs. simpl. auto. Qed.

Lemma consumes_bind {A B : Type} (n n' : nat) (m : io A) (k : A -> io B)
    (P : A -> Prop) (Q : B -> Prop) :
  consumes n m P -> (forall a, P a -> consumes n' (k a) Q) ->
  consumes (n + n') (io_bind m k) Q.
Proof.
  intros Hm Hk inputs. rewrite snd_io_bind. specialize (Hm inputs).
  destruct (snd (m inputs)) as [rest [a| |e]]; trivial.
  destruct Hm as [Hlen Ha]. specialize (Hk a Ha rest).
  destruct (snd (k a rest)) as [rest' [b| |e]]; trivial.
  destruct Hk as [Hlen' Hb]. split; [lia | assumption].
Qed.

Lemma consumes_weaken {A : Type} (n n' : nat) (m : io A) (P Q : A -> Prop) :
  consumes n m P -> (n' <= n)%nat -> (forall a, P a -> Q a) -> consumes n' m Q.
Proof.
  intros Hm Hn HPQ inputs. specialize (Hm inputs).
  destruct (snd (m inputs)) as [rest [a| |e]]; trivial.
  destruct Hm. split; [lia | auto].
Qed.

Lemma consumes_out {A : Type} (o : out A) (a : A) (P : A -> Prop) :
  snd o = Ok a -> P a -> consumes 0 (io_out o) P.
Proof. intros Ho Ha inputs. unfold io_out. simpl. rewrite Ho. auto. Qed.

Lemma consumes_print (line : pystr) (P : unit -> Prop) :
  P tt -> consumes 0 (io_print line) P.
Proof. intros H. now apply (consumes_out _ tt). Qed.

Lemma consumes_lift {A : Type} (a : A) (P : A -> Prop) :
  P a -> consumes 0 (io_lift (Ok a)) P.
Proof. intros H. now apply (consumes_out _ a). Qed.

Lemma consumes_input (prompt : pystr) :
  consumes 1 (io_input prompt) (fun _ => True).
Proof. intros [|line rest]; simpl; auto. Qed.

(** A question asked until answered well: when its body never raises, the
    loop ends by a [break] of the body or by the end of the input. *)
Lemma consumes_ask_until {A : Type} (prompt : pystr)
    (body : pystr -> out (option A)) (P : A -> Prop) :
  (forall line, match snd (body line) with
                | Ok (Some a) => P a
                | Ok None => True
                | Raise _ => False
                end) ->
  consumes 1 (ask_until prompt body) P.
Proof.
  intros Hbody inputs. induction inputs as [|line rest IH]; [exact I|].
  cbn [ask_until]. specialize (Hbody line).
  destruct (body line) as [printed [[a|]|e]]; simpl in Hbody |- *.
  - split; [lia | assumption].
  - destruct (ask_until prompt body rest) as [more [rest' [a| |e]]];
      simpl in IH |- *; trivial.
    destruct IH. split; [lia | assumption].
  - contradiction.
Qed.

Lemma consumes_bind0 {A B : Type} (n : nat) (m : io A) (k : A -> io B)
    (P : A -> Prop) (Q : B -> Prop) :
  consumes 0 m P -> (forall a, P a -> consumes n (k a) Q) ->
  consumes n (io_bind m k) Q.
Proof. exact (consumes_bind 0 n m k P Q). Qed.

Lemma consumes_bind_last {A B : Type} (n : nat) (m : io A) (k : A -> io B)
    (P : A -> Prop) (Q : B -> Prop) :
  consumes n m P -> (forall a, P a -> consumes 0 (k a) Q) ->
  consumes n (io_bind m k) Q.
Proof.
  intros Hm Hk. replace n with (n + 0)%nat by lia.
  exact (consumes_bind n 0 m k P Q Hm Hk).
Qed.

Lemma consumes_after_print {B : Type} (n : nat) (line : pystr) (m : io B)
    (Q : B -> Prop) :
  consumes n m Q -> consumes n (io_print line >>> m) Q.
Proof.
  intros Hm. apply (consumes_bind0 n _ _ (fun _ => True)); [|intros _ _; exact Hm].
  now apply consumes_print.
Qed.

Lemma consumes_after_listing {A B : Type} (n : nat) (xs : list A)
    (f : A -> pystr) (m : io B) (Q : B -> Prop) :
  consumes n m Q ->
  consumes n (io_out (for_each xs (fun x => print (f x))) >>> m) Q.
Proof.
  intros Hm. apply (consumes_bind0 n _ _ (fun _ => True)); [|intros _ _; exact Hm].
  apply (consumes_out _ tt); [apply for_each_print | exact I].
Qed.

Section BasicDialogues.
Variable U : unicode_db.

Lemma ask_category_consumes :
  consumes 1 (Basic.ask_category U)
    (fun category => dict_mem pystr_eqb category CATEGORIES = true).
Proof.
  apply consumes_ask_until. intros line. cbv zeta.
  destruct (dict_mem pystr_eqb (str_upper U line) CATEGORIES) eqn:Hmem.
  - pose proof Hmem as Hd. apply (dict_mem_lookup pystr_eqb) in Hd as [desc Hd].
    unfold dict_getitem. rewrite Hd. out_simpl. assumption.
  - out_simpl. exact I.
Qed.

Lemma ask_group_consumes (category : pystr) :
  dict_mem pystr_eqb category CATEGORIES = true ->
  consumes 1 (Basic.ask_group U category)
    (fun group =>
       dict_mem pystr_eqb group (dict_get pystr_eqb GROUPS category []) = true).
Proof.
  intros Hcat. destruct (categories_have_groups _ Hcat) as (_ & groups & _ & Hg).
  apply consumes_ask_until. intros line. cbv zeta.
  unfold dict_getitem at 1. unfold dict_get. rewrite Hg. out_simpl.
  destruct (dict_mem pystr_eqb (str_upper U line) groups) eqn:Hmem.
  - pose proof Hmem as Hd. apply (dict_mem_lookup pystr_eqb) in Hd as [desc Hd].
    unfold dict_getitem. rewrite Hd. out_simpl. assumption.
  - out_simpl. exact I.
Qed.

Lemma ask_attribute_consumes (category_group : pystr) (position : Z)
    (rules : dict Z (dict pystr pystr)) (options : dict pystr pystr) :
  dict_lookup pystr_eqb category_group ATTRIBUTES = Some rules ->
  dict_lookup Z.eqb position rules = Some options ->
  consumes 1 (Basic.ask_attribute U category_group position)
    (fun attr => dict_mem pystr_eqb attr options = true).
Proof.
  intros Hcg Hopt.
  apply consumes_ask_until. intros line. cbv zeta.
  unfold dict_getitem at 1 2. rewrite Hcg. out_simpl. rewrite Hopt. out_simpl.
  destruct (dict_mem pystr_eqb (str_upper U line) options) eqn:Hmem; cbn [orb].
  - pose proof Hmem as Hd. apply (dict_mem_lookup pystr_eqb) in Hd as [desc Hd].
    unfold dict_getitem. rewrite Hd. out_simpl. assumption.
  - destruct (pystr_eqb (str_upper U line) X) eqn:HX; out_simpl; [|exact I].
    apply pystr_eqb_eq in HX. rewrite HX.
    exact (attribute_options_list_X _ _ _ _ Hcg Hopt).
Qed.

Lemma select_attribute_consumes (category group : pystr) (position : Z) :
  consumes 1 (Basic.select_attribute U category group position)
    (chosen_ok category group position).
Proof.
  unfold Basic.select_attribute. cbv zeta.
  apply consumes_after_print.
  unfold Basic.format_attribute_options, dict_mem, dict_getitem.
  destruct (dict_lookup pystr_eqb (category ++ group) ATTRIBUTES)
    as [rules|] eqn:Hcg; cbn [bind].
  - destruct (dict_lookup Z.eqb position rules) as [options|] eqn:Hopt;
      cbn [bind].
    + apply (consumes_bind0 1 _ _ (fun b => b = true));
        [now apply consumes_lift|]. intros ? ->.
      apply (consumes_bind0 1 _ _ (fun _ => True)); [now apply consumes_lift|].
      intros text _. apply consumes_after_print.
      apply (consumes_weaken 1 1 _ _ _
               (ask_attribute_consumes _ _ _ _ Hcg Hopt) (le_n 1)).
      intros attr Hattr rules' options' Hr Ho. congruence.
    + apply (consumes_bind0 1 _ _ (fun b => b = false));
        [now apply consumes_lift|]. intros ? ->.
      do 2 apply consumes_after_print.
      apply (consumes_bind_last 1 _ _ (fun _ => True)); [apply consumes_input|].
      intros line _. apply consumes_ret.
      intros rules' options' Hr Ho. congruence.
  - apply (consumes_bind0 1 _ _ (fun b => b = false));
      [now apply consumes_lift|]. intros ? ->.
    do 2 apply consumes_after_print.
    apply (consumes_bind_last 1 _ _ (fun _ => True)); [apply consumes_input|].
    intros line _. apply consumes_ret.
    intros rules' options' Hr Ho. congruence.
Qed.
End BasicDialogues.

Section BasicGenerator.
Variable U : unicode_db.

Lemma select_attributes_consumes (category group cfi_code : pystr) :
  consumes 4
    (Basic.select_attributes U category group cfi_code (range 3 7))
    (fun code =>
       exists a3 a4 a5 a6,
         code = (((cfi_code ++ a3) ++ a4) ++ a5) ++ a6
         /\ chosen_ok category group 3 a3 /\ chosen_ok category group 4 a4
         /\ chosen_ok category group 5 a5 /\ chosen_ok category group 6 a6).
Proof.
  change (range 3 7) with [3; 4; 5; 6]%Z. cbn [Basic.select_attributes].
  apply (consumes_bind 1 3 _ _ _ _ (select_attribute_consumes U _ _ 3)).
  intros a3 H3.
  apply (consumes_bind 1 2 _ _ _ _ (select_attribute_consumes U _ _ 4)).
  intros a4 H4.
  apply (consumes_bind 1 1 _ _ _ _ (select_attribute_consumes U _ _ 5)).
  intros a5 H5.
  apply (consumes_bind_last 1 _ _ _ _ (select_attribute_consumes U _ _ 6)).
  intros a6 H6. apply consumes_ret. now exists a3, a4, a5, a6.
Qed.

Lemma assemble_cfi_code_consumes :
  consumes 6 (Basic.assemble_cfi_code U) assembled.
Proof.
  unfold Basic.assemble_cfi_code.
  do 3 apply consumes_after_print. apply consumes_after_listing.
  apply (consumes_bind 1 5 _ _ _ _ (ask_category_consumes U)).
  intros category Hcat. apply consumes_after_print.
  destruct (categories_have_groups _ Hcat) as (_ & groups & _ & Hg).
  unfold dict_getitem. rewrite Hg.
  apply (consumes_bind0 5 _ _ (fun _ => True)); [now apply consumes_lift|].
  intros groups' _. apply consumes_after_listing.
  apply (consumes_bind 1 4 _ _ _ _ (ask_group_consumes U _ Hcat)).
  intros group Hgrp. cbv zeta.
  apply (consumes_weaken 4 4 _ _ _ (select_attributes_consumes _ _ _) (le_n 4)).
  intros code (a3 & a4 & a5 & a6 & -> & H3 & H4 & H5 & H6).
  now exists category, group, a3, a4, a5, a6.
Qed.

Lemma generate_cfi_code_consumes :
  consumes 6 (Basic.generate_cfi_code U) (valid_or_none U).
Proof.
  unfold Basic.generate_cfi_code.
  apply (consumes_bind_last 6 _ _ _ _ assemble_cfi_code_consumes).
  intros code _.
  destruct (validate_spec U (PyStr code)) as ([[b msg] info] & _ & Hb & _).
  unfold compact in Hb. simpl in Hb. rewrite Hb.
  apply (consumes_bind0 0 _ _ (fun r => r = (b, msg))); [now apply consumes_lift|].
  intros r ->. destruct b.
  - apply consumes_after_print, consumes_ret. simpl. eauto.
  - do 2 apply consumes_after_print. now apply consumes_ret.
Qed.

Lemma main_round_consumes : consumes 1 (Basic.main_round U) (fun _ => True).
Proof.
  unfold Basic.main_round. do 4 apply consumes_after_print.
  apply (consumes_bind_last 1 _ _ _ _ (consumes_input _)).
  intros choice _.
  destruct (pystr_eqb choice (lit "1")).
  { apply (consumes_bind0 0 _ _ (fun _ => True)).
    - apply (consumes_weaken 1 0 _ _ _ (consumes_input _)); auto.
    - intros code _.
      destruct (main_validate_choice_status U code) as (b & msg & _ & Hs & _).
      apply (consumes_bind0 0 _ _ (fun _ => True));
        [now apply (consumes_out _ tt)|].
      intros _ _. now apply consumes_ret. }
  destruct (pystr_eqb choice (lit "2")).
  { apply (consumes_bind0 0 _ _ (valid_or_none U)).
    - apply (consumes_weaken 6 0 _ _ _ generate_cfi_code_consumes); auto. lia.
    - intros [code|] Hvalid; [|now apply consumes_ret].
      destruct (Nat.eqb (List.length code) 0); cbn [negb];
        [now apply consumes_ret|].
      apply consumes_after_print.
      apply (consumes_bind0 0 _ _ (fun _ => True)); [|intros _ _; now apply consumes_ret].
      apply (consumes_out _ tt); [|exact I].
      simpl in Hvalid. apply basic_validate_accepts in Hvalid as (Hlen & _).
      pose proof (basic_display_status U code) as Hd.
      pose proof (str_upper_length U code) as Hup.
      destruct (Z.leb_spec 6 (Z.of_nat (List.length (str_upper U code))));
        [apply Hd | lia]. }
  destruct (pystr_eqb choice (lit "3")).
  { apply consumes_after_print. now apply consumes_ret. }
  apply consumes_after_print. now apply consumes_ret.
Qed.

(** With more rounds than lines, the menu loop ends because the user left
    or because the input ended. *)
Lemma main_loop_ends (rounds : nat) :
  forall inputs, (List.length inputs < rounds)%nat ->
    match snd (Basic.main_loop U rounds inputs) with
    | (_, Returned (Some tt)) => True
    | (_, EOFError) => True
    | _ => False
    end.
Proof.
  induction rounds as [|rounds IH]; intros inputs Hlen; [lia|].
  cbn [Basic.main_loop]. rewrite snd_io_bind.
  pose proof (main_round_consumes inputs) as Hround.
  destruct (snd (Basic.main_round U inputs)) as [rest [leave| |e]];
    [|exact I|contradiction].
  destruct Hround as [Hrest _].
  destruct leave; [exact I|]. apply IH. lia.
Qed.
End BasicGenerator.

(** ** The generator and the validator *)

Lemma single_upper_inv (s : pystr) :
  single_upper s = true -> exists k, s = [k] /\ is_ascii_upper k = true.
Proof.
  destruct s as [|k [|k' s]]; simpl; try discriminate. intros H. now exists k.
Qed.

(** The keys of the three tables are single upper-case ASCII letters. *)
Lemma category_keys_single (category : pystr) :
  dict_mem pystr_eqb category CATEGORIES = true -> single_upper category = true.
Proof.
  intros H. apply (dict_mem_lookup pystr_eqb) in H as [desc H].
  assert (Hall : forallb (fun e => single_upper (fst e)) CATEGORIES = true)
    by (vm_compute; reflexivity).
  rewrite forallb_forall in Hall.
  exact (Hall _ (dict_lookup_In _ pystr_eqb_eq _ _ _ H)).
Qed.

Lemma group_keys_single (category group : pystr) (groups : dict pystr pystr) :
  dict_lookup pystr_eqb category GROUPS = Some groups ->
  dict_mem pystr_eqb group groups = true -> single_upper group = true.
Proof.
  intros Hc H. apply (dict_mem_lookup pystr_eqb) in H as [desc H].
  assert (Hall : forallb (fun e => forallb (fun kv => single_upper (fst kv)) (snd e))
                   GROUPS = true) by (vm_compute; reflexivity).
  rewrite forallb_forall in Hall.
  specialize (Hall _ (dict_lookup_In _ pystr_eqb_eq _ _ _ Hc)). simpl in Hall.
  rewrite forallb_forall in Hall.
  exact (Hall _ (dict_lookup_In _ pystr_eqb_eq _ _ _ H)).
Qed.

Lemma option_keys_single (category_group attr : pystr)
    (rules : dict Z (dict pystr pystr)) (p : Z) (options : dict pystr pystr) :
  dict_lookup pystr_eqb category_group ATTRIBUTES = Some rules ->
  dict_lookup Z.eqb p rules = Some options ->
  dict_mem pystr_eqb attr options = true -> single_upper attr = true.
Proof.
  intros Hcg Hp H. apply (dict_mem_lookup pystr_eqb) in H as [desc H].
  assert (Hall : forallb
                   (fun e => forallb
                               (fun po => forallb (fun kv => single_upper (fst kv))
                                            (snd po)) (snd e))
                   ATTRIBUTES = true) by (vm_compute; reflexivity).
  rewrite forallb_forall in Hall.
  specialize (Hall _ (dict_lookup_In _ pystr_eqb_eq _ _ _ Hcg)). simpl in Hall.
  rewrite forallb_forall in Hall.
  specialize (Hall _ (dict_lookup_In _ Z.eqb_eq _ _ _ Hp)). simpl in Hall.
  rewrite forallb_forall in Hall.
  exact (Hall _ (dict_lookup_In _ pystr_eqb_eq _ _ _ H)).
Qed.

Lemma upper_letter_fixed (U : unicode_db) (c : N) :
  is_ascii_upper c = true -> isalpha_cp U c = true /\ upper_cp U c = [c].
Proof.
  intros H. unfold isalpha_cp, upper_cp, is_ascii_letter, ascii_upper. rewrite H.
  unfold is_ascii_upper in H. apply andb_true_iff in H as [H1 H2].
  apply N.leb_le in H1, H2.
  replace (c <? 128)%N with true by (symmetry; apply N.ltb_lt; lia).
  replace (is_ascii_lower c) with false
    by (symmetry; apply in_range_false; lia).
  now split.
Qed.

(** A code assembled for a pair with attribute rules is accepted. *)
Lemma assembled_valid (U : unicode_db) (code : pystr) :
  assembled code ->
  dict_mem pystr_eqb (firstn 2 code) ATTRIBUTES = true ->
  exists msg, Basic.validate U (PyStr code) = Ok (true, msg).
Proof.
  intros (category & group & a3 & a4 & a5 & a6 & -> & Hcat & Hgrp
          & H3 & H4 & H5 & H6) Hdef.
  destruct (categories_have_groups _ Hcat) as (_ & groups & _ & Hg).
  pose proof Hgrp as Hgrp'. unfold dict_get in Hgrp'. rewrite Hg in Hgrp'.
  destruct (single_upper_inv _ (category_keys_single _ Hcat)) as (c0 & -> & U0).
  destruct (single_upper_inv _ (group_keys_single _ _ _ Hg Hgrp')) as (c1 & -> & U1).
  cbn [app firstn] in Hdef.
  pose proof Hdef as Hrules.
  apply (dict_mem_lookup pystr_eqb) in Hrules as [rules Hrules].
  destruct (attribute_rules_complete _ _ 3 Hrules ltac:(lia)) as (o3 & Ho3 & _).
  destruct (attribute_rules_complete _ _ 4 Hrules ltac:(lia)) as (o4 & Ho4 & _).
  destruct (attribute_rules_complete _ _ 5 Hrules ltac:(lia)) as (o5 & Ho5 & _).
  destruct (attribute_rules_complete _ _ 6 Hrules ltac:(lia)) as (o6 & Ho6 & _).
  specialize (H3 _ _ Hrules Ho3). specialize (H4 _ _ Hrules Ho4).
  specialize (H5 _ _ Hrules Ho5). specialize (H6 _ _ Hrules Ho6).
  destruct (single_upper_inv _ (option_keys_single _ _ _ _ _ Hrules Ho3 H3))
    as (c2 & -> & U2).
  destruct (single_upper_inv _ (option_keys_single _ _ _ _ _ Hrules Ho4 H4))
    as (c3 & -> & U3).
  destruct (single_upper_inv _ (option_keys_single _ _ _ _ _ Hrules Ho5 H5))
    as (c4 & -> & U4).
  destruct (single_upper_inv _ (option_keys_single _ _ _ _ _ Hrules Ho6 H6))
    as (c5 & -> & U5).
  cbn [app].
  destruct (upper_letter_fixed U c0 U0) as [A0 F0].
  destruct (upper_letter_fixed U c1 U1) as [A1 F1].
  destruct (upper_letter_fixed U c2 U2) as [A2 F2].
  destruct (upper_letter_fixed U c3 U3) as [A3 F3].
  destruct (upper_letter_fixed U c4 U4) as [A4 F4].
  destruct (upper_letter_fixed U c5 U5) as [A5 F5].
  assert (Hup : str_upper U [c0; c1; c2; c3; c4; c5] = [c0; c1; c2; c3; c4; c5])
    by (unfold str_upper; cbn [flat_map]; now rewrite F0, F1, F2, F3, F4, F5).
  apply basic_validate_accepts. rewrite Hup.
  split; [reflexivity|]. split.
  { unfold str_isalpha. cbn [List.length Nat.eqb negb forallb andb].
    now rewrite A0, A1, A2, A3, A4, A5. }
  exists c0, c1. split; [reflexivity|]. split; [reflexivity|].
  split; [assumption|]. split; [assumption|].
  rewrite Hdef.
  apply (basic_attribute_loop_none U _ _ rules);
    [assumption | rewrite range_2_6; repeat constructor; lia|].
  rewrite range_2_6.
  repeat constructor.
  - exists c2, o3. now repeat split.
  - exists c3, o4. now repeat split.
  - exists c4, o5. now repeat split.
  - exists c5, o6. now repeat split.
Qed.

(** ** Answers the dialogues take at once *)

Lemma snd_after_print {B : Type} (line : pystr) (m : io B) (inputs : list pystr) :
  snd ((io_print line >>> m) inputs) = snd (m inputs).
Proof. now rewrite snd_io_bind. Qed.

Lemma snd_after_out {A B : Type} (o : out A) (a : A) (k : A -> io B)
    (inputs : list pystr) :
  snd o = Ok a -> snd (io_bind (io_out o) k inputs) = snd (k a inputs).
Proof. intros Ho. rewrite snd_io_bind. unfold io_out. simpl. now rewrite Ho. Qed.

Lemma snd_after_lift {A B : Type} (a : A) (k : A -> io B) (inputs : list pystr) :
  snd (io_bind (io_lift (Ok a)) k inputs) = snd (k a inputs).
Proof. now rewrite snd_io_bind. Qed.

Lemma snd_bind_returned {A B : Type} (m : io A) (k : A -> io B)
    (inputs rest : list pystr) (a : A) :
  snd (m inputs) = (rest, Returned a) ->
  snd (io_bind m k inputs) = snd (k a rest).
Proof. intros Hm. now rewrite snd_io_bind, Hm. Qed.

Lemma ask_until_accepts {A : Type} (prompt : pystr)
    (body : pystr -> out (option A)) (line : pystr) (rest : list pystr) (a : A) :
  snd (body line) = Ok (Some a) ->
  snd (ask_until prompt body (line :: rest)) = (rest, Returned a).
Proof.
  intros H. cbn [ask_until]. destruct (body line) as [printed r].
  simpl in H. now rewrite H.
Qed.

Section FirstAnswers.
Variable U : unicode_db.

Lemma ask_category_accepts (line : pystr) (rest : list pystr) :
  dict_mem pystr_eqb (str_upper U line) CATEGORIES = true ->
  snd (Basic.ask_category U (line :: rest)) = (rest, Returned (str_upper U line)).
Proof.
  intros Hmem. apply ask_until_accepts. cbv zeta. rewrite Hmem.
  apply (dict_mem_lookup pystr_eqb) in Hmem as [desc Hd].
  unfold dict_getitem. rewrite Hd. now out_simpl.
Qed.

Lemma ask_group_accepts (category line : pystr) (rest : list pystr)
    (groups : dict pystr pystr) :
  dict_lookup pystr_eqb category GROUPS = Some groups ->
  dict_mem pystr_eqb (str_upper U line) groups = true ->
  snd (Basic.ask_group U category (line :: rest))
  = (rest, Returned (str_upper U line)).
Proof.
  intros Hg Hmem. apply ask_until_accepts. cbv zeta.
  unfold dict_getitem at 1. rewrite Hg. out_simpl. rewrite Hmem.
  apply (dict_mem_lookup pystr_eqb) in Hmem as [desc Hd].
  unfold dict_getitem. rewrite Hd. now out_simpl.
Qed.

Lemma ask_attribute_accepts (category_group line : pystr) (position : Z)
    (rest : list pystr) (rules : dict Z (dict pystr pystr))
    (options : dict pystr pystr) :
  dict_lookup pystr_eqb category_group ATTRIBUTES = Some rules ->
  dict_lookup Z.eqb position rules = Some options ->
  dict_mem pystr_eqb (str_upper U line) options = true ->
  snd (Basic.ask_attribute U category_group position (line :: rest))
  = (rest, Returned (str_upper U line)).
Proof.
  intros Hcg Hopt Hmem. apply ask_until_accepts. cbv zeta.
  unfold dict_getitem at 1 2. rewrite Hcg. out_simpl. rewrite Hopt. out_simpl.
  rewrite Hmem. cbn [orb].
  apply (dict_mem_lookup pystr_eqb) in Hmem as [desc Hd].
  unfold dict_getitem. rewrite Hd. now out_simpl.
Qed.

(** A line [select_attribute] takes at once: one of the options when the
    position has rules, anything that is not empty otherwise. *)
Lemma select_attribute_accepts (category group line : pystr) (position : Z)
    (rest : list pystr) :
  match dict_lookup pystr_eqb (category ++ group) ATTRIBUTES with
  | Some rules =>
      match dict_lookup Z.eqb position rules with
      | Some options => dict_mem pystr_eqb (str_upper U line) options = true
      | None => str_upper U line <> []
      end
  | None => str_upper U line <> []
  end ->
  snd (Basic.select_attribute U category group position (line :: rest))
  = (rest, Returned (str_upper U line)).
Proof.
  intros H. unfold Basic.select_attribute. cbv zeta.
  rewrite snd_after_print.
  unfold Basic.format_attribute_options, dict_mem, dict_getitem.
  assert (Hfree : str_upper U line <> [] ->
            snd ((io_print (lit "No specific attributes defined for this position.") >>>
                  io_print (lit "  X - Not applicable/Not specified is recommended") >>>
                  line0 <<- io_input (nl ++ lit "Enter attribute "
                                         ++ str_of_int position
                                         ++ lit " code (or press Enter for 'X'): ") ;;
                  io_ret (if Nat.eqb (List.length (str_upper U line0)) 0
                          then X else str_upper U line0)) (line :: rest))
            = (rest, Returned (str_upper U line))).
  { intros Hne. rewrite !snd_after_print, snd_io_bind. cbn [io_input snd io_ret].
    destruct (str_upper U line); [congruence | reflexivity]. }
  destruct (dict_lookup pystr_eqb (category ++ group) ATTRIBUTES)
    as [rules|] eqn:Hcg; cbn [bind].
  - destruct (dict_lookup Z.eqb position rules) as [options|] eqn:Hopt;
      cbn [bind].
    + rewrite !snd_after_lift, snd_after_print.
      exact (ask_attribute_accepts _ _ _ _ _ _ Hcg Hopt H).
    + rewrite snd_after_lift. exact (Hfree H).
  - rewrite snd_after_lift. exact (Hfree H).
Qed.
End FirstAnswers.

(** ** The generator of [cfi_validator_test.py] *)

Lemma range_in (lo hi p : Z) : In p (range lo hi) -> (lo <= p < hi)%Z.
Proof.
  unfold range. rewrite in_map_iff. intros (i & <- & Hi).
  apply in_seq in Hi. lia.
Qed.

Lemma position_described (p : Z) :
  (1 <= p <= 6)%Z -> exists d, dict_lookup Z.eqb p POSITION_DESCRIPTIONS = Some d.
Proof.
  intros Hp.
  assert (H : (p = 1 \/ p = 2 \/ p = 3 \/ p = 4 \/ p = 5 \/ p = 6)%Z) by lia.
  destruct H as [->|[->|[->|[->|[->| ->]]]]]; eexists; reflexivity.
Qed.

Lemma consumes_out_ok {A : Type} (o : out A) (P : A -> Prop) :
  (exists a, snd o = Ok a /\ P a) -> consumes 0 (io_out o) P.
Proof. intros (a & Ho & Ha). now apply (consumes_out _ a). Qed.

Lemma dict_found {K V : Type} (eqb : K -> K -> bool) (k : K) (d : dict K V) (v : V) :
  dict_lookup eqb k d = Some v ->
  dict_mem eqb k d = true /\ dict_getitem eqb d k = Ok v.
Proof. intros H. unfold dict_mem, dict_getitem. now rewrite H. Qed.

Lemma dict_missing {K V : Type} (eqb : K -> K -> bool) (k : K) (d : dict K V) :
  dict_lookup eqb k d = None -> dict_mem eqb k d = false.
Proof. intros H. unfold dict_mem. now rewrite H. Qed.

Section EnhancedGenerator.
Variable U : unicode_db.

Lemma enhanced_ask_category_same : Enhanced.ask_category U = Basic.ask_category U.
Proof. reflexivity. Qed.

Lemma enhanced_ask_group_same (category : pystr) :
  Enhanced.ask_group U category = Basic.ask_group U category.
Proof. reflexivity. Qed.

(** What the prefix fixes as the category. *)
Lemma prefix_category_spec (P : pystr) :
  match str_index P 0 with
  | Ok c =>
      snd (Enhanced.prefix_category P)
      = if dict_mem pystr_eqb c CATEGORIES then Ok (P, c, Some c)
        else Ok ([], [], None)
  | Raise _ => P = [] /\ snd (Enhanced.prefix_category P) = Ok ([], [], None)
  end.
Proof.
  unfold Enhanced.prefix_category.
  pose proof (str_index_bounds P 0 ltac:(lia)) as Hb.
  destruct (Z.ltb_spec 0 (Z.of_nat (List.length P))) as [Hlt|Hge].
  - destruct Hb as [c Hc]. rewrite Hc.
    replace (1 <=? Z.of_nat (List.length P))%Z with true
      by (symmetry; apply Z.leb_le; lia).
    out_simpl.
    destruct (dict_mem pystr_eqb [c] CATEGORIES) eqn:Hmem; [|now out_simpl].
    apply (dict_mem_lookup pystr_eqb) in Hmem as [desc Hd].
    unfold dict_getitem. rewrite Hd. now out_simpl.
  - rewrite Hb. destruct P; [|simpl in Hge; lia]. now split.
Qed.

Lemma prefix_category_ok (P : pystr) :
  exists P' code category,
    snd (Enhanced.prefix_category P) = Ok (P', code, category)
    /\ forall c, category = Some c -> dict_mem pystr_eqb c CATEGORIES = true.
Proof.
  pose proof (prefix_category_spec P) as H.
  destruct (str_index P 0) as [c|e].
  - destruct (dict_mem pystr_eqb c CATEGORIES) eqn:Hmem.
    + exists P, c, (Some c). split; [assumption|]. now intros ? [= <-].
    + exists [], [], None. split; [assumption|]. discriminate.
  - exists [], [], None. split; [apply H|]. discriminate.
Qed.

(** What the prefix fixes as the group. *)
Lemma prefix_group_accepts (P code : pystr) (c0 c1 : N) :
  str_index P 1 = Ok [c1] ->
  dict_mem pystr_eqb [c1] (dict_get pystr_eqb GROUPS [c0] []) = true ->
  snd (Enhanced.prefix_group P code (Some [c0])) = Ok (P, code ++ [c1], Some [c1]).
Proof.
  intros Hidx Hmem. unfold Enhanced.prefix_group.
  pose proof (str_index_bounds P 1 ltac:(lia)) as Hb.
  destruct (Z.ltb_spec 1 (Z.of_nat (List.length P))) as [Hlt|Hge];
    [|congruence].
  replace (2 <=? Z.of_nat (List.length P))%Z with true
    by (symmetry; apply Z.leb_le; lia).
  cbn [Enhanced.opt_truthy List.length Nat.eqb negb andb].
  rewrite Hidx. out_simpl. rewrite Hmem.
  unfold dict_get in Hmem.
  destruct (dict_lookup pystr_eqb [c0] GROUPS) as [groups|] eqn:Hg;
    [|discriminate].
  apply (dict_mem_lookup pystr_eqb) in Hmem as [desc Hd].
  unfold dict_getitem. rewrite Hg. out_simpl. rewrite Hd. now out_simpl.
Qed.

Lemma prefix_group_ok (P code : pystr) (category : option pystr) :
  exists r, snd (Enhanced.prefix_group P code category) = Ok r.
Proof.
  unfold Enhanced.prefix_group.
  destruct (Z.leb_spec 2 (Z.of_nat (List.length P))) as [Hlen|Hlen];
    cbn [andb]; [|eexists; reflexivity].
  destruct category as [category|]; cbn [Enhanced.opt_truthy];
    [|eexists; reflexivity].
  destruct (negb (Nat.eqb (List.length category) 0)); [|eexists; reflexivity].
  pose proof (str_index_bounds P 1 ltac:(lia)) as H1.
  pose proof (str_index_bounds P 0 ltac:(lia)) as H0.
  replace (1 <? Z.of_nat (List.length P))%Z with true in H1
    by (symmetry; apply Z.ltb_lt; lia).
  replace (0 <? Z.of_nat (List.length P))%Z with true in H0
    by (symmetry; apply Z.ltb_lt; lia).
  destruct H1 as [c1 H1], H0 as [c0 H0]. rewrite H1. out_simpl.
  destruct (dict_mem pystr_eqb [c1] (dict_get pystr_eqb GROUPS category []))
    eqn:Hmem.
  - unfold dict_get in Hmem.
    destruct (dict_lookup pystr_eqb category GROUPS) as [groups|] eqn:Hg;
      [|discriminate].
    apply (dict_mem_lookup pystr_eqb) in Hmem as [desc Hd].
    unfold dict_getitem. rewrite Hg. out_simpl. rewrite Hd. out_simpl.
    eexists; reflexivity.
  - out_simpl. rewrite H0. out_simpl. eexists; reflexivity.
Qed.

(** One attribute of the prefix that is taken over. *)
Lemma prefix_attributes_step (P category_group code c : pystr) (i : Z)
    (rest : list Z) :
  str_index P i = Ok c ->
  attribute_taken U category_group (i + 1) c ->
  snd (Enhanced.prefix_attributes U P category_group code (i :: rest))
  = snd (Enhanced.prefix_attributes U P category_group (code ++ c) rest).
Proof.
  intros Hidx H. unfold attribute_taken in H.
  cbn [Enhanced.prefix_attributes]. rewrite Hidx. out_simpl.
  destruct (dict_lookup pystr_eqb category_group ATTRIBUTES) as [rules|] eqn:Hcg.
  - destruct (dict_found _ _ _ _ Hcg) as [Hm Hg]. rewrite Hm, Hg. cbn [bind].
    destruct (dict_lookup Z.eqb (i + 1)%Z rules) as [options|] eqn:Hopt.
    + destruct (dict_found _ _ _ _ Hopt) as [Hm' Hg']. rewrite Hm'.
      out_simpl. rewrite Hg'. out_simpl. rewrite H. cbn [orb]. now out_simpl.
    + rewrite (dict_missing _ _ _ Hopt). out_simpl. rewrite H. now out_simpl.
  - rewrite (dict_missing _ _ _ Hcg). out_simpl. rewrite H. now out_simpl.
Qed.

Lemma prefix_attributes_ok (P category_group : pystr) (indices : list Z) :
  Forall (fun i => 0 <= i < Z.of_nat (List.length P))%Z indices ->
  forall code,
    exists code', snd (Enhanced.prefix_attributes U P category_group code indices)
                  = Ok code'.
Proof.
  induction 1 as [|i rest Hi Hrest IH]; intros code; [now exists code|].
  cbn [Enhanced.prefix_attributes].
  pose proof (str_index_bounds P i ltac:(lia)) as Hb.
  replace (i <? Z.of_nat (List.length P))%Z with true in Hb
    by (symmetry; apply Z.ltb_lt; lia).
  destruct Hb as [c Hc]. rewrite Hc. out_simpl.
  assert (Hfree : exists code',
            snd (if str_isalpha U [c]
                 then print (lit "Using provided attribute "
                               ++ str_of_int (i + 1) ++ lit ": " ++ [c]) ;;;
                      Enhanced.prefix_attributes U P category_group
                        (code ++ [c]) rest
                 else print (lit "Warning: Non-alphabetic character '" ++ [c]
                               ++ lit "' at position " ++ str_of_int (i + 1)
                               ++ lit ". Ignoring the rest of the prefix.") ;;;
                      lift (Ok code)) = Ok code').
  { destruct (str_isalpha U [c]); out_simpl; [apply IH | eexists; reflexivity]. }
  destruct (dict_lookup pystr_eqb category_group ATTRIBUTES) as [rules|] eqn:Hcg.
  - destruct (dict_found _ _ _ _ Hcg) as [Hm Hg]. rewrite Hm, Hg. cbn [bind].
    destruct (dict_lookup Z.eqb (i + 1)%Z rules) as [options|] eqn:Hopt.
    + destruct (dict_found _ _ _ _ Hopt) as [Hm' Hg']. rewrite Hm'.
      out_simpl. rewrite Hg'. out_simpl.
      destruct (dict_mem pystr_eqb [c] options || pystr_eqb [c] X);
        out_simpl; [apply IH | eexists; reflexivity].
    + rewrite (dict_missing _ _ _ Hopt). out_simpl. exact Hfree.
  - rewrite (dict_missing _ _ _ Hcg). out_simpl. exact Hfree.
Qed.

Lemma prefix_rest_ok (P code : pystr) (category group : option pystr) :
  exists code', snd (Enhanced.prefix_rest U P code category group) = Ok code'.
Proof.
  unfold Enhanced.prefix_rest.
  destruct category as [category|], group as [group|];
    cbn [Enhanced.opt_truthy andb]; rewrite ?andb_false_r;
    try (eexists; reflexivity).
  destruct (2 <? Z.of_nat (List.length P))%Z,
           (negb (Nat.eqb (List.length category) 0)),
           (negb (Nat.eqb (List.length group) 0));
    cbn [andb]; try (eexists; reflexivity).
  apply prefix_attributes_ok. apply Forall_forall. intros i Hi.
  apply range_in in Hi. lia.
Qed.

Lemma step_category_consumes (code : pystr) (category : option pystr) :
  (forall c, category = Some c -> dict_mem pystr_eqb c CATEGORIES = true) ->
  consumes 0 (Enhanced.step_category U code category)
    (fun r => dict_mem pystr_eqb (snd r) CATEGORIES = true).
Proof.
  intros Hcat. unfold Enhanced.step_category.
  destruct (Enhanced.opt_truthy category) eqn:Ht; cbn [negb].
  - destruct category as [c|]; [|discriminate]. apply consumes_ret. simpl. auto.
  - apply consumes_after_print.
    apply (consumes_bind0 0 _ _ (fun _ => True)); [now apply consumes_lift|].
    intros d _. apply consumes_after_print, consumes_after_listing.
    rewrite enhanced_ask_category_same.
    apply (consumes_bind0 0 _ _
             (fun c => dict_mem pystr_eqb c CATEGORIES = true)).
    { apply (consumes_weaken 1 0 _ _ _ (ask_category_consumes U)); [lia | auto]. }
    intros c Hc. now apply consumes_ret.
Qed.

Lemma step_group_consumes (code category : pystr) (group : option pystr) :
  dict_mem pystr_eqb category CATEGORIES = true ->
  consumes 0 (Enhanced.step_group U code category group) (fun _ => True).
Proof.
  intros Hcat. unfold Enhanced.step_group.
  destruct (Enhanced.opt_truthy group) eqn:Ht; cbn [negb].
  - destruct group as [g|]; [|discriminate]. now apply consumes_ret.
  - apply consumes_after_print.
    apply (consumes_bind0 0 _ _ (fun _ => True)); [now apply consumes_lift|].
    intros d _. apply consumes_after_print.
    destruct (categories_have_groups _ Hcat) as (_ & groups & _ & Hg).
    unfold dict_getitem at 1. rewrite Hg.
    apply (consumes_bind0 0 _ _ (fun _ => True)); [now apply consumes_lift|].
    intros groups' _. apply consumes_after_listing.
    rewrite enhanced_ask_group_same.
    apply (consumes_bind0 0 _ _ (fun _ => True)).
    { apply (consumes_weaken 1 0 _ _ _ (ask_group_consumes U _ Hcat));
        [lia | auto]. }
    intros g _. now apply consumes_ret.
Qed.

Lemma enhanced_ask_attribute_consumes (options : dict pystr pystr) (position : Z) :
  consumes 1 (Enhanced.ask_attribute U options position) (fun _ => True).
Proof.
  apply consumes_ask_until. intros line. cbv zeta.
  destruct (dict_mem pystr_eqb (str_upper U line) options) eqn:Hmem; cbn [orb].
  - apply (dict_mem_lookup pystr_eqb) in Hmem as [desc Hd].
    unfold dict_getitem. rewrite Hd. out_simpl. exact I.
  - destruct (pystr_eqb (str_upper U line) X); out_simpl; exact I.
Qed.

Lemma ask_free_attribute_consumes (position : Z) :
  consumes 1 (Enhanced.ask_free_attribute U position) (fun _ => True).
Proof.
  apply consumes_ask_until. intros line. cbv zeta.
  destruct (Nat.eqb (List.length (str_upper U line)) 0); [out_simpl; exact I|].
  destruct (str_isalpha U (str_upper U line)); [|out_simpl; exact I].
  destruct (pystr_eqb (str_upper U line) X); out_simpl; exact I.
Qed.

Lemma enhanced_select_attribute_consumes (category_group : pystr) (position : Z) :
  (1 <= position <= 6)%Z ->
  consumes 1 (Enhanced.select_attribute U category_group position)
    (fun _ => True).
Proof.
  intros Hp. unfold Enhanced.select_attribute.
  apply consumes_after_print.
  destruct (position_described position Hp) as [d Hd].
  unfold dict_getitem at 1. rewrite Hd.
  apply (consumes_bind0 1 _ _ (fun _ => True)); [now apply consumes_lift|].
  intros d' _. apply consumes_after_print.
  unfold dict_mem, dict_getitem.
  destruct (dict_lookup pystr_eqb category_group ATTRIBUTES) as [rules|];
    cbn [bind].
  - destruct (dict_lookup Z.eqb position rules) as [options|] eqn:Hopt.
    + apply (consumes_bind0 1 _ _ (fun b => b = true));
        [now apply consumes_lift|]. intros ? ->.
      apply (consumes_bind0 1 _ _ (fun r => r = rules));
        [now apply consumes_lift|].
      intros ? ->. rewrite Hopt.
      apply (consumes_bind0 1 _ _ (fun _ => True)); [now apply consumes_lift|].
      intros options' _. apply consumes_after_listing.
      apply enhanced_ask_attribute_consumes.
    + apply (consumes_bind0 1 _ _ (fun b => b = false));
        [now apply consumes_lift|]. intros ? ->.
      do 2 apply consumes_after_print. apply ask_free_attribute_consumes.
  - apply (consumes_bind0 1 _ _ (fun b => b = false));
      [now apply consumes_lift|]. intros ? ->.
    do 2 apply consumes_after_print. apply ask_free_attribute_consumes.
Qed.

Lemma enhanced_select_attributes_consumes (category_group : pystr)
    (positions : list Z) :
  Forall (fun p => 1 <= p <= 6)%Z positions ->
  forall code,
    consumes 0 (Enhanced.select_attributes U category_group code positions)
      (fun _ => True).
Proof.
  induction 1 as [|p rest Hp Hrest IH]; intros code;
    cbn [Enhanced.select_attributes]; [now apply consumes_ret|].
  apply (consumes_bind0 0 _ _ (fun _ => True)); [|intros attr _; apply IH].
  apply (consumes_weaken 1 0 _ _ _ (enhanced_select_attribute_consumes _ _ Hp));
    [lia | auto].
Qed.

Lemma enhanced_generate_consumes (initial_prefix : pystr) :
  consumes 0 (Enhanced.generate_cfi_code U initial_prefix)
    (detailed_valid_or_none U).
Proof.
  unfold Enhanced.generate_cfi_code. do 2 apply consumes_after_print. cbv zeta.
  set (P := if negb (Nat.eqb (List.length initial_prefix) 0)
            then str_upper U initial_prefix else []).
  destruct (prefix_category_ok P) as (P1 & code1 & category & H1 & Hcat).
  apply (consumes_bind0 0 _ _ (fun r => r = (P1, code1, category)));
    [apply consumes_out_ok; eauto|]. intros ? ->.
  destruct (prefix_group_ok P1 code1 category) as ([[P2 code2] group] & H2).
  apply (consumes_bind0 0 _ _ (fun r => r = (P2, code2, group)));
    [apply consumes_out_ok; eauto|]. intros ? ->.
  destruct (prefix_rest_ok P2 code2 category group) as (code3 & H3).
  apply (consumes_bind0 0 _ _ (fun _ => True));
    [apply consumes_out_ok; eauto|]. intros code3' _.
  apply (consumes_bind0 0 _ _ _ _ (step_category_consumes code3' category Hcat)).
  intros [code4 c] Hc. simpl in Hc.
  apply (consumes_bind0 0 _ _ _ _ (step_group_consumes code4 c group Hc)).
  intros [code5 g] _.
  apply (consumes_bind0 0 _ _ (fun _ => True)).
  { apply enhanced_select_attributes_consumes. apply Forall_forall.
    intros p Hp. apply range_in in Hp. lia. }
  intros code _.
  destruct (validate_spec U (PyStr code)) as ([[b msg] info] & Hb & _).
  rewrite Hb.
  apply (consumes_bind0 0 _ _ (fun r => r = (b, msg, info)));
    [now apply consumes_lift|].
  intros r ->. destruct b.
  - apply consumes_after_print, consumes_ret. simpl. eauto.
  - do 2 apply consumes_after_print. now apply consumes_ret.
Qed.
End EnhancedGenerator.

Lemma snd_out_cong {A B : Type} (o1 o2 : out A) (k : A -> io B)
    (inputs : list pystr) :
  snd o1 = snd o2 ->
  snd (io_bind (io_out o1) k inputs) = snd (io_bind (io_out o2) k inputs).
Proof. intros H. rewrite !snd_io_bind. unfold io_out. simpl. now rewrite H. Qed.

(** ** Answers the enhanced generator takes at once *)

Section EnhancedAnswers.
Variable U : unicode_db.

Lemma prefix_category_nil :
  snd (Enhanced.prefix_category []) = Ok ([], [], None).
Proof. reflexivity. Qed.

Lemma prefix_category_cons (c0 : N) (rest : pystr) :
  dict_mem pystr_eqb [c0] CATEGORIES = true ->
  snd (Enhanced.prefix_category (c0 :: rest)) = Ok (c0 :: rest, [c0], Some [c0]).
Proof.
  intros Hcat. pose proof (prefix_category_spec (c0 :: rest)) as H.
  pose proof (str_index_bounds (c0 :: rest) 0 ltac:(lia)) as Hb.
  replace (0 <? Z.of_nat (List.length (c0 :: rest)))%Z with true in Hb
    by (symmetry; apply Z.ltb_lt; simpl; lia).
  destruct Hb as [c Hc]. rewrite Hc in H.
  apply str_index_nth in Hc; [|lia]. simpl in Hc. injection Hc as <-.
  now rewrite Hcat in H.
Qed.

Lemma prefix_group_short (P code : pystr) (category : option pystr) :
  (List.length P <= 1)%nat ->
  snd (Enhanced.prefix_group P code category) = Ok (P, code, None).
Proof.
  intros Hlen. unfold Enhanced.prefix_group.
  now replace (2 <=? Z.of_nat (List.length P))%Z with false
    by (symmetry; apply Z.leb_gt; lia).
Qed.

Lemma prefix_rest_short (P code : pystr) (category group : option pystr) :
  (List.length P <= 2)%nat ->
  snd (Enhanced.prefix_rest U P code category group) = Ok code.
Proof.
  intros Hlen. unfold Enhanced.prefix_rest.
  now replace (2 <? Z.of_nat (List.length P))%Z with false
    by (symmetry; apply Z.ltb_ge; lia).
Qed.

Lemma step_category_given (code : pystr) (c : N) (inputs : list pystr) :
  snd (Enhanced.step_category U code (Some [c]) inputs)
  = (inputs, Returned (code, [c])).
Proof. reflexivity. Qed.

Lemma step_category_asks (code line : pystr) (rest : list pystr) :
  dict_mem pystr_eqb (str_upper U line) CATEGORIES = true ->
  snd (Enhanced.step_category U code None (line :: rest))
  = (rest, Returned (code ++ str_upper U line, str_upper U line)).
Proof.
  intros Hmem. unfold Enhanced.step_category.
  cbn [Enhanced.opt_truthy negb].
  rewrite snd_after_print.
  change (dict_getitem Z.eqb POSITION_DESCRIPTIONS 1%Z)
    with (Ok (lit "Category - Primary classification of the financial instrument")).
  rewrite snd_after_lift, snd_after_print.
  rewrite (snd_after_out _ tt) by apply for_each_print.
  rewrite enhanced_ask_category_same.
  now rewrite (snd_bind_returned _ _ _ _ _ (ask_category_accepts U _ _ Hmem)).
Qed.

Lemma step_group_given (code category : pystr) (g : N) (inputs : list pystr) :
  snd (Enhanced.step_group U code category (Some [g]) inputs)
  = (inputs, Returned (code, [g])).
Proof. reflexivity. Qed.

Lemma step_group_asks (code category line : pystr) (rest : list pystr)
    (groups : dict pystr pystr) :
  dict_lookup pystr_eqb category GROUPS = Some groups ->
  dict_mem pystr_eqb (str_upper U line) groups = true ->
  snd (Enhanced.step_group U code category None (line :: rest))
  = (rest, Returned (code ++ str_upper U line, str_upper U line)).
Proof.
  intros Hg Hmem. unfold Enhanced.step_group.
  cbn [Enhanced.opt_truthy negb].
  rewrite snd_after_print.
  change (dict_getitem Z.eqb POSITION_DESCRIPTIONS 2%Z)
    with (Ok (lit "Group - Secondary classification within the category")).
  rewrite snd_after_lift, snd_after_print.
  rewrite (proj2 (dict_found _ _ _ _ Hg)), snd_after_lift.
  rewrite (snd_after_out _ tt) by apply for_each_print.
  rewrite enhanced_ask_group_same.
  now rewrite (snd_bind_returned _ _ _ _ _
                 (ask_group_accepts U _ _ _ _ Hg Hmem)).
Qed.

Lemma enhanced_ask_attribute_accepts (options : dict pystr pystr) (position : Z)
    (line : pystr) (rest : list pystr) :
  dict_mem pystr_eqb (str_upper U line) options = true ->
  snd (Enhanced.ask_attribute U options position (line :: rest))
  = (rest, Returned (str_upper U line)).
Proof.
  intros Hmem. apply ask_until_accepts. cbv zeta. rewrite Hmem. cbn [orb].
  apply (dict_mem_lookup pystr_eqb) in Hmem as [desc Hd].
  unfold dict_getitem. rewrite Hd. now out_simpl.
Qed.

Lemma ask_free_attribute_accepts (position : Z) (line : pystr)
    (rest : list pystr) :
  str_isalpha U (str_upper U line) = true ->
  snd (Enhanced.ask_free_attribute U position (line :: rest))
  = (rest, Returned (str_upper U line)).
Proof.
  intros Halpha. apply ask_until_accepts. cbv zeta. rewrite Halpha.
  unfold str_isalpha in Halpha. apply andb_true_iff in Halpha as [Hne _].
  destruct (Nat.eqb (List.length (str_upper U line)) 0); [discriminate|].
  destruct (pystr_eqb (str_upper U line) X); now out_simpl.
Qed.

Lemma enhanced_select_attribute_accepts (category_group line : pystr)
    (position : Z) (rest : list pystr) :
  (1 <= position <= 6)%Z ->
  attribute_taken U category_group position (str_upper U line) ->
  snd (Enhanced.select_attribute U category_group position (line :: rest))
  = (rest, Returned (str_upper U line)).
Proof.
  intros Hp H. unfold Enhanced.select_attribute.
  rewrite snd_after_print.
  destruct (position_described position Hp) as [d Hd].
  rewrite (proj2 (dict_found _ _ _ _ Hd)), snd_after_lift, snd_after_print.
  unfold attribute_taken in H.
  destruct (dict_lookup pystr_eqb category_group ATTRIBUTES) as [rules|] eqn:Hcg.
  - destruct (dict_found _ _ _ _ Hcg) as [Hm Hg]. rewrite Hm, Hg. cbn [bind].
    destruct (dict_lookup Z.eqb position rules) as [options|] eqn:Hopt.
    + destruct (dict_found _ _ _ _ Hopt) as [Hm' Hg']. rewrite Hm'.
      rewrite !snd_after_lift, Hg', snd_after_lift.
      rewrite (snd_after_out _ tt) by apply for_each_print.
      now apply enhanced_ask_attribute_accepts.
    + rewrite (dict_missing _ _ _ Hopt), snd_after_lift, !snd_after_print.
      now apply ask_free_attribute_accepts.
  - rewrite (dict_missing _ _ _ Hcg), snd_after_lift, !snd_after_print.
    now apply ask_free_attribute_accepts.
Qed.
End EnhancedAnswers.

Lemma forallb_firstn {A : Type} (f : A -> bool) (k : nat) (l : list A) :
  forallb f l = true -> forallb f (firstn k l) = true.
Proof.
  revert l. induction k as [|k IH]; intros [|a l]; simpl; trivial.
  intros H. apply andb_true_iff in H as [Ha Hl]. rewrite Ha. now apply IH.
Qed.

(** The stages of the enhanced generator, for a prefix and answers that
    are all taken at once. *)
Ltac prefix_stage U Hcat Hgrp Hsel :=
  rewrite !snd_after_print;
  (erewrite snd_after_out;
     [|first [ exact prefix_category_nil
             | exact (prefix_category_cons _ _ Hcat) ]]);
  cbv beta iota;
  (erewrite snd_after_out;
     [|first [ solve [apply prefix_group_accepts; [reflexivity | exact Hgrp]]
             | solve [apply prefix_group_short; simpl; lia] ]]);
  cbv beta iota;
  (erewrite snd_after_out;
     [|first [ solve [apply prefix_rest_short; simpl; lia]
             | unfold Enhanced.prefix_rest;
               match goal with
               | |- context [((2 <? ?n)%Z && ?a && ?b)%bool] =>
                   change ((2 <? n)%Z && a && b)%bool with true
               end;
               match goal with
               | |- context [range 2 ?h] =>
                   let r := eval vm_compute in (range 2 h) in
                   change (range 2 h) with r
               end;
               cbv beta iota zeta;
               repeat (erewrite prefix_attributes_step;
                       [|reflexivity | apply Hsel; [reflexivity | lia]]);
               reflexivity ]]).

Ltac dialogue_stage U Hcat Hgrp Hg Hsel H0 H1 H2 H3 H4 H5 :=
  (erewrite snd_bind_returned;
     [|first [ solve [apply step_category_given]
             | solve [apply step_category_asks; rewrite H0; exact Hcat] ]]);
  rewrite ?H0; cbv beta iota;
  (erewrite snd_bind_returned;
     [|first [ solve [apply step_group_given]
             | solve [apply (step_group_asks U _ _ _ _ _ Hg);
                      rewrite H1; exact Hgrp] ]]);
  rewrite ?H1; cbv beta iota zeta;
  match goal with
  | |- context [range ?a 7] =>
      let r := eval vm_compute in (range a 7) in change (range a 7) with r
  end;
  cbn [Enhanced.select_attributes];
  (erewrite snd_bind_returned;
     [|repeat (erewrite snd_bind_returned;
               [|solve [apply enhanced_select_attribute_accepts;
                        [lia
                        |rewrite ?H2, ?H3, ?H4, ?H5;
                         apply Hsel; [reflexivity | lia]]]]);
       reflexivity]);
  rewrite ?H2, ?H3, ?H4, ?H5; cbn [app].



(** X2. For a position from 3 to 6 and a non-empty category and group,
    [format_attribute_options] renders exactly the dictionary that
    [get_position_options] returns, one line per entry in its order. *)
Theorem format_renders_position_options (category group : pystr) (position : Z) :
  (3 <= position <= 6)%Z -> category <> [] -> group <> [] ->
  exists options,
    Enhanced.get_position_options (Some category) (Some group) position
    = Ok options
    /\ Enhanced.format_attribute_options category group position
       = Ok (join nl (map option_line options)).
Proof.
  intros Hp Hc Hg.
  unfold Enhanced.get_position_options, Enhanced.format_attribute_options.
  replace (position =? 1)%Z with false by (symmetry; apply Z.eqb_neq; lia).
  assert (Hin : existsb (Z.eqb position) [3; 4; 5; 6]%Z = true).
  { apply existsb_exists. exists position. split; [simpl; lia | apply Z.eqb_refl]. }
  rewrite Hin.
  assert (Ht : Enhanced.opt_truthy (Some category) = true)
    by (destruct category; [congruence | reflexivity]).
  assert (Ht' : Enhanced.opt_truthy (Some group) = true)
    by (destruct group; [congruence | reflexivity]).
  rewrite Ht, Ht'.
  destruct ((position =? 2)%Z && Enhanced.opt_mem (Some category) CATEGORIES) eqn:E2.
  { apply andb_true_iff in E2 as [E2 _]. apply Z.eqb_eq in E2. lia. }
  cbn [andb].
  unfold dict_mem, dict_getitem.
  destruct (dict_lookup pystr_eqb (category ++ group) ATTRIBUTES)
    as [rules|]; cbn [bind].
  - destruct (dict_lookup Z.eqb position rules) as [options|]; cbn [bind];
      eexists; split; reflexivity.
  - eexists; split; reflexivity.
Qed.

Lemma format_renders_position_options_witness :
  exists options,
    Enhanced.get_position_options (Some (lit "E")) (Some (lit "S")) 4 = Ok options
    /\ Enhanced.format_attribute_options (lit "E") (lit "S") 4
       = Ok (join nl (map option_line options)).
Proof.
  apply (format_renders_position_options (lit "E") (lit "S") 4);
    [lia | discriminate | discriminate].
Defined.

(** X3. [get_position_options] never raises for a category and a group that
    are strings or [None] and any integer position.  It answers with the
    empty dictionary for a position outside 1..6, and for a position from 3
    to 6 when the category or the group is [None] or empty. *)
Theorem get_position_options_never_raises
    (category group : option pystr) (position : Z) :
  exists options,
    Enhanced.get_position_options category group position = Ok options
    /\ ((position < 1 \/ 6 < position)%Z -> options = [])
    /\ ((3 <= position <= 6)%Z ->
        Enhanced.opt_truthy category && Enhanced.opt_truthy group = false ->
        options = []).
Proof.
  unfold Enhanced.get_position_options.
  destruct (Z.eqb_spec position 1) as [->|H1].
  { eexists; split; [reflexivity|]. split; intros; lia. }
  destruct ((position =? 2)%Z && Enhanced.opt_mem category CATEGORIES) eqn:E2.
  { apply andb_true_iff in E2 as [E2 Emem]. apply Z.eqb_eq in E2. subst.
    destruct category as [c|]; [|discriminate].
    eexists; split; [reflexivity|]. split; intros; lia. }
  destruct (existsb (Z.eqb position) [3; 4; 5; 6]%Z) eqn:Ein; cbn [andb].
  - apply existsb_exists in Ein as (x & Hx & Ex). apply Z.eqb_eq in Ex. subst x.
    assert (Hp : (3 <= position <= 6)%Z) by (simpl in Hx; lia).
    destruct (Enhanced.opt_truthy category && Enhanced.opt_truthy group) eqn:Et.
    + apply andb_true_iff in Et as [Hc Hg].
      apply opt_truthy_some in Hc as (c & -> & _).
      apply opt_truthy_some in Hg as (g & -> & _).
      unfold dict_mem, dict_getitem.
      destruct (dict_lookup pystr_eqb (c ++ g) ATTRIBUTES) as [rules|];
        cbn [bind].
      * destruct (dict_lookup Z.eqb position rules) as [options|];
          (eexists; split; [reflexivity|]; split; [intros; lia | discriminate]).
      * eexists; split; [reflexivity|]. split; [intros; lia | discriminate].
    + eexists; split; [reflexivity|]. split; trivial.
  - eexists; split; [reflexivity|]. split; [trivial|].
    intros Hp _. exfalso.
    assert (existsb (Z.eqb position) [3; 4; 5; 6]%Z = true); [|congruence].
    apply existsb_exists. exists position. split; [simpl; lia | apply Z.eqb_refl].
Qed.

(** X4. For a position from 3 to 6 and a non-empty category and group,
    the dictionary [get_position_options] returns always offers ['X'], with
    the description "Not applicable/Not specified": from the attribute
    table when the pair and position have rules, from the default
    otherwise. *)
Theorem attribute_options_always_offer_X
    (category group : pystr) (position : Z) :
  (3 <= position <= 6)%Z -> category <> [] -> group <> [] ->
  exists options,
    Enhanced.get_position_options (Some category) (Some group) position
    = Ok options
    /\ dict_lookup pystr_eqb X options = Some not_applicable.
Proof.
  intros Hp Hc Hg.
  unfold Enhanced.get_position_options.
  replace (position =? 1)%Z with false by (symmetry; apply Z.eqb_neq; lia).
  replace (position =? 2)%Z with false by (symmetry; apply Z.eqb_neq; lia).
  assert (Hin : existsb (Z.eqb position) [3; 4; 5; 6]%Z = true).
  { apply existsb_exists. exists position. split; [simpl; lia | apply Z.eqb_refl]. }
  rewrite Hin. cbn [andb].
  assert (Ht : Enhanced.opt_truthy (Some category) = true)
    by (destruct category; [congruence | reflexivity]).
  assert (Ht' : Enhanced.opt_truthy (Some group) = true)
    by (destruct group; [congruence | reflexivity]).
  rewrite Ht, Ht'.
  unfold dict_mem, dict_getitem.
  destruct (dict_lookup pystr_eqb (category ++ group) ATTRIBUTES)
    as [rules|] eqn:Hcg; cbn [bind].
  - destruct (dict_lookup Z.eqb position rules) as [options|] eqn:Hpos;
      cbn [bind].
    + exists options. split; [reflexivity|].
      exact (attribute_options_describe_X _ _ _ _ Hcg Hpos).
    + eexists; split; reflexivity.
  - eexists; split; reflexivity.
Qed.

Lemma attribute_options_always_offer_X_witness :
  exists options,
    Enhanced.get_position_options (Some (lit "O")) (Some (lit "C")) 6 = Ok options
    /\ dict_lookup pystr_eqb X options = Some not_applicable.
Proof.
  apply (attribute_options_always_offer_X (lit "O") (lit "C") 6);
    [lia | discriminate | discriminate].
Defined.

(** X5. For a registered category, [get_position_options] at position 2
    returns that category's dictionary of groups, and it is never empty. *)
Theorem registered_category_has_groups (category : pystr) (group : option pystr) :
  dict_mem pystr_eqb category CATEGORIES = true ->
  exists groups,
    Enhanced.get_position_options (Some category) group 2 = Ok groups
    /\ dict_lookup pystr_eqb category GROUPS = Some groups
    /\ groups <> [].
Proof.
  intros Hcat.
  destruct (categories_have_groups _ Hcat) as (desc & groups & _ & Hg).
  exists groups. unfold Enhanced.get_position_options. cbn [Z.eqb Pos.eqb andb].
  cbn [Enhanced.opt_mem]. rewrite Hcat. unfold dict_get. rewrite Hg.
  repeat split. exact (categories_have_a_group _ _ Hcat Hg).
Qed.

Lemma registered_category_has_groups_witness :
  exists groups,
    Enhanced.get_position_options (Some (lit "L")) None 2 = Ok groups
    /\ dict_lookup pystr_eqb (lit "L") GROUPS = Some groups
    /\ groups <> [].
Proof.
  apply (registered_category_has_groups (lit "L") None). reflexivity.
Defined.

(** X6. For a six-character alphabetic string whose upper-cased form starts
    with a pair that has attribute rules, [validate] (either version)
    accepts exactly when each of the six characters is a key of the
    dictionary [get_position_options] returns for its position. *)
Theorem accepted_iff_offered (U : unicode_db) (s : pystr) (c0 c1 : N) :
  List.length s = 6%nat -> str_isalpha U s = true ->
  char_at (str_upper U s) 1 = Some [c0] ->
  char_at (str_upper U s) 2 = Some [c1] ->
  dict_mem pystr_eqb [c0; c1] ATTRIBUTES = true ->
  let offered :=
    forall k, (1 <= k <= 6)%Z ->
      exists c options,
        char_at (str_upper U s) k = Some c
        /\ Enhanced.get_position_options (Some [c0]) (Some [c1]) k = Ok options
        /\ dict_mem pystr_eqb c options = true in
  ((exists msg, Basic.validate U (PyStr s) = Ok (true, msg)) <-> offered)
  /\ ((exists msg info, Enhanced.validate U (PyStr s) = Ok (true, msg, info))
      <-> offered).
Proof.
  intros Hlen Halpha H0 H1 Hdef offered.
  apply char_at_index in H0, H1. simpl in H0, H1.
  pose proof Hdef as Hrules.
  apply (dict_mem_lookup pystr_eqb) in Hrules as [rules Hrules].
  assert (Hbasic : (exists msg, Basic.validate U (PyStr s) = Ok (true, msg))
                   <-> offered).
  { rewrite basic_validate_accepts. split.
    - intros (_ & _ & c0' & c1' & E0 & E1 & Ecat & Egrp & Eloop).
      rewrite H0 in E0. rewrite H1 in E1.
      injection E0 as <-. injection E1 as <-.
      rewrite Hdef in Eloop.
      apply (basic_attribute_loop_none U _ _ rules) in Eloop;
        [|assumption | rewrite range_2_6; repeat constructor; lia].
      rewrite Forall_forall in Eloop.
      intros k Hk.
      destruct (Z.eq_dec k 1) as [->|Hk1].
      { exists [c0], CATEGORIES. repeat split; trivial.
        now apply char_at_index. }
      destruct (Z.eq_dec k 2) as [->|Hk2].
      { exists [c1], (dict_get pystr_eqb GROUPS [c0] []).
        split; [now apply char_at_index|]. split; [|assumption].
        unfold Enhanced.get_position_options. cbn [Z.eqb Pos.eqb andb].
        cbn [Enhanced.opt_mem]. now rewrite Ecat. }
      destruct (Eloop (k - 1)%Z) as (c & options & Hc & Ho & Hm).
      { rewrite range_2_6. simpl. lia. }
      replace (k - 1 + 1)%Z with k in Ho by lia.
      destruct (position_options_of_rules c0 c1 rules k Hrules ltac:(lia))
        as (options' & Ho' & Hgpo).
      exists [c], options. split; [now apply char_at_index|].
      split; [congruence | assumption].
    - intros Hoff.
      split; [assumption|]. split; [assumption|].
      exists c0, c1. split; [assumption|]. split; [assumption|].
      destruct (Hoff 1%Z ltac:(lia)) as (c & o & Hc & Ho & Hm).
      apply char_at_index in Hc. simpl in Hc. rewrite H0 in Hc.
      injection Hc as <-. injection Ho as <-.
      split; [assumption|].
      destruct (Hoff 2%Z ltac:(lia)) as (c & o & Hc & Ho & Hm').
      apply char_at_index in Hc. simpl in Hc. rewrite H1 in Hc.
      injection Hc as <-.
      unfold Enhanced.get_position_options in Ho. cbn [Z.eqb Pos.eqb andb] in Ho.
      cbn [Enhanced.opt_mem] in Ho. rewrite Hm in Ho. injection Ho as <-.
      split; [assumption|].
      rewrite Hdef.
      apply (basic_attribute_loop_none U _ _ rules);
        [assumption | rewrite range_2_6; repeat constructor; lia|].
      rewrite Forall_forall. intros p Hp.
      rewrite range_2_6 in Hp.
      assert (Hp' : (1 <= p + 1 <= 6)%Z /\ (3 <= p + 1 <= 6)%Z)
        by (simpl in Hp; lia).
      destruct (Hoff (p + 1)%Z (proj1 Hp')) as (c & o & Hc & Ho & Hmc).
      apply char_at_index in Hc. replace (p + 1 - 1)%Z with p in Hc by lia.
      destruct (str_index_single _ _ _ Hc) as [x ->].
      destruct (position_options_of_rules c0 c1 rules _ Hrules (proj2 Hp'))
        as (options' & Ho' & Hgpo).
      exists x, o. repeat split; trivial. congruence. }
  split; [exact Hbasic|].
  rewrite <- Hbasic.
  destruct (validate_spec U (PyStr s)) as ([[b msg] info] & Henh & Hb & _).
  unfold compact in Hb. simpl in Hb. rewrite Henh, Hb. split.
  - intros (msg' & info' & [= -> _ _]). now exists msg.
  - intros (msg' & [= -> _]). now exists msg, info.
Qed.

Lemma accepted_iff_offered_witness :
  (exists msg, Basic.validate ascii_only (PyStr (lit "dbfsgr")) = Ok (true, msg))
  <-> (forall k, (1 <= k <= 6)%Z ->
         exists c options,
           char_at (str_upper ascii_only (lit "dbfsgr")) k = Some c
           /\ Enhanced.get_position_options (Some (lit "D")) (Some (lit "B")) k
              = Ok options
           /\ dict_mem pystr_eqb c options = true).
Proof.
  apply (proj1 (accepted_iff_offered ascii_only (lit "dbfsgr") 68 66
                  eq_refl eq_refl eq_refl eq_refl eq_refl)).
Defined.

(** X7. For a six-character alphabetic string whose upper-cased form starts
    with a pair that has no attribute rules, [validate] accepts exactly
    when the category is registered, the group is registered under it and
    the four attribute characters of the upper-cased form are alphabetic:
    the attribute characters are otherwise unconstrained. *)
Theorem accepted_without_rules (U : unicode_db) (s : pystr) (c0 c1 : N) :
  List.length s = 6%nat -> str_isalpha U s = true ->
  char_at (str_upper U s) 1 = Some [c0] ->
  char_at (str_upper U s) 2 = Some [c1] ->
  dict_mem pystr_eqb [c0; c1] ATTRIBUTES = false ->
  (exists msg, Basic.validate U (PyStr s) = Ok (true, msg))
  <-> dict_mem pystr_eqb [c0] CATEGORIES = true
      /\ dict_mem pystr_eqb [c1] (dict_get pystr_eqb GROUPS [c0] []) = true
      /\ forall k, (3 <= k <= 6)%Z ->
           exists c, char_at (str_upper U s) k = Some [c]
                     /\ isalpha_cp U c = true.
Proof.
  intros Hlen Halpha H0 H1 Hundef.
  apply char_at_index in H0, H1. simpl in H0, H1.
  rewrite basic_validate_accepts. split.
  - intros (_ & _ & c0' & c1' & E0 & E1 & Ecat & Egrp & Eloop).
    rewrite H0 in E0. rewrite H1 in E1.
    injection E0 as <-. injection E1 as <-.
    rewrite Hundef in Eloop. apply basic_fallback_loop_none in Eloop.
    rewrite Forall_forall in Eloop.
    repeat split; trivial. intros k Hk.
    destruct (Eloop (k - 1)%Z) as (c & Hc & Ha).
    { rewrite range_2_6. simpl. lia. }
    exists c. split; [now apply char_at_index|].
    unfold str_isalpha in Ha. simpl in Ha. now rewrite andb_true_r in Ha.
  - intros (Ecat & Egrp & Hattrs).
    split; [assumption|]. split; [assumption|].
    exists c0, c1. repeat (split; [assumption|]).
    rewrite Hundef. apply basic_fallback_loop_none.
    rewrite Forall_forall. intros p Hp. rewrite range_2_6 in Hp.
    destruct (Hattrs (p + 1)%Z) as (c & Hc & Ha); [simpl in Hp; lia|].
    apply char_at_index in Hc. replace (p + 1 - 1)%Z with p in Hc by lia.
    exists c. split; [assumption|].
    unfold str_isalpha. simpl. now rewrite Ha.
Qed.

Lemma accepted_without_rules_witness :
  (exists msg, Basic.validate ascii_only (PyStr (lit "exqqqq")) = Ok (true, msg))
  <-> dict_mem pystr_eqb (lit "E") CATEGORIES = true
      /\ dict_mem pystr_eqb (lit "X") (dict_get pystr_eqb GROUPS (lit "E") [])
         = true
      /\ forall k, (3 <= k <= 6)%Z ->
           exists c, char_at (str_upper ascii_only (lit "exqqqq")) k = Some [c]
                     /\ isalpha_cp ascii_only c = true.
Proof.
  apply (accepted_without_rules ascii_only (lit "exqqqq") 69 88
           eq_refl eq_refl eq_refl eq_refl eq_refl).
Defined.

(** X8. [display_cfi_details] of [cfi_validator.py], which does not
    validate, returns normally exactly when the upper-cased argument has at
    least six characters, and has then printed eight lines; on a shorter
    argument it stops with [IndexError], and with no other exception,
    having printed fewer than eight lines. *)
Theorem basic_display_outcome (U : unicode_db) (s : pystr) :
  if (6 <=? Z.of_nat (List.length (str_upper U s)))%Z
  then snd (Basic.display_cfi_details U s) = Ok tt
       /\ List.length (fst (Basic.display_cfi_details U s)) = 8%nat
  else snd (Basic.display_cfi_details U s) = Raise IndexError
       /\ (List.length (fst (Basic.display_cfi_details U s)) < 8)%nat.
Proof. exact (basic_display_status U s). Qed.

(** X9. Choice ['1'] of [main] never raises, whatever line was typed: a
    rejected line costs one printed line, an accepted one is followed by
    the eight lines of [display_cfi_details]. *)
Theorem main_validate_choice_never_raises (U : unicode_db) (s : pystr) :
  exists b msg,
    Basic.validate U (PyStr s) = Ok (b, msg)
    /\ snd (Basic.main_validate_choice U s) = Ok tt
    /\ List.length (fst (Basic.main_validate_choice U s))
       = if b then 9%nat else 1%nat.
Proof. exact (main_validate_choice_status U s). Qed.

(** X10. [display_cfi_details] of [cfi_validator_test.py] on a string that
    [validate] accepts: it looks the groups up under the first character of
    the string as given, not of its upper-cased form, so it returns
    normally when that character is a key of [GROUPS] and stops with
    [KeyError] when it is not. *)
Theorem enhanced_display_outcome (U : unicode_db) (s msg : pystr)
    (info : Enhanced.positions_info_t) :
  Enhanced.validate U (PyStr s) = Ok (true, msg, info) ->
  exists c,
    char_at s 1 = Some c
    /\ snd (Enhanced.display_cfi_details U s)
       = if dict_mem pystr_eqb c GROUPS then Ok tt else Raise KeyError.
Proof. exact (enhanced_display_status U s msg info). Qed.

Lemma enhanced_display_outcome_witness :
  exists c,
    char_at (lit "ESVNFB") 1 = Some c
    /\ snd (Enhanced.display_cfi_details ascii_only (lit "ESVNFB"))
       = if dict_mem pystr_eqb c GROUPS then Ok tt else Raise KeyError.
Proof.
  eapply (enhanced_display_outcome ascii_only (lit "ESVNFB")).
  vm_compute. reflexivity.
Defined.

(** X11. In particular [display_cfi_details] of [cfi_validator_test.py]
    stops with [KeyError] on every accepted string that begins with a
    lower-case ASCII letter, although [validate] accepts such strings. *)
Theorem enhanced_display_fails_on_lower_case (U : unicode_db) (c : N)
    (rest msg : pystr) (info : Enhanced.positions_info_t) :
  is_ascii_lower c = true ->
  Enhanced.validate U (PyStr (c :: rest)) = Ok (true, msg, info) ->
  snd (Enhanced.display_cfi_details U (c :: rest)) = Raise KeyError.
Proof.
  intros Hlow H.
  destruct (enhanced_display_status U (c :: rest) msg info H)
    as (c' & Hc & ->).
  apply char_at_index in Hc.
  destruct (str_index_single _ _ _ Hc) as [x ->].
  apply str_index_nth in Hc; [|lia]. simpl in Hc. injection Hc as <-.
  destruct (dict_mem pystr_eqb [c] GROUPS) eqn:Hmem; [|reflexivity].
  apply group_keys_upper in Hmem.
  unfold is_ascii_upper, is_ascii_lower in *.
  apply andb_true_iff in Hlow as [Hl1 Hl2], Hmem as [Hu1 Hu2].
  apply N.leb_le in Hl1, Hl2, Hu1, Hu2. lia.
Qed.

Lemma enhanced_display_fails_on_lower_case_witness :
  snd (Enhanced.display_cfi_details ascii_only (lit "esvnfb")) = Raise KeyError.
Proof.
  eapply (enhanced_display_fails_on_lower_case ascii_only 101 (lit "svnfb")).
  - reflexivity.
  - vm_compute. reflexivity.
Defined.

(** X12. Whatever the enhanced [validate] returns for a string, every value
    it has recorded is the character of the upper-cased string at that
    position, and every meaning it has recorded is the description that
    [get_position_options], asked with the code's category and group,
    gives for that character, or "Custom attribute (no predefined meaning)"
    when that dictionary does not list the character. *)
Theorem decomposition_describes_code (U : unicode_db) (s : pystr) (b : bool)
    (msg : pystr) (info : Enhanced.positions_info_t) :
  Enhanced.validate U (PyStr s) = Ok (b, msg, info) ->
  forall j,
    (forall v, value_at info j = Some v -> char_at (str_upper U s) j = Some v)
    /\ (forall m, meaning_at info j = Some m ->
          exists v, char_at (str_upper U s) j = Some v
                    /\ meaning_ok (str_upper U s) j v m).
Proof.
  intros H j. pose proof (enhanced_validate_described U s b msg info H j) as Hd.
  unfold value_at, meaning_at.
  destruct (entry info j) as [r|]; [now apply Hd|].
  split; intros ? ?; discriminate.
Qed.

Lemma decomposition_describes_code_witness :
  exists msg info,
    Enhanced.validate ascii_only (PyStr (lit "exqxzz")) = Ok (true, msg, info)
    /\ ((forall v, value_at info 5 = Some v ->
           char_at (str_upper ascii_only (lit "exqxzz")) 5 = Some v)
        /\ (forall m, meaning_at info 5 = Some m ->
              exists v, char_at (str_upper ascii_only (lit "exqxzz")) 5 = Some v
                        /\ meaning_ok (str_upper ascii_only (lit "exqxzz")) 5 v m)).
Proof.
  do 2 eexists. split; [vm_compute; reflexivity|].
  eapply (decomposition_describes_code ascii_only (lit "exqxzz") true).
  vm_compute. reflexivity.
Defined.

(** X13. [generate_cfi_code] of [cfi_validator.py] raises nothing but the
    [EOFError] of an exhausted input: whatever is typed, no table lookup
    of the dialogue fails.  When it returns it has read at least six
    lines, and what it returns is [None] or a code that [validate]
    accepts. *)
Theorem generator_returns_valid_or_none (U : unicode_db) (inputs : list pystr) :
  match snd (Basic.generate_cfi_code U inputs) with
  | (rest, Returned r) =>
      (6 + List.length rest <= List.length inputs)%nat
      /\ match r with
         | Some code => exists msg, Basic.validate U (PyStr code) = Ok (true, msg)
         | None => True
         end
  | (_, EOFError) => True
  | (_, Failed _) => False
  end.
Proof. exact (generate_cfi_code_consumes U inputs). Qed.

(** X14. When the category and group chosen in the dialogue of
    [generate_cfi_code] have attribute rules, the code the dialogue has
    assembled is always accepted by the final [validate]: the generator
    returns it, and the warning branch is not taken. *)
Theorem generated_code_with_rules_is_valid (U : unicode_db)
    (inputs rest : list pystr) (code : pystr) :
  snd (Basic.assemble_cfi_code U inputs) = (rest, Returned code) ->
  dict_mem pystr_eqb (firstn 2 code) ATTRIBUTES = true ->
  (exists msg, Basic.validate U (PyStr code) = Ok (true, msg))
  /\ snd (Basic.generate_cfi_code U inputs) = (rest, Returned (Some code)).
Proof.
  intros Hrun Hrules.
  pose proof (assemble_cfi_code_consumes U inputs) as Hasm.
  rewrite Hrun in Hasm. destruct Hasm as [_ Hasm].
  destruct (assembled_valid U code Hasm Hrules) as [msg Hvalid].
  split; [now exists msg|].
  unfold Basic.generate_cfi_code.
  rewrite (snd_bind_returned _ _ _ _ _ Hrun), Hvalid, snd_after_lift.
  now rewrite snd_after_print.
Qed.

Lemma generated_code_with_rules_is_valid_witness :
  (exists msg, Basic.validate ascii_only (PyStr (lit "ESVNFB")) = Ok (true, msg))
  /\ snd (Basic.generate_cfi_code ascii_only
            [lit "e"; lit "s"; lit "v"; lit "n"; lit "f"; lit "b"])
     = ([], Returned (Some (lit "ESVNFB"))).
Proof.
  apply (generated_code_with_rules_is_valid ascii_only
           [lit "e"; lit "s"; lit "v"; lit "n"; lit "f"; lit "b"] []
           (lit "ESVNFB")).
  - vm_compute. reflexivity.
  - vm_compute. reflexivity.
Defined.

(** X15. [main] never ends with an uncaught exception of its own code:
    whatever is typed, the menu loop is left because the user chose 3, or
    the program stops on the [EOFError] of an exhausted input.  In
    particular [display_cfi_details] is only reached with codes for which
    it does not raise. *)
Theorem main_leaves_by_choice_or_end_of_input (U : unicode_db)
    (inputs : list pystr) :
  snd (snd (Basic.main U inputs)) = Returned (Some tt)
  \/ snd (snd (Basic.main U inputs)) = EOFError.
Proof.
  unfold Basic.main. rewrite !snd_after_print.
  pose proof (main_loop_ends U (S (List.length inputs)) inputs (le_n _)) as H.
  destruct (snd (Basic.main_loop U (S (List.length inputs)) inputs))
    as [rest [[[]|]| |e]]; simpl; auto; contradiction.
Qed.

(** X16. Round trip between the validator and the generator: typing the
    six characters of any code of ASCII letters that [validate] accepts,
    one per question, makes [generate_cfi_code] return that code in upper
    case, reading exactly those six lines. *)
Theorem generator_rebuilds_accepted_code (U : unicode_db) (s : pystr)
    (extra : list pystr) :
  forallb is_ascii_letter s = true ->
  (exists msg, Basic.validate U (PyStr s) = Ok (true, msg)) ->
  snd (Basic.generate_cfi_code U (map (fun c => [c]) s ++ extra))
  = (extra, Returned (Some (str_upper U s))).
Proof.
  intros Hascii Hvalid.
  destruct (ascii_letters_fold U s Hascii) as (Hup & _ & Halpha & Hascii' & _ & Hidem & _).
  assert (Hvalid' : exists msg,
             Basic.validate U (PyStr (str_upper U s)) = Ok (true, msg)).
  { destruct Hvalid as [msg Hv]. exists msg. rewrite <- Hv. symmetry.
    destruct (ascii_letters_fold U _ Hascii') as (Hup' & _ & Halpha' & _).
    apply basic_validate_ext.
    - rewrite Hup. now rewrite length_map.
    - unfold str_isalpha. rewrite Hup, length_map, Halpha. now rewrite Halpha'.
    - rewrite Hup, Hup'. now rewrite Hidem. }
  pose proof Hvalid as Hparts.
  apply basic_validate_accepts in Hparts
    as (Hlen & _ & c0 & c1 & E0 & E1 & Hcat & Hgrp & Hloop).
  assert (Hone : forall c, In c s -> str_upper U [c] = [ascii_upper c]).
  { intros c Hin. rewrite forallb_forall in Hascii.
    destruct (ascii_letters_fold U [c]) as (H1 & _); [|exact H1].
    simpl. now rewrite (Hascii c Hin). }
  destruct s as [|s0 [|s1 [|s2 [|s3 [|s4 [|s5 [|s6 s]]]]]]]; try discriminate.
  rewrite Hup in *. cbn [map app] in *.
  assert (H0 := Hone s0 ltac:(simpl; tauto)).
  assert (H1 := Hone s1 ltac:(simpl; tauto)).
  assert (H2 := Hone s2 ltac:(simpl; tauto)).
  assert (H3 := Hone s3 ltac:(simpl; tauto)).
  assert (H4 := Hone s4 ltac:(simpl; tauto)).
  assert (H5 := Hone s5 ltac:(simpl; tauto)).
  clear Hone.
  injection E0 as <-. injection E1 as <-.
  destruct (categories_have_groups _ Hcat) as (_ & groups & _ & Hg).
  unfold dict_get in Hgrp. rewrite Hg in Hgrp.
  assert (Hcat' : dict_mem pystr_eqb (str_upper U [s0]) CATEGORIES = true)
    by now rewrite H0.
  assert (Hgrp' : dict_mem pystr_eqb (str_upper U [s1]) groups = true)
    by now rewrite H1.
  unfold Basic.generate_cfi_code, Basic.assemble_cfi_code.
  rewrite snd_io_bind.
  rewrite !snd_after_print.
  rewrite (snd_after_out _ tt) by apply for_each_print.
  rewrite (snd_bind_returned _ _ _ _ _ (ask_category_accepts U _ _ Hcat')).
  rewrite H0, snd_after_print.
  unfold dict_getitem at 1. rewrite Hg, snd_after_lift.
  rewrite (snd_after_out _ tt) by apply for_each_print.
  rewrite (snd_bind_returned _ _ _ _ _ (ask_group_accepts U _ _ _ _ Hg Hgrp')).
  rewrite H1. cbv zeta. cbn [app].
  change (range 3 7) with [3; 4; 5; 6]%Z. cbn [Basic.select_attributes].
  assert (Hsel : forall (p : Z) (sk : N),
            nth_error [ascii_upper s0; ascii_upper s1; ascii_upper s2;
                       ascii_upper s3; ascii_upper s4; ascii_upper s5]
              (Z.to_nat (p - 1)) = Some (ascii_upper sk) ->
            (3 <= p <= 6)%Z ->
            str_upper U [sk] = [ascii_upper sk] ->
            match dict_lookup pystr_eqb ([ascii_upper s0] ++ [ascii_upper s1])
                    ATTRIBUTES with
            | Some rules =>
                match dict_lookup Z.eqb p rules with
                | Some options =>
                    dict_mem pystr_eqb (str_upper U [sk]) options = true
                | None => str_upper U [sk] <> []
                end
            | None => str_upper U [sk] <> []
            end).
  { intros p sk Hnth Hp Hsk. rewrite Hsk. cbn [app].
    unfold dict_mem in Hloop.
    destruct (dict_lookup pystr_eqb [ascii_upper s0; ascii_upper s1] ATTRIBUTES)
      as [rules|] eqn:Hrules; [|discriminate].
    apply (basic_attribute_loop_none U _ _ rules) in Hloop;
      [|assumption | rewrite range_2_6; repeat constructor; lia].
    rewrite Forall_forall in Hloop.
    destruct (Hloop (p - 1)%Z) as (c & o & Hc & Ho & Hm).
    { rewrite range_2_6. simpl. lia. }
    apply str_index_nth in Hc; [|lia]. rewrite Hnth in Hc. injection Hc as <-.
    replace (p - 1 + 1)%Z with p in Ho by lia. now rewrite Ho. }
  rewrite (snd_bind_returned _ _ _ _ _
             (select_attribute_accepts U _ _ [s2] 3 _ (Hsel 3%Z s2 eq_refl ltac:(lia) H2))).
  rewrite (snd_bind_returned _ _ _ _ _
             (select_attribute_accepts U _ _ [s3] 4 _ (Hsel 4%Z s3 eq_refl ltac:(lia) H3))).
  rewrite (snd_bind_returned _ _ _ _ _
             (select_attribute_accepts U _ _ [s4] 5 _ (Hsel 5%Z s4 eq_refl ltac:(lia) H4))).
  rewrite (snd_bind_returned _ _ _ _ _
             (select_attribute_accepts U _ _ [s5] 6 _ (Hsel 6%Z s5 eq_refl ltac:(lia) H5))).
  rewrite H2, H3, H4, H5. cbn [app io_ret snd].
  destruct Hvalid' as [msg' Hv']. rewrite Hv', snd_after_lift.
  now rewrite snd_after_print.
Qed.

Lemma generator_rebuilds_accepted_code_witness :
  snd (Basic.generate_cfi_code ascii_only
         (map (fun c => [c]) (lit "dcqrzz") ++ [lit "3"]))
  = ([lit "3"], Returned (Some (str_upper ascii_only (lit "dcqrzz")))).
Proof.
  apply (generator_rebuilds_accepted_code ascii_only (lit "dcqrzz") [lit "3"]).
  - reflexivity.
  - eexists. vm_compute. reflexivity.
Defined.

(** X17. [generate_cfi_code] of [cfi_validator_test.py] raises nothing but
    the [EOFError] of an exhausted input, whatever string is given as the
    prefix and whatever is typed: neither the parsing of the prefix nor
    the dialogue indexes a string out of range or misses a key.  What it
    returns is [None] or a code that [validate] accepts. *)
Theorem prefix_generator_returns_valid_or_none (U : unicode_db)
    (initial_prefix : pystr) (inputs : list pystr) :
  match snd (Enhanced.generate_cfi_code U initial_prefix inputs) with
  | (_, Returned (Some code)) =>
      exists msg info, Enhanced.validate U (PyStr code) = Ok (true, msg, info)
  | (_, Returned None) => True
  | (_, EOFError) => True
  | (_, Failed _) => False
  end.
Proof.
  pose proof (enhanced_generate_consumes U initial_prefix inputs) as H.
  destruct (snd (Enhanced.generate_cfi_code U initial_prefix inputs))
    as [rest [[code|]| |e]]; trivial; apply H.
Qed.

(** X18. Completing a prefix: take any string of ASCII letters that
    [validate] accepts, give its first [k] characters to
    [generate_cfi_code] as the prefix and type the remaining characters,
    one per question.  The generator then returns the whole string in
    upper case and has read exactly the lines typed.  With [k = 0] this is
    the dialogue without a prefix; with the whole code as the prefix
    nothing is asked. *)
Theorem prefix_is_completed (U : unicode_db) (s : pystr) (k : nat)
    (extra : list pystr) :
  forallb is_ascii_letter s = true ->
  (exists msg info, Enhanced.validate U (PyStr s) = Ok (true, msg, info)) ->
  snd (Enhanced.generate_cfi_code U (firstn k s)
         (map (fun c => [c]) (skipn k s) ++ extra))
  = (extra, Returned (Some (str_upper U s))).
Proof.
  intros Hascii (msg & info & Hvalid).
  destruct (ascii_letters_fold U s Hascii)
    as (Hup & _ & Halpha & Hascii' & _ & Hidem & _).
  assert (Hvalid' : Enhanced.validate U (PyStr (str_upper U s))
                    = Ok (true, msg, info)).
  { rewrite <- Hvalid. symmetry.
    destruct (ascii_letters_fold U _ Hascii') as (Hup' & _ & Halpha' & _).
    apply enhanced_validate_ext.
    - rewrite Hup. now rewrite length_map.
    - unfold str_isalpha. rewrite Hup, length_map, Halpha. now rewrite Halpha'.
    - rewrite Hup, Hup'. now rewrite Hidem. }
  assert (Hbasic : exists msg', Basic.validate U (PyStr s) = Ok (true, msg')).
  { destruct (validate_spec U (PyStr s)) as ([[b msg'] info'] & Henh & Hb & _).
    rewrite Hvalid in Henh. injection Henh as <- <- <-. now exists msg. }
  apply basic_validate_accepts in Hbasic
    as (Hlen & _ & c0 & c1 & E0 & E1 & Hcat & Hgrp & Hloop).
  assert (Hfirst : forall n, str_upper U (firstn n s)
                             = firstn n (map ascii_upper s)).
  { intros n.
    destruct (ascii_letters_fold U _ (forallb_firstn _ n _ Hascii)) as [-> _].
    symmetry. apply firstn_map. }
  assert (Hone : forall c, In c s -> str_upper U [c] = [ascii_upper c]).
  { intros c Hin. rewrite forallb_forall in Hascii.
    destruct (ascii_letters_fold U [c]) as (H1 & _); [|exact H1].
    simpl. now rewrite (Hascii c Hin). }
  destruct s as [|s0 [|s1 [|s2 [|s3 [|s4 [|s5 [|s6 s]]]]]]]; try discriminate.
  rewrite Hup in *. cbn [map] in *.
  assert (H0 := Hone s0 ltac:(simpl; tauto)).
  assert (H1 := Hone s1 ltac:(simpl; tauto)).
  assert (H2 := Hone s2 ltac:(simpl; tauto)).
  assert (H3 := Hone s3 ltac:(simpl; tauto)).
  assert (H4 := Hone s4 ltac:(simpl; tauto)).
  assert (H5 := Hone s5 ltac:(simpl; tauto)).
  clear Hone Hup Halpha Hascii' Hidem Hvalid Hascii.
  injection E0 as <-. injection E1 as <-.
  destruct (categories_have_groups _ Hcat) as (_ & groups & _ & Hg).
  unfold dict_get in Hgrp. rewrite Hg in Hgrp.
  assert (Hgrp' : dict_mem pystr_eqb [ascii_upper s1]
                    (dict_get pystr_eqb GROUPS [ascii_upper s0] []) = true)
    by (unfold dict_get; now rewrite Hg).
  assert (Hsel : forall (p : Z) (c : N),
            nth_error [ascii_upper s0; ascii_upper s1; ascii_upper s2;
                       ascii_upper s3; ascii_upper s4; ascii_upper s5]
              (Z.to_nat (p - 1)) = Some c ->
            (3 <= p <= 6)%Z ->
            attribute_taken U [ascii_upper s0; ascii_upper s1] p [c]).
  { intros p c Hnth Hp. unfold attribute_taken. unfold dict_mem in Hloop.
    destruct (dict_lookup pystr_eqb [ascii_upper s0; ascii_upper s1] ATTRIBUTES)
      as [rules|] eqn:Hrules.
    - apply (basic_attribute_loop_none U _ _ rules) in Hloop;
        [|assumption | rewrite range_2_6; repeat constructor; lia].
      rewrite Forall_forall in Hloop.
      destruct (Hloop (p - 1)%Z) as (c' & o & Hc & Ho & Hm).
      { rewrite range_2_6. simpl. lia. }
      apply str_index_nth in Hc; [|lia]. rewrite Hnth in Hc. injection Hc as <-.
      replace (p - 1 + 1)%Z with p in Ho by lia. now rewrite Ho.
    - apply basic_fallback_loop_none in Hloop.
      rewrite Forall_forall in Hloop.
      destruct (Hloop (p - 1)%Z) as (c' & Hc & Hm).
      { rewrite range_2_6. simpl. lia. }
      apply str_index_nth in Hc; [|lia]. rewrite Hnth in Hc.
      now injection Hc as <-. }
  destruct k as [|[|[|[|[|[|k]]]]]].
  - unfold Enhanced.generate_cfi_code.
    cbn [firstn skipn map app List.length Nat.eqb negb].
    prefix_stage U Hcat Hgrp' Hsel.
    dialogue_stage U Hcat Hgrp Hg Hsel H0 H1 H2 H3 H4 H5.
    rewrite Hvalid', snd_after_lift. now rewrite snd_after_print.
  - unfold Enhanced.generate_cfi_code.
    pose proof (Hfirst 1%nat) as Hk. cbn [firstn] in Hk.
    cbn [firstn skipn map app List.length Nat.eqb negb]. rewrite Hk.
    prefix_stage U Hcat Hgrp' Hsel.
    dialogue_stage U Hcat Hgrp Hg Hsel H0 H1 H2 H3 H4 H5.
    rewrite Hvalid', snd_after_lift. now rewrite snd_after_print.
  - unfold Enhanced.generate_cfi_code.
    pose proof (Hfirst 2%nat) as Hk. cbn [firstn] in Hk.
    cbn [firstn skipn map app List.length Nat.eqb negb]. rewrite Hk.
    prefix_stage U Hcat Hgrp' Hsel.
    dialogue_stage U Hcat Hgrp Hg Hsel H0 H1 H2 H3 H4 H5.
    rewrite Hvalid', snd_after_lift. now rewrite snd_after_print.
  - unfold Enhanced.generate_cfi_code.
    pose proof (Hfirst 3%nat) as Hk. cbn [firstn] in Hk.
    cbn [firstn skipn map app List.length Nat.eqb negb]. rewrite Hk.
    prefix_stage U Hcat Hgrp' Hsel.
    dialogue_stage U Hcat Hgrp Hg Hsel H0 H1 H2 H3 H4 H5.
    rewrite Hvalid', snd_after_lift. now rewrite snd_after_print.
  - unfold Enhanced.generate_cfi_code.
    pose proof (Hfirst 4%nat) as Hk. cbn [firstn] in Hk.
    cbn [firstn skipn map app List.length Nat.eqb negb]. rewrite Hk.
    prefix_stage U Hcat Hgrp' Hsel.
    dialogue_stage U Hcat Hgrp Hg Hsel H0 H1 H2 H3 H4 H5.
    rewrite Hvalid', snd_after_lift. now rewrite snd_after_print.
  - unfold Enhanced.generate_cfi_code.
    pose proof (Hfirst 5%nat) as Hk. cbn [firstn] in Hk.
    cbn [firstn skipn map app List.length Nat.eqb negb]. rewrite Hk.
    prefix_stage U Hcat Hgrp' Hsel.
    dialogue_stage U Hcat Hgrp Hg Hsel H0 H1 H2 H3 H4 H5.
    rewrite Hvalid', snd_after_lift. now rewrite snd_after_print.
  - unfold Enhanced.generate_cfi_code.
    pose proof (Hfirst (6 + k)%nat) as Hk.
    cbn [firstn Nat.add] in Hk. rewrite !firstn_nil in Hk.
    cbn [firstn skipn map app List.length Nat.eqb negb].
    rewrite firstn_nil, skipn_nil, Hk. cbn [map app].
    prefix_stage U Hcat Hgrp' Hsel.
    dialogue_stage U Hcat Hgrp Hg Hsel H0 H1 H2 H3 H4 H5.
    rewrite Hvalid', snd_after_lift. now rewrite snd_after_print.
Qed.

Lemma prefix_is_completed_witness :
  snd (Enhanced.generate_cfi_code ascii_only (firstn 3 (lit "esvnfb"))
         (map (fun c => [c]) (skipn 3 (lit "esvnfb")) ++ [lit "zz"]))
  = ([lit "zz"], Returned (Some (str_upper ascii_only (lit "esvnfb")))).
Proof.
  apply (prefix_is_completed ascii_only (lit "esvnfb") 3 [lit "zz"]).
  - reflexivity.
  - do 2 eexists. vm_compute. reflexivity.
Defined.


(** X19. A prefix that does not begin with a registered category is
    dropped as a whole: after the warning, [generate_cfi_code] reads the
    same lines and returns the same result as it does without a prefix,
    whatever the rest of the prefix holds. *)
Theorem unusable_prefix_is_dropped (U : unicode_db) (initial_prefix : pystr)
    (inputs : list pystr) :
  (forall c, str_index (str_upper U initial_prefix) 0 = Ok c ->
             dict_mem pystr_eqb c CATEGORIES = false) ->
  snd (Enhanced.generate_cfi_code U initial_prefix inputs)
  = snd (Enhanced.generate_cfi_code U [] inputs).
Proof.
  intros Hbad. unfold Enhanced.generate_cfi_code.
  rewrite !snd_after_print. cbv zeta. apply snd_out_cong.
  cbn [List.length Nat.eqb negb].
  change (snd (Enhanced.prefix_category [])) with (@Ok _ (@nil N, @nil N, @None pystr)).
  destruct initial_prefix as [|x rest]; [reflexivity|].
  cbn [List.length Nat.eqb negb].
  pose proof (prefix_category_spec (str_upper U (x :: rest))) as H.
  destruct (str_index (str_upper U (x :: rest)) 0) as [c|e]; [|apply H].
  now rewrite (Hbad c eq_refl) in H.
Qed.

Lemma unusable_prefix_is_dropped_witness :
  snd (Enhanced.generate_cfi_code ascii_only (lit "zsvnfb") [lit "e"; lit "s"])
  = snd (Enhanced.generate_cfi_code ascii_only [] [lit "e"; lit "s"]).
Proof.
  apply (unusable_prefix_is_dropped ascii_only (lit "zsvnfb") [lit "e"; lit "s"]).
  intros c H. vm_compute in H. injection H as <-. reflexivity.
Defined.
